(** * Transaction simulation and analysis engine

    A shallow embedding of [transaction-simulation.js] (class
    [TransactionSimulator]) and of the part of [errors.js] it uses, followed
    by the logger of [logger.js] and the compile, deploy and verify
    operations of [contract-templates.js] (class [ContractTemplates]).

    - JavaScript values are modelled with the types the code manipulates:
      [bigint] as [Z], strings as [string], a property that may be absent as
      [option].
    - The chain RPC client, the ERC-20 contract binding, the wallet manager
      and the ethers library are external collaborators: they are interfaces
      (type classes) whose answers are either a value or a thrown error.
    - The request objects live in a heap ([gmap loc TxRequest]) so that
      aliasing between the caller's object and the simulator's working copy is
      visible; [async]/[await] is sequential composition in a state and
      exception monad.
    - The logger and the contract operations touch no request object: their
      effects are the lines, file appends, broadcasts and posts they cause,
      kept as a list in the order they happen. *)

From stdpp Require Import gmap strings list fin_maps pretty.
From Stdlib Require Import ZArith Ascii String HexadecimalString.

Local Open Scope Z_scope.

(** ** JavaScript primitives used by the source *)

Module Js.

(** [!!s]: the empty string is the only falsy string. *)
Definition truthy_string (s : string) : bool := negb (String.eqb s "").

(** Truthiness of a property that holds a string or is [undefined]/[null]. *)
Definition truthy_ostring (o : option string) : bool :=
  match o with
  | Some s => truthy_string s
  | None => false
  end.

Definition lower_ascii (c : ascii) : ascii :=
  let n := N_of_ascii c in
  if ((65 <=? n) && (n <=? 90))%N then ascii_of_N (n + 32) else c.

(** [String.prototype.toLowerCase] (ASCII letters). *)
Fixpoint toLowerCase (s : string) : string :=
  match s with
  | EmptyString => EmptyString
  | String c t => String (lower_ascii c) (toLowerCase t)
  end.

(** [s.slice(start)]: a negative [start] counts from the end. *)
Definition slice_from (start : Z) (s : string) : string :=
  let len := Z.of_nat (String.length s) in
  let b := if start <? 0 then Z.max (len + start) 0 else Z.min start len in
  String.substring (Z.to_nat b) (Z.to_nat (len - b)) s.

(** [s.substring(0, n)]. *)
Definition substring0 (n : nat) (s : string) : string := String.substring 0 n s.

(** [s.startsWith(p)]. *)
Definition startsWith (s p : string) : bool := String.prefix p s.

(** [hay.includes(needle)]. *)
Fixpoint includes (hay needle : string) : bool :=
  String.prefix needle hay ||
  match hay with
  | EmptyString => false
  | String _ t => includes t needle
  end.

(** [s.padStart(n, c)] for a one-character filler. *)
Definition padStart (n : nat) (c : ascii) (s : string) : string :=
  string_of_list_ascii (repeat c (n - String.length s)) +:+ s.

(** [BigInt.prototype.toString()] and [Number.prototype.toString()] on
    integers: the decimal numeral. *)
Definition toString (z : Z) : string := pretty z.

(** [n.toString(16)]: lower-case hexadecimal numeral, no prefix. *)
Definition toString16 (z : Z) : string :=
  HexadecimalString.NilZero.string_of_int (Z.to_hex_int z).

Definition digit_value (c : ascii) : option Z :=
  let n := Z.of_N (N_of_ascii c) in
  if (48 <=? n) && (n <=? 57) then Some (n - 48)
  else if (97 <=? n) && (n <=? 122) then Some (n - 87)
  else if (65 <=? n) && (n <=? 90) then Some (n - 55)
  else None.

Fixpoint parse_digits (base acc : Z) (s : string) : option Z :=
  match s with
  | EmptyString => Some acc
  | String c t =>
      match digit_value c with
      | Some d => if d <? base then parse_digits base (acc * base + d) t else None
      | None => None
      end
  end.

Definition parse_numeral (base : Z) (s : string) : option Z :=
  match s with
  | EmptyString => None
  | _ => parse_digits base 0 s
  end.

Definition is_white (c : ascii) : bool :=
  let n := N_of_ascii c in
  ((n =? 32) || ((9 <=? n) && (n <=? 13)))%N.

Fixpoint trimStart (s : string) : string :=
  match s with
  | String c t => if is_white c then trimStart t else s
  | EmptyString => EmptyString
  end.

Fixpoint trimEnd (s : string) : string :=
  match s with
  | EmptyString => EmptyString
  | String c t =>
      match trimEnd t with
      | EmptyString => if is_white c then EmptyString else String c EmptyString
      | t' => String c t'
      end
  end.

Definition trim (s : string) : string := trimEnd (trimStart s).

(** The radix announced by a ["0x"], ["0o"] or ["0b"] prefix, with the rest
    of the text. *)
Definition radix_prefix (s : string) : option (Z * string) :=
  match s with
  | String a (String b r) =>
      if Ascii.eqb a "0" then
        if Ascii.eqb b "x" || Ascii.eqb b "X" then Some (16, r)
        else if Ascii.eqb b "o" || Ascii.eqb b "O" then Some (8, r)
        else if Ascii.eqb b "b" || Ascii.eqb b "B" then Some (2, r)
        else None
      else None
  | _ => None
  end.

(** [StringToBigInt]: the conversion [BigInt(s)] applies to a string.
    [None] is the [SyntaxError] case. *)
Definition StringToBigInt (s : string) : option Z :=
  let t := trim s in
  match t with
  | EmptyString => Some 0
  | String a r =>
      if Ascii.eqb a "-" then Z.opp <$> parse_numeral 10 r
      else if Ascii.eqb a "+" then parse_numeral 10 r
      else
        match radix_prefix t with
        | Some (base, r') => parse_numeral base r'
        | None => parse_numeral 10 t
        end
  end.

(** Longest prefix of digits of [base]; [None] when there is none. *)
Fixpoint parse_prefix (base : Z) (acc : option Z) (s : string) : option Z :=
  match s with
  | EmptyString => acc
  | String c t =>
      match digit_value c with
      | Some d =>
          if d <? base then parse_prefix base (Some (default 0 acc * base + d)) t
          else acc
      | None => acc
      end
  end.

(** [parseInt(s)]: leading white space, an optional sign, an optional
    ["0x"], then as many digits as there are; [None] is [NaN]. The result is
    the integer that was read; [parseInt] returns the double nearest to it,
    which is that integer up to 2^53 in magnitude. *)
Definition parseInt (s : string) : option Z :=
  let t := trimStart s in
  let '(sign, u) :=
    match t with
    | String "-" r => (-1, r)
    | String "+" r => (1, r)
    | _ => (1, t)
    end in
  let digits :=
    match u with
    | String "0" (String "x" r) | String "0" (String "X" r) => parse_prefix 16 None r
    | _ => parse_prefix 10 None u
    end in
  Z.mul sign <$> digits.

(** [Buffer.from(s, 'hex')] followed by [.toString('hex')]: the bytes are the
    leading complete pairs of hexadecimal digits; decoding stops at the first
    pair that is not hexadecimal. The result is kept as its lower-case hex
    text, two characters per byte. *)
Fixpoint bufferFromHex (s : string) : string :=
  match s with
  | String a (String b t) =>
      match digit_value a, digit_value b with
      | Some x, Some y =>
          if (x <? 16) && (y <? 16)
          then String (lower_ascii a) (String (lower_ascii b) (bufferFromHex t))
          else EmptyString
      | _, _ => EmptyString
      end
  | _ => EmptyString
  end.

(** [buf.slice(-n).toString('hex')] on a buffer kept as hex text. *)
Definition bufferLastBytesHex (n : Z) (hex : string) : string :=
  slice_from (- (2 * n)) hex.

End Js.

(** ** errors.js *)

(** Object identities of the request objects passed around by reference. *)
Definition loc := positive.

Module Errors.

Module ErrorCodes.
Definition INVALID_ADDRESS : string := "INVALID_ADDRESS".
Definition TRANSACTION_FAILED : string := "TRANSACTION_FAILED".
End ErrorCodes.

(** A value stored in the [details] bag of an error. *)
Inductive DetailValue :=
| DUndefined
| DString (s : string)
| DObject (l : loc)
| DError (name message : string).

(** A thrown value. Plain [Error]s and the errors of the RPC client have no
    [code] and an empty [details] bag; [data] is the revert payload some RPC
    errors carry. *)
Record JsError := mkJsError {
  name : string;
  code : option string;
  message : string;
  data : option string;
  details : list (string * DetailValue)
}.

(** [new Error(msg)] and [TypeError]. *)
Definition Error (msg : string) : JsError := mkJsError "Error" None msg None [].
Definition TypeError (msg : string) : JsError := mkJsError "TypeError" None msg None [].
Definition SyntaxError (msg : string) : JsError := mkJsError "SyntaxError" None msg None [].

(** [class TransactionError extends PolygonMCPError]: the constructor stores
    [code], [message] and [details] and sets [name]. *)
Definition TransactionError (c m : string) (d : list (string * DetailValue)) : JsError :=
  mkJsError "TransactionError" (Some c) m None d.

Definition createTransactionError (c m : string) (d : list (string * DetailValue)) : JsError :=
  TransactionError c m d.

(** Outcome of evaluating an expression: a value or a thrown error. *)
Inductive Completion (A : Type) :=
| Return (a : A)
| Throw (e : JsError).
Arguments Return {A} a.
Arguments Throw {A} e.

End Errors.
Export Errors.

(** ** The part of the ethers library the simulator calls *)

(** The decimal text of a fixed-point number, as [FixedNumber] prints it. *)
Module FixedNumber.

Fixpoint stripLeadingZeros (s : string) : string :=
  match s with
  | String "0" (String _ _ as r) => stripLeadingZeros r
  | _ => s
  end.

Definition stripTrailingZeros (s : string) : string :=
  String.rev (stripLeadingZeros (String.rev s)).

(** The text of [value / 10^decimals]: at least one digit on each side of
    the point and no other trailing zero; no point at all when [decimals] is
    0. *)
Definition toString (value decimals : Z) : string :=
  let d := Z.to_nat decimals in
  let negative := if value <? 0 then "-" else "" in
  let str := Js.toString (Z.abs value) in
  match d with
  | O => negative +:+ str
  | _ =>
      let padded := Js.padStart (S d) "0" str in
      let index := (String.length padded - d)%nat in
      let whole := String.substring 0 index padded in
      let frac := String.substring index d padded in
      negative +:+ stripLeadingZeros whole +:+ "." +:+ stripTrailingZeros frac
  end.

End FixedNumber.

(** The library is a collaborator. Address validation and checksum casing
    need keccak256 and are kept abstract. [formatUnits(value, decimals)]
    goes through a signed fixed-point format of 512 bits and at most 80
    decimals: inside that format it returns the text of the number, and it
    throws for more than 80 decimals and for a value the 512 bits cannot
    hold. The error objects the library raises carry texts that depend on
    its version; they are kept abstract as well. *)
Class EthersLibrary := {
  isAddress : string -> bool;
  (** the library's [getAddress]: the checksum casing of a hex address *)
  checksumAddress : string -> string;
  formatUnits : Z -> Z -> Completion string;
  formatUnits_in_range :
    forall value decimals,
      0 <= decimals <= 80 -> Z.abs value < 2 ^ 511 ->
      formatUnits value decimals = Return (FixedNumber.toString value decimals);
  formatUnits_decimals_limit :
    forall value decimals, 80 < decimals -> exists e, formatUnits value decimals = Throw e;
  formatUnits_overflow :
    forall value decimals,
      2 ^ 511 <= value \/ value < - 2 ^ 511 ->
      exists e, formatUnits value decimals = Throw e;
  (** [getBytes] on a text that is not ["0x"] and pairs of hex digits *)
  invalidBytesLike : string -> JsError;
  (** the reader running past the end of the call data *)
  dataOutOfBounds : JsError;
  (** an address word that does not fit 20 bytes *)
  valueExceedsWidth : Z -> JsError
}.

Module Ethers.

(** Unit names: ['gwei'] is 9 decimals, ether is 18. *)
Definition gwei : Z := 9.
Definition formatEther {ethers : EthersLibrary} (value : Z) : Completion string :=
  formatUnits value 18.

(** [parseUnits('50', 'gwei')]. *)
Definition parseUnits_50_gwei : Z := 50 * 10 ^ 9.

(** *** ABI decoding of call data ([Interface.parseTransaction]) *)

Inductive AbiType := TAddress | TUint256.

Inductive AbiValue :=
| VAddress (a : string)
| VUint (n : Z).

Record FunctionFragment := {
  frag_name : string;
  frag_selector : Z;
  frag_inputs : list AbiType
}.

Record TransactionDescription := {
  td_name : string;
  td_args : list AbiValue
}.

Fixpoint hexDigits (s : string) : option (list Z) :=
  match s with
  | EmptyString => Some []
  | String c t =>
      match Js.digit_value c, hexDigits t with
      | Some d, Some ds => if d <? 16 then Some (d :: ds) else None
      | _, _ => None
      end
  end.

(** [getBytes(data)]: ["0x"] followed by an even number of hex digits (either
    case); the bytes are kept as their hex digits. *)
Definition getBytes (data : string) : option (list Z) :=
  match data with
  | String "0" (String "x" r) =>
      match hexDigits r with
      | Some ds => if Nat.even (List.length ds) then Some ds else None
      | None => None
      end
  | _ => None
  end.

Definition digitsValue (ds : list Z) : Z :=
  fold_left (fun acc d => acc * 16 + d) ds 0.

Section Decode.
Context {ethers : EthersLibrary}.

(** One 32-byte word per static argument. An address word must fit 20 bytes
    and is returned in checksum casing. The library keeps the error of a
    word that does not fit until the argument is read, which the simulator
    does inside the same [try], with nothing in between. *)
Definition decodeWord (t : AbiType) (word : list Z) : Completion AbiValue :=
  let n := digitsValue word in
  match t with
  | TUint256 => Return (VUint n)
  | TAddress =>
      if n <? 2 ^ 160
      then Return (VAddress (checksumAddress ("0x" +:+ Js.padStart 40 "0" (Js.toString16 n))))
      else Throw (valueExceedsWidth n)
  end.

Fixpoint decodeArgs (ts : list AbiType) (ds : list Z) : Completion (list AbiValue) :=
  match ts with
  | [] => Return []
  | t :: ts' =>
      if (List.length ds <? 64)%nat then Throw dataOutOfBounds
      else
        match decodeWord t (take 64 ds) with
        | Throw e => Throw e
        | Return v =>
            match decodeArgs ts' (drop 64 ds) with
            | Throw e => Throw e
            | Return vs => Return (v :: vs)
            end
        end
  end.

(** [iface.parseTransaction({ data })]: [null] when no fragment of the ABI has
    the selector of the leading four bytes; throws when [data] is not a hex
    string or is too short for the arguments. *)
Definition parseTransaction (iface : list FunctionFragment) (data : string)
  : Completion (option TransactionDescription) :=
  match getBytes data with
  | None => Throw (invalidBytesLike data)
  | Some ds =>
      match find (fun f => (8 <=? List.length ds)%nat && (frag_selector f =? digitsValue (take 8 ds))) iface with
      | None => Return None
      | Some f =>
          match decodeArgs (frag_inputs f) (drop 8 ds) with
          | Throw e => Throw e
          | Return args => Return (Some {| td_name := frag_name f; td_args := args |})
          end
      end
  end.

End Decode.
End Ethers.

(** ** Data model *)

(** A numeric request field or block bound. The tool layer passes strings,
    the simulator fills in [bigint]s; a [Number] that holds an integer of
    magnitude up to 2^53 behaves like the [bigint] of the same value in
    every use the simulator makes of it. *)
Inductive Quantity :=
| QBigInt (z : Z)
| QString (s : string).

Definition quantity_truthy (q : Quantity) : bool :=
  match q with
  | QBigInt z => negb (z =? 0)
  | QString s => Js.truthy_string s
  end.

Definition truthy_oquantity (o : option Quantity) : bool :=
  match o with
  | Some q => quantity_truthy q
  | None => false
  end.

(** [q.toString()]. *)
Definition quantity_toString (q : Quantity) : string :=
  match q with
  | QBigInt z => Js.toString z
  | QString s => s
  end.

(** [BigInt(q)]. *)
Definition quantity_BigInt (q : Quantity) : Completion Z :=
  match q with
  | QBigInt z => Return z
  | QString s =>
      match Js.StringToBigInt s with
      | Some z => Return z
      | None => Throw (SyntaxError ("Cannot convert " +:+ s +:+ " to a BigInt"))
      end
  end.

(** Transaction request; [None] is an absent property. *)
Record TxRequest := mkTx {
  tx_from : option string;
  tx_to : option string;
  tx_value : option Quantity;
  tx_data : option string;
  tx_gasLimit : option Quantity;
  tx_gasPrice : option Quantity;
  tx_maxFeePerGas : option Quantity;
  tx_maxPriorityFeePerGas : option Quantity
}.

Definition emptyTx : TxRequest := mkTx None None None None None None None None.

Definition set_from (v : string) (t : TxRequest) : TxRequest :=
  mkTx (Some v) (tx_to t) (tx_value t) (tx_data t) (tx_gasLimit t)
       (tx_gasPrice t) (tx_maxFeePerGas t) (tx_maxPriorityFeePerGas t).
Definition set_gasLimit (v : Quantity) (t : TxRequest) : TxRequest :=
  mkTx (tx_from t) (tx_to t) (tx_value t) (tx_data t) (Some v)
       (tx_gasPrice t) (tx_maxFeePerGas t) (tx_maxPriorityFeePerGas t).
Definition set_gasPrice (v : Quantity) (t : TxRequest) : TxRequest :=
  mkTx (tx_from t) (tx_to t) (tx_value t) (tx_data t) (tx_gasLimit t)
       (Some v) (tx_maxFeePerGas t) (tx_maxPriorityFeePerGas t).
Definition set_maxFeePerGas (v : Quantity) (t : TxRequest) : TxRequest :=
  mkTx (tx_from t) (tx_to t) (tx_value t) (tx_data t) (tx_gasLimit t)
       (tx_gasPrice t) (Some v) (tx_maxPriorityFeePerGas t).
Definition set_maxPriorityFeePerGas (v : Quantity) (t : TxRequest) : TxRequest :=
  mkTx (tx_from t) (tx_to t) (tx_value t) (tx_data t) (tx_gasLimit t)
       (tx_gasPrice t) (tx_maxFeePerGas t) (Some v).

Record GasCost := mkGasCost {
  gc_wei : string;
  gc_gwei : string;
  gc_ether : string
}.

Record TokenTransfer := mkTokenTransfer {
  tt_token : option string;
  tt_symbol : string;
  tt_from : option string;
  tt_to : string;
  tt_amount : string;
  tt_rawAmount : string;
  tt_type : string
}.

(** What [extractConstructorArgs] returns: an empty array, the raw tail of
    the bytecode, or the error branch. *)
Inductive ConstructorArgs :=
| ArgsNone
| ArgsRaw (raw decoded : string)
| ArgsError (raw error : string).

Record ContractInteraction := mkContractInteraction {
  ci_type : string;
  ci_bytecode : string;
  ci_estimatedAddress : string;
  ci_constructorArgs : ConstructorArgs
}.

Record Log := mkLog {
  log_address : string;
  log_topics : list string;
  log_data : string
}.

(** Simulation result. [stateChanges] and [gasCost] are [None] when the
    object has no such property. *)
Record SimulationResult := mkSimulationResult {
  success : bool;
  gasUsed : string;
  logs : list Log;
  tokenTransfers : list TokenTransfer;
  contractInteractions : list ContractInteraction;
  errorMessage : option string;
  stateChanges : option (list Empty_set);
  gasCost : option GasCost
}.

(** What the RPC client returns. *)
Record FeeData := mkFeeData {
  fd_gasPrice : option Z;
  fd_maxFeePerGas : option Z;
  fd_maxPriorityFeePerGas : option Z
}.

Record TransactionResponse := mkTransactionResponse {
  txr_from : string;
  txr_to : option string;
  txr_value : Z;
  txr_gasPrice : Z
}.

Record TransactionReceipt := mkTransactionReceipt {
  rc_gasUsed : Z;
  rc_status : option Z;
  rc_blockNumber : Z;
  rc_logs : list Log
}.

(** A field that is a number or the string ['Pending']. *)
Inductive NumberOrPending :=
| NPNumber (n : Z)
| NPPending.

Record ValueAmount := mkValueAmount { va_wei : string; va_ether : string }.
Record GasPriceAmount := mkGasPriceAmount { gp_wei : string; gp_gwei : string }.

Record TransactionAnalysis := mkTransactionAnalysis {
  ta_hash : string;
  ta_from : string;
  ta_to : string;
  ta_value : ValueAmount;
  ta_gasUsed : string;
  ta_gasPrice : GasPriceAmount;
  ta_status : string;
  ta_blockNumber : NumberOrPending;
  ta_timestamp : string;
  ta_logs : Z;
  ta_gasCost : option GasCost
}.

(** A block bound after conversion: a number, [NaN], or ['latest'].
    [parseInt] returns a double: up to 2^53 in magnitude it is the integer
    it read, and [BlockNumber] holds it. Beyond, the double is a rounding of
    the integer (or, for a [Number] printed with an exponent, of its leading
    digits); the model does not compute it and keeps the bound it came
    from, as [BlockOther]. *)
Inductive BlockTag :=
| BlockNumber (n : Z)
| BlockOther (bound : Quantity)
| BlockNaN
| BlockLatest.

Record TransferEvent := mkTransferEvent {
  ev_from : string;
  ev_to : string;
  ev_value : Z
}.

Record EventCounts := mkEventCounts { outgoing : nat; incoming : nat }.

Record BalanceChange := mkBalanceChange {
  bc_token : string;
  bc_symbol : string;
  bc_change : string;
  bc_changeType : string;
  bc_fromBlock : BlockTag;
  bc_toBlock : BlockTag;
  bc_events : EventCounts
}.

Record BalanceChangeReport := mkBalanceChangeReport {
  br_address : string;
  br_fromBlock : BlockTag;
  br_toBlock : BlockTag;
  br_changes : list BalanceChange
}.

Record GasEstimate := mkGasEstimate {
  gasEstimate : string;
  gasLimit : string;
  recommendedGasLimit : string
}.

(** ** Effects: heap of request objects, logger, exceptions *)

Record State := mkState {
  heap : gmap loc TxRequest;
  warnings : list string
}.

Definition M (A : Type) : Type := State -> Completion A * State.

Definition ret {A} (a : A) : M A := fun s => (Return a, s).

Definition throw {A} (e : JsError) : M A := fun s => (Throw e, s).

Definition bind {A B} (m : M A) (k : A -> M B) : M B :=
  fun s =>
    match m s with
    | (Return a, s') => k a s'
    | (Throw e, s') => (Throw e, s')
    end.

(** [try { body } catch (error) { handler }]; effects of [body] persist. *)
Definition try_catch {A} (body : M A) (handler : JsError -> M A) : M A :=
  fun s =>
    match body s with
    | (Return a, s') => (Return a, s')
    | (Throw e, s') => handler e s'
    end.

(** [await] on the answer of a collaborator. *)
Definition await {A} (c : Completion A) : M A := fun s => (c, s).

(** [promise.catch(() => d)]. *)
Definition catch_default {A} (c : Completion A) (d : A) : A :=
  match c with
  | Return a => a
  | Throw _ => d
  end.

(** [defaultLogger.warn(msg)]. *)
Definition warn (msg : string) : M unit :=
  fun s => (Return tt, mkState (heap s) (warnings s ++ [msg])).

Notation "x <- c1 ;; c2" := (bind c1 (fun x => c2))
  (at level 100, c1 at next level, right associativity).

(** The object a reference denotes; spreading or reading [undefined] sees no
    property. *)
Definition deref (h : gmap loc TxRequest) (l : loc) : TxRequest :=
  default emptyTx (h !! l).

(** [{ ...obj }]: a new object with the same properties. *)
Definition spread (l : loc) : M loc :=
  fun s =>
    let l' := fresh (dom (heap s)) in
    (Return l', mkState (<[l' := deref (heap s) l]> (heap s)) (warnings s)).

(** Reading the properties of [obj]. *)
Definition read (l : loc) : M TxRequest :=
  fun s => (Return (deref (heap s) l), s).

(** [obj.field = v]. *)
Definition assign (l : loc) (upd : TxRequest -> TxRequest) : M unit :=
  fun s => (Return tt, mkState (<[l := upd (deref (heap s) l)]> (heap s)) (warnings s)).

(** ** External collaborators *)

(** The JSON-RPC provider ([this.provider]). Requests are passed by value,
    and the chain is read at one snapshot: an answer depends on the arguments
    of the call only. *)
Class ChainProvider := {
  provider_estimateGas : TxRequest -> Completion Z;
  provider_getFeeData : Completion FeeData;
  provider_getBlockNumber : Completion Z;
  provider_call : TxRequest -> Z -> Completion string;
  provider_getTransactionCount : option string -> Completion Z;
  (** [this.provider.network.chainId]; throws when [network] is undefined *)
  provider_network_chainId : Completion Z;
  provider_getTransaction : string -> Completion (option TransactionResponse);
  provider_getTransactionReceipt : string -> Completion (option TransactionReceipt)
}.

(** [new Contract(tokenAddress, ERC20_ABI, provider)]: the calls made on the
    binding, indexed by the token address. [contract_queryFilter] takes the
    two indexed arguments of the [Transfer] filter ([None] is [null]). *)
Class ERC20Binding := {
  contract_symbol : string -> Completion string;
  contract_decimals : string -> Completion Z;
  contract_queryFilter :
    string -> option string -> option string -> BlockTag -> BlockTag ->
    Completion (list TransferEvent)
}.

(** Modelled from the spec: [common/wallet-manager.js] is not among the
    sources; the signer context exposes [isConnected(network)] and
    [getAddress(network)]. *)
Class WalletManager := {
  isWalletConnected : string -> bool;
  getAddress : string -> string
}.

(** Modelled from the spec: [common/constants.js] is not among the sources.
    The simulator recognizes the ERC-20 [transfer(address,uint256)] call by
    its leading 4-byte selector, and the minimal ERC-20 binding has
    [decimals()], [symbol()] and [balanceOf(address)]. *)
Definition ERC20_TRANSFER_SIGNATURE : string := "0xa9059cbb".

(** Modelled from the spec: see [ERC20_TRANSFER_SIGNATURE]. The selectors are
    the first four bytes of the keccak256 hash of each signature. *)
Definition ERC20_ABI : list Ethers.FunctionFragment :=
  [ Ethers.Build_FunctionFragment "transfer" 0xa9059cbb [Ethers.TAddress; Ethers.TUint256];
    Ethers.Build_FunctionFragment "balanceOf" 0x70a08231 [Ethers.TAddress];
    Ethers.Build_FunctionFragment "decimals" 0x313ce567 [];
    Ethers.Build_FunctionFragment "symbol" 0x95d89b41 [] ].

(** The simulator instance ([this]); its provider is the [ChainProvider] in
    scope. *)
Record TransactionSimulator := mkTransactionSimulator {
  rpcUrl : string;
  explorerApiKey : option string;
  tokenAddresses : list (string * string)
}.

(** ** transaction-simulation.js: class TransactionSimulator *)

Section Simulator.
Context {ethers : EthersLibrary} {provider : ChainProvider}
        {erc20 : ERC20Binding} {walletManager : WalletManager}.

(** The object literal [simulationResult] starts from. *)
Definition initialResult : SimulationResult :=
  {| success := true; gasUsed := "0"; logs := []; tokenTransfers := [];
     contractInteractions := []; errorMessage := None;
     stateChanges := Some []; gasCost := None |}.

(** The object literal the outer [catch] returns. *)
Definition fallbackResult (error : JsError) : SimulationResult :=
  {| success := false; errorMessage := Some (message error); gasUsed := "0";
     logs := []; tokenTransfers := []; contractInteractions := [];
     stateChanges := None; gasCost := None |}.

Definition with_success (b : bool) (r : SimulationResult) : SimulationResult :=
  mkSimulationResult b (gasUsed r) (logs r) (tokenTransfers r)
    (contractInteractions r) (errorMessage r) (stateChanges r) (gasCost r).
Definition with_gasUsed (g : string) (r : SimulationResult) : SimulationResult :=
  mkSimulationResult (success r) g (logs r) (tokenTransfers r)
    (contractInteractions r) (errorMessage r) (stateChanges r) (gasCost r).
Definition with_errorMessage (m : string) (r : SimulationResult) : SimulationResult :=
  mkSimulationResult (success r) (gasUsed r) (logs r) (tokenTransfers r)
    (contractInteractions r) (Some m) (stateChanges r) (gasCost r).
Definition push_tokenTransfer (t : TokenTransfer) (r : SimulationResult) : SimulationResult :=
  mkSimulationResult (success r) (gasUsed r) (logs r) (tokenTransfers r ++ [t])
    (contractInteractions r) (errorMessage r) (stateChanges r) (gasCost r).
Definition push_contractInteraction (c : ContractInteraction) (r : SimulationResult)
  : SimulationResult :=
  mkSimulationResult (success r) (gasUsed r) (logs r) (tokenTransfers r)
    (contractInteractions r ++ [c]) (errorMessage r) (stateChanges r) (gasCost r).
Definition with_gasCost (c : GasCost) (r : SimulationResult) : SimulationResult :=
  mkSimulationResult (success r) (gasUsed r) (logs r) (tokenTransfers r)
    (contractInteractions r) (errorMessage r) (stateChanges r) (Some c).

(** [BigInt(x)] on a fee-data field, which is a [bigint] or [null]. *)
Definition BigInt_nullable (o : option Z) : Completion Z :=
  match o with
  | Some z => Return z
  | None => Throw (TypeError "Cannot convert null to a BigInt")
  end.

(** [BigInt(s)] on a string. *)
Definition BigInt_string (s : string) : Completion Z :=
  quantity_BigInt (QString s).

(** The 20% buffer: [estimate * 120n / 100n]; [bigint] division truncates. *)
Definition addGasBuffer (gasEstimate : Z) : Z := Z.quot (gasEstimate * 120) 100.

(** "If from address is not provided, use the connected wallet". *)
Definition fillFrom (tx : loc) : M unit :=
  t <- read tx ;;
  if negb (Js.truthy_ostring (tx_from t)) && isWalletConnected "polygon"
  then assign tx (set_from (getAddress "polygon"))
  else ret tt.

(** "If gas limit is not provided, estimate it". *)
Definition fillGasLimit (txToSimulate : loc) : M unit :=
  t <- read txToSimulate ;;
  if negb (truthy_oquantity (tx_gasLimit t)) then
    try_catch
      (gasEstimate <- await (provider_estimateGas t) ;;
       let gasEstimateBigInt := gasEstimate in
       assign txToSimulate (set_gasLimit (QBigInt (addGasBuffer gasEstimateBigInt))))
      (fun error =>
         _ <- assign txToSimulate (set_gasLimit (QBigInt 300000)) ;;
         warn ("Gas estimation failed: " +:+ message error +:+ ". Using default value."))
  else ret tt.

(** "If gas price is not provided, get it from the network". *)
Definition fillFees (txToSimulate : loc) : M unit :=
  t <- read txToSimulate ;;
  if negb (truthy_oquantity (tx_gasPrice t)) && negb (truthy_oquantity (tx_maxFeePerGas t))
  then
    feeData <- await provider_getFeeData ;;
    if truthy_oquantity (QBigInt <$> fd_maxFeePerGas feeData) then
      m <- await (BigInt_nullable (fd_maxFeePerGas feeData)) ;;
      _ <- assign txToSimulate (set_maxFeePerGas (QBigInt m)) ;;
      p <- await (BigInt_nullable (fd_maxPriorityFeePerGas feeData)) ;;
      assign txToSimulate (set_maxPriorityFeePerGas (QBigInt p))
    else
      g <- await (BigInt_nullable (fd_gasPrice feeData)) ;;
      assign txToSimulate (set_gasPrice (QBigInt g))
  else ret tt.

(** "Perform eth_call to simulate the transaction". *)
Definition speculativeCall (txToSimulate : loc) (blockNumber : Z)
    (simulationResult : SimulationResult) : M SimulationResult :=
  try_catch
    (callTx <- spread txToSimulate ;;
     c <- read callTx ;;
     _ <- await (provider_call c blockNumber) ;;
     ret (with_success true simulationResult))
    (fun error =>
       let r := with_errorMessage (message error) (with_success false simulationResult) in
       if Js.truthy_ostring (data error) then
         let decodedError := default "" (data error) in
         if Js.includes decodedError "revert"
         then ret (with_errorMessage ("Transaction would revert: " +:+ decodedError) r)
         else ret r
       else ret r).

(** "Estimate gas usage more accurately". *)
Definition reestimateGas (txToSimulate : loc) (simulationResult : SimulationResult)
  : M SimulationResult :=
  try_catch
    (t <- read txToSimulate ;;
     gasEstimate <- await (provider_estimateGas t) ;;
     ret (with_gasUsed (Js.toString gasEstimate) simulationResult))
    (fun error =>
       t <- read txToSimulate ;;
       let limit := quantity_toString <$> tx_gasLimit t in
       let r := with_gasUsed (if Js.truthy_ostring limit then default "" limit else "0")
                  simulationResult in
       if negb (Js.truthy_ostring (errorMessage r))
       then ret (with_errorMessage ("Gas estimation failed: " +:+ message error) r)
       else ret r).

(** [extractConstructorArgs(bytecode)]. Nothing in the [try] block throws on
    a string, so the [catch] branch is never taken. *)
Definition extractConstructorArgs (bytecode : string) : ConstructorArgs :=
  if negb (Js.truthy_string bytecode) || (String.length bytecode <=? 2)%nat
  then ArgsNone
  else
    let metadataLength := 43 in
    let possibleArgs :=
      Js.slice_from (Z.of_nat (String.length bytecode) - metadataLength) bytecode in
    ArgsRaw possibleArgs "Constructor arguments detection requires ABI".

(** [detectERC20Transfer(transaction, simulationResult)]. The result object
    is threaded; the only mutation is the final [push]. *)
Definition detectERC20Transfer (transaction : loc) (simulationResult : SimulationResult)
  : M SimulationResult :=
  t <- read transaction ;;
  let tokenAddress := tx_to t in
  try_catch
    (decodedData <- await
       match tx_data t with
       | Some d => Ethers.parseTransaction ERC20_ABI d
       | None => Throw (TypeError "invalid BytesLike value")
       end ;;
     match decodedData with
     | None => throw (TypeError "Cannot read properties of null (reading 'name')")
     | Some decoded =>
         if String.eqb (Ethers.td_name decoded) "transfer" then
           match Ethers.td_args decoded with
           | Ethers.VAddress to :: Ethers.VUint amount :: _ =>
               details <-
                 try_catch
                   match tokenAddress with
                   | Some a =>
                       ret (catch_default (contract_symbol a) "Unknown",
                            catch_default (contract_decimals a) 18)
                   | None => throw (TypeError "invalid value for Contract target")
                   end
                   (fun error =>
                      _ <- warn ("Failed to get token details: " +:+ message error) ;;
                      ret ("Unknown", 18)) ;;
               let '(symbol, decimals) := details in
               formatted <- await (formatUnits amount decimals) ;;
               ret (push_tokenTransfer
                      {| tt_token := tokenAddress;
                         tt_symbol := symbol;
                         tt_from := tx_from t;
                         tt_to := to;
                         tt_amount := formatted;
                         tt_rawAmount := Js.toString amount;
                         tt_type := "ERC20" |}
                      simulationResult)
           | _ => throw (TypeError "invalid BigNumberish value")
           end
         else ret simulationResult
     end)
    (fun error =>
       _ <- warn ("Failed to decode ERC20 transfer: " +:+ message error) ;;
       ret simulationResult).

(** [detectTokenTransfers(transaction, simulationResult)]. *)
Definition detectTokenTransfers (transaction : loc) (simulationResult : SimulationResult)
  : M SimulationResult :=
  t <- read transaction ;;
  if Js.truthy_ostring (tx_to t) && Js.truthy_ostring (tx_data t)
     && Js.startsWith (default "" (tx_data t)) ERC20_TRANSFER_SIGNATURE
  then detectERC20Transfer transaction simulationResult
  else ret simulationResult.

(** "If this is a contract creation, add it to the contract interactions". *)
Definition contractCreation (txToSimulate : loc) (simulationResult : SimulationResult)
  : M SimulationResult :=
  t <- read txToSimulate ;;
  if negb (Js.truthy_ostring (tx_to t)) && Js.truthy_ostring (tx_data t) then
    let creationCode := default "" (tx_data t) in
    nonce <- await (provider_getTransactionCount (tx_from t)) ;;
    chainId <- await provider_network_chainId ;;
    sender <- match tx_from t with
              | Some f => ret f
              | None => throw (TypeError "Cannot read properties of undefined (reading 'slice')")
              end ;;
    let addressBuffer :=
      Js.bufferFromHex
        (Js.toString chainId +:+ Js.toLowerCase (Js.slice_from 2 sender)
         +:+ Js.padStart 64 "0" (Js.toString16 nonce)) in
    let estimatedAddress := "0x" +:+ Js.bufferLastBytesHex 20 addressBuffer in
    ret (push_contractInteraction
           {| ci_type := "creation";
              ci_bytecode :=
                if (64 <? String.length creationCode)%nat
                then Js.substring0 64 creationCode +:+ "..."
                else creationCode;
              ci_estimatedAddress := estimatedAddress;
              ci_constructorArgs := extractConstructorArgs creationCode |}
           simulationResult)
  else ret simulationResult.

(** "Add gas cost estimation". *)
Definition addGasCost (txToSimulate : loc) (simulationResult : SimulationResult)
  : M SimulationResult :=
  t <- read txToSimulate ;;
  let gasPrice :=
    if truthy_oquantity (tx_gasPrice t) then default (QBigInt 0) (tx_gasPrice t)
    else if truthy_oquantity (tx_maxFeePerGas t) then default (QBigInt 0) (tx_maxFeePerGas t)
    else QBigInt Ethers.parseUnits_50_gwei in
  used <- await (BigInt_string (gasUsed simulationResult)) ;;
  price <- await (quantity_BigInt gasPrice) ;;
  let gasCost := used * price in
  gwei <- await (formatUnits gasCost Ethers.gwei) ;;
  ether <- await (Ethers.formatEther gasCost) ;;
  ret (with_gasCost
         {| gc_wei := Js.toString gasCost; gc_gwei := gwei; gc_ether := ether |}
         simulationResult).

(** [simulateTransaction(transaction)]. *)
Definition simulateTransaction (transaction : loc) : M SimulationResult :=
  try_catch
    (txToSimulate <- spread transaction ;;
     _ <- fillFrom txToSimulate ;;
     _ <- fillGasLimit txToSimulate ;;
     _ <- fillFees txToSimulate ;;
     let simulationResult := initialResult in
     blockNumber <- await provider_getBlockNumber ;;
     simulationResult <- speculativeCall txToSimulate blockNumber simulationResult ;;
     simulationResult <- reestimateGas txToSimulate simulationResult ;;
     simulationResult <- detectTokenTransfers txToSimulate simulationResult ;;
     simulationResult <- contractCreation txToSimulate simulationResult ;;
     simulationResult <- addGasCost txToSimulate simulationResult ;;
     ret simulationResult)
    (fun error => ret (fallbackResult error)).

(** [analyzeTransaction(txHash)]. *)
Definition analyzeTransaction (txHash : string) : M TransactionAnalysis :=
  try_catch
    (tx <- await (provider_getTransaction txHash) ;;
     match tx with
     | None => throw (Error ("Transaction not found: " +:+ txHash))
     | Some tx =>
         receipt <- await (provider_getTransactionReceipt txHash) ;;
         valueEther <- await (Ethers.formatEther (txr_value tx)) ;;
         gasPriceGwei <- await (formatUnits (txr_gasPrice tx) Ethers.gwei) ;;
         let result :=
           {| ta_hash := txHash;
              ta_from := txr_from tx;
              ta_to := if Js.truthy_ostring (txr_to tx)
                       then default "" (txr_to tx) else "Contract Creation";
              ta_value := {| va_wei := Js.toString (txr_value tx);
                             va_ether := valueEther |};
              ta_gasUsed := match receipt with
                            | Some rc => Js.toString (rc_gasUsed rc)
                            | None => "Pending"
                            end;
              ta_gasPrice := {| gp_wei := Js.toString (txr_gasPrice tx);
                                gp_gwei := gasPriceGwei |};
              ta_status := match receipt with
                           | Some rc =>
                               if truthy_oquantity (QBigInt <$> rc_status rc)
                               then "Success" else "Failed"
                           | None => "Pending"
                           end;
              ta_blockNumber := match receipt with
                                | Some rc => NPNumber (rc_blockNumber rc)
                                | None => NPPending
                                end;
              ta_timestamp := "Unknown";
              ta_logs := match receipt with
                         | Some rc => Z.of_nat (List.length (rc_logs rc))
                         | None => 0
                         end;
              ta_gasCost := None |} in
         match receipt with
         | Some rc =>
             let gasCost := rc_gasUsed rc * txr_gasPrice tx in
             gwei <- await (formatUnits gasCost Ethers.gwei) ;;
             ether <- await (Ethers.formatEther gasCost) ;;
             ret (mkTransactionAnalysis (ta_hash result) (ta_from result) (ta_to result)
                    (ta_value result) (ta_gasUsed result) (ta_gasPrice result)
                    (ta_status result) (ta_blockNumber result) (ta_timestamp result)
                    (ta_logs result)
                    (Some {| gc_wei := Js.toString gasCost; gc_gwei := gwei;
                             gc_ether := ether |}))
         | None => ret result
         end
     end)
    (fun error =>
       throw (createTransactionError ErrorCodes.TRANSACTION_FAILED
                ("Analysis failed: " +:+ message error)
                [("txHash", DString txHash)])).

(** A double holds every integer up to 2^53 in magnitude. *)
Definition exactNumber (n : Z) : bool := Z.abs n <=? 2 ^ 53.

(** [b ? parseInt(b) : 'latest'] on a block bound. [parseInt] reads a
    [bigint] or a [Number] through its text. *)
Definition blockBound (b : option Quantity) : BlockTag :=
  if truthy_oquantity b then
    match b with
    | Some (QBigInt n) => if exactNumber n then BlockNumber n else BlockOther (QBigInt n)
    | Some (QString s) =>
        match Js.parseInt s with
        | Some n => if exactNumber n then BlockNumber n else BlockOther (QString s)
        | None => BlockNaN
        end
    | None => BlockLatest
    end
  else BlockLatest.

(** The two loops over the queried events, starting from [0n]. *)
Definition totalChangeOf (eventsFrom eventsTo : list TransferEvent) : Z :=
  fold_left (fun totalChange event => totalChange + ev_value event) eventsTo
    (fold_left (fun totalChange event => totalChange - ev_value event) eventsFrom 0).

(** Body of the [for (const [symbol, tokenAddress] of tokens)] loop, with its
    [try]/[catch]; returns the [changes] array after the iteration. *)
Definition scanToken (address : string) (fromBlock toBlock : BlockTag)
    (changes : list BalanceChange) (entry : string * string) : M (list BalanceChange) :=
  let '(symbol, tokenAddress) := entry in
  try_catch
    (let decimals := catch_default (contract_decimals tokenAddress) 18 in
     eventsFrom <- await (contract_queryFilter tokenAddress (Some address) None
                            fromBlock toBlock) ;;
     eventsTo <- await (contract_queryFilter tokenAddress None (Some address)
                          fromBlock toBlock) ;;
     let totalChange := totalChangeOf eventsFrom eventsTo in
     if negb (totalChange =? 0) then
       changeFormatted <- await (formatUnits totalChange decimals) ;;
       ret (changes ++
              [ {| bc_token := tokenAddress;
                   bc_symbol := symbol;
                   bc_change := changeFormatted;
                   bc_changeType := if 0 <? totalChange then "increase" else "decrease";
                   bc_fromBlock := fromBlock;
                   bc_toBlock := toBlock;
                   bc_events := {| outgoing := List.length eventsFrom;
                                   incoming := List.length eventsTo |} |} ])
     else ret changes)
    (fun error =>
       _ <- warn ("Failed to get balance changes for " +:+ symbol +:+ ": "
                  +:+ message error) ;;
       ret changes).

Fixpoint scanTokens (address : string) (fromBlock toBlock : BlockTag)
    (tokens : list (string * string)) (changes : list BalanceChange)
  : M (list BalanceChange) :=
  match tokens with
  | [] => ret changes
  | entry :: rest =>
      changes' <- scanToken address fromBlock toBlock changes entry ;;
      scanTokens address fromBlock toBlock rest changes'
  end.

(** [getTokenBalanceChanges(address, fromBlock, toBlock)]. *)
Definition getTokenBalanceChanges (self : TransactionSimulator)
    (address : option string) (fromBlock toBlock : option Quantity)
  : M BalanceChangeReport :=
  if negb (Js.truthy_ostring address) || negb (isAddress (default "" address)) then
    throw (createTransactionError ErrorCodes.INVALID_ADDRESS "Invalid address provided"
             [("address", match address with
                          | Some a => DString a
                          | None => DUndefined
                          end)])
  else
    let address := default "" address in
    let fromBlock := blockBound fromBlock in
    let toBlock := blockBound toBlock in
    let tokens := tokenAddresses self in
    changes <- scanTokens address fromBlock toBlock tokens [] ;;
    ret {| br_address := address; br_fromBlock := fromBlock; br_toBlock := toBlock;
           br_changes := changes |}.

(** [estimateGas(transaction)]. *)
Definition estimateGas (transaction : loc) : M GasEstimate :=
  try_catch
    (txToEstimate <- spread transaction ;;
     _ <- fillFrom txToEstimate ;;
     t <- read txToEstimate ;;
     gasEstimate <- await (provider_estimateGas t) ;;
     let gasLimit := addGasBuffer gasEstimate in
     ret {| gasEstimate := Js.toString gasEstimate;
            gasLimit := Js.toString gasLimit;
            recommendedGasLimit := Js.toString gasLimit |})
    (fun error =>
       throw (createTransactionError ErrorCodes.TRANSACTION_FAILED
                ("Gas estimation failed: " +:+ message error)
                [("transaction", DObject transaction)])).

End Simulator.

(** * logger.js *)

Module Logger.

Inductive Level := ERROR | WARN | INFO | DEBUG.

Definition level_name (l : Level) : string :=
  match l with
  | ERROR => "ERROR"
  | WARN => "WARN"
  | INFO => "INFO"
  | DEBUG => "DEBUG"
  end.

(** [LOG_LEVELS[key]]; [None] is [undefined]. *)
Definition LOG_LEVELS (key : string) : option Z :=
  if String.eqb key "ERROR" then Some 0
  else if String.eqb key "WARN" then Some 1
  else if String.eqb key "INFO" then Some 2
  else if String.eqb key "DEBUG" then Some 3
  else None.

Definition upper_ascii (c : ascii) : ascii :=
  let n := N_of_ascii c in
  if ((97 <=? n) && (n <=? 122))%N then ascii_of_N (n - 32) else c.

(** [String.prototype.toUpperCase] (ASCII letters). The keys of
    [LOG_LEVELS] and of [Object.prototype] are ASCII, and no key of
    [Object.prototype] is free of lower-case letters, so the lookup of an
    upper-cased text finds a level or nothing. *)
Fixpoint toUpperCase (s : string) : string :=
  match s with
  | EmptyString => EmptyString
  | String c t => String (upper_ascii c) (toUpperCase t)
  end.

(** [currentLogLevel], from [process.env.LOG_LEVEL]:
    [env ? LOG_LEVELS[env.toUpperCase()] || LOG_LEVELS.INFO : LOG_LEVELS.INFO]. *)
Definition currentLogLevel (env : option string) : Z :=
  if Js.truthy_ostring env then
    match LOG_LEVELS (toUpperCase (default "" env)) with
    | Some n => if negb (n =? 0) then n else 2
    | None => 2
    end
  else 2.

(** What a call of the logger does to the outside: lines on the console and
    appends to the files of the logs directory. *)
Inductive Output :=
| ConsoleLog (line : string)
| ConsoleError (line : string)
| Appended (filename content : string).

(** The clock, the serializer and the file system. *)
Class Host := {
  toISOString : nat -> string;
  JSON_stringify : list (string * string) -> string;
  appendFileSync : string -> string -> Completion unit
}.

(** State of the logging: the number of clock readings so far and the
    outputs so far. *)
Record LogState := mkLogState {
  clock : nat;
  outputs : list Output
}.

Record Logger := mkLogger {
  service : string;
  logToConsole : bool;
  logToFile : bool
}.

(** [new Logger()]. *)
Definition defaultLogger : Logger := mkLogger "polygon-mcp" true true.

Definition ESC : string := String (ascii_of_nat 27) EmptyString.
Definition newline : string := String (ascii_of_nat 10) EmptyString.

Definition color (l : Level) : string :=
  match l with
  | ERROR => ESC +:+ "[31m"
  | WARN => ESC +:+ "[33m"
  | INFO => ESC +:+ "[36m"
  | DEBUG => ESC +:+ "[90m"
  end.

Definition RESET : string := ESC +:+ "[0m".

Section Logging.
Context {host : Host}.

Definition emit (o : Output) (s : LogState) : LogState :=
  mkLogState (clock s) (outputs s ++ [o]).

(** [formatTimestamp()]: one reading of the clock. *)
Definition formatTimestamp (s : LogState) : string * LogState :=
  (toISOString (clock s), mkLogState (S (clock s)) (outputs s)).

(** [formatLogEntry(level, message, meta)] with [meta = { service }]. *)
Definition formatLogEntry (level : Level) (message service : string) (s : LogState)
  : string * LogState :=
  let '(timestamp, s) := formatTimestamp s in
  (JSON_stringify [("timestamp", timestamp); ("level", level_name level);
                   ("message", message); ("service", service)] +:+ newline, s).

(** [writeToLogFile(content, filename)]: a failure is reported on the
    console and swallowed. *)
Definition writeToLogFile (content filename : string) (s : LogState) : LogState :=
  match appendFileSync filename content with
  | Return _ => emit (Appended filename content) s
  | Throw error =>
      emit (ConsoleError ("Failed to write to log file " +:+ filename +:+ ": "
                          +:+ message error)) s
  end.

(** [consoleOutput(level, message, meta)] with [meta = { service }]. *)
Definition consoleOutput (level : Level) (message service : string) (s : LogState)
  : LogState :=
  let '(timestamp, s) := formatTimestamp s in
  let metaStr := JSON_stringify [("service", service)] in
  emit (ConsoleLog (color level +:+ "[" +:+ timestamp +:+ "] [" +:+ level_name level
                    +:+ "]" +:+ RESET +:+ " " +:+ message +:+ " " +:+ metaStr)) s.

(** [Logger.prototype.log(level, message)], for the four levels of the
    public methods and no metadata. *)
Definition log (env : option string) (self : Logger) (level : Level) (message : string)
    (s : LogState) : LogState :=
  if default 0 (LOG_LEVELS (level_name level)) <=? currentLogLevel env then
    let s := if logToConsole self then consoleOutput level message (service self) s
             else s in
    if logToFile self then
      let '(logEntry, s) := formatLogEntry level message (service self) s in
      let s := writeToLogFile logEntry "combined.log" s in
      match level with
      | ERROR => writeToLogFile logEntry "error.log" s
      | _ => s
      end
    else s
  else s.

Definition error env self message := log env self ERROR message.
Definition warn env self message := log env self WARN message.
Definition info env self message := log env self INFO message.
Definition debug env self message := log env self DEBUG message.

End Logging.
End Logger.

(** * contract-templates.js: compilation, deployment, verification *)

Module Templates.

(** One entry of the [errors] array of the compiler's output. *)
Record Diagnostic := mkDiagnostic {
  severity : string;
  diag_message : string
}.

(** One item of an ABI; [item_inputs] is [None] when the item has no
    [inputs] property. *)
Record AbiItem := mkAbiItem {
  item_type : string;
  item_inputs : option (list string)
}.

(** What the compiler gives for one contract, under the output selection of
    [compileContract]. *)
Record ContractOutput := mkContractOutput {
  out_abi : list AbiItem;
  out_bytecode : string;
  out_deployedBytecode : string;
  out_metadata : string
}.

(** The parsed output of the compiler: [errors] may be absent, and so may
    [contracts] and the entry of a source file in it; the contracts of a
    file are the own properties of an object. *)
Record CompilerOutput := mkCompilerOutput {
  output_errors : option (list Diagnostic);
  output_contracts : option (gmap string (gmap string ContractOutput))
}.

Record CompiledContract := mkCompiledContract {
  abi : list AbiItem;
  bytecode : string;
  deployedBytecode : string;
  metadata : string
}.

(** A signer; [null] and [undefined] are [None] where a wallet is
    expected. *)
Record Wallet := mkWallet { wallet_address : string }.

Record PendingDeployment := mkPendingDeployment { pending_hash : string }.

Record DeployReceipt := mkDeployReceipt {
  receipt_contractAddress : option string;
  receipt_hash : string;
  receipt_gasUsed : Z
}.

Record Deployment := mkDeployment {
  address : option string;
  transactionHash : string;
  contractName : string;
  deployed_abi : list AbiItem;
  constructorArgs : list string;
  deployed_gasUsed : string
}.

(** The form posted to the explorer. *)
Record VerificationData := mkVerificationData {
  apikey : string;
  module : string;
  action : string;
  contractaddress : string;
  sourceCode : string;
  codeformat : string;
  contractname : string;
  compilerversion : string;
  optimizationUsed : Z;
  runs : Z;
  constructorArguments : string
}.

Record ExplorerResponse := mkExplorerResponse {
  response_status : string;
  response_result : string;
  response_message : option string
}.

Record Verification := mkVerification {
  status : string;
  guid : string;
  verification_message : option string
}.

(** What an operation does to the outside, in order: a line logged with
    [defaultLogger.warn], a call of [wallet.sendTransaction], a call of
    [axios.post]. *)
Inductive Event :=
| Warned (line : string)
| Sent (wallet : Wallet) (data : string) (gasLimit : Z)
| Posted (url : string) (form : VerificationData).

(** The Solidity compiler: [JSON.parse(solc.compile(JSON.stringify(input)))]
    for a source text, or the error of loading or running it. *)
Class Compiler := {
  solc_compile : string -> Completion CompilerOutput
}.

(** The deployment side of the libraries: the contract factory, the
    wallet's broadcast, the wait for the receipt, the encoder of constructor
    arguments and the HTTP client. *)
Class Deployer := {
  factory_getDeployTransaction : list AbiItem -> string -> list string -> Completion string;
  wallet_sendTransaction : Wallet -> string -> Z -> Completion PendingDeployment;
  tx_wait : PendingDeployment -> Completion DeployReceipt;
  iface_encodeDeploy : AbiItem -> list string -> Completion string;
  axios_post : string -> VerificationData -> Completion ExplorerResponse
}.

(** Modelled from the spec: the wallet context hands out the signer of a
    network, [null] when there is none. *)
Class WalletStore := {
  getWallet : string -> Completion (option Wallet)
}.

(** The names every object inherits from [Object.prototype]: a lookup of
    one of them on a parsed object gives a function or an object, not
    [undefined]. *)
Definition objectPrototypeNames : list string :=
  ["constructor"; "__defineGetter__"; "__defineSetter__"; "hasOwnProperty";
   "__lookupGetter__"; "__lookupSetter__"; "isPrototypeOf"; "propertyIsEnumerable";
   "toString"; "valueOf"; "__proto__"; "toLocaleString"].

(** Computations that log, broadcast and post: a completion and the events
    it caused. *)
Definition T (A : Type) : Type := (Completion A * list Event)%type.

Definition ret {A} (a : A) : T A := (Return a, []).
Definition throw {A} (e : JsError) : T A := (Throw e, []).
Definition emit (ev : Event) : T unit := (Return tt, [ev]).
Definition await {A} (c : Completion A) : T A := (c, []).

Definition bind {A B} (m : T A) (k : A -> T B) : T B :=
  match m with
  | (Return a, events) => let '(r, events') := k a in (r, events ++ events')
  | (Throw e, events) => (Throw e, events)
  end.

Definition try_catch {A} (body : T A) (handler : JsError -> T A) : T A :=
  match body with
  | (Return a, events) => (Return a, events)
  | (Throw e, events) => let '(r, events') := handler e in (r, events ++ events')
  end.

(** [array.join(', ')] on texts. *)
Fixpoint join (sep : string) (l : list string) : string :=
  match l with
  | [] => ""
  | [x] => x
  | x :: rest => x +:+ sep +:+ join sep rest
  end.

Fixpoint forEach {A} (f : A -> T unit) (l : list A) : T unit :=
  match l with
  | [] => ret tt
  | x :: rest => bind (f x) (fun _ => forEach f rest)
  end.

Definition CONTRACT_ERROR : string := "CONTRACT_ERROR".
Definition WALLET_NOT_CONNECTED : string := "WALLET_NOT_CONNECTED".
Definition INVALID_PARAMETERS : string := "INVALID_PARAMETERS".

(** [createWalletError(code, message, details)]. *)
Definition createWalletError (c m : string) (d : list (string * DetailValue)) : JsError :=
  mkJsError "WalletError" (Some c) m None d.

(** [error.code && error.name]. *)
Definition isCustomError (error : JsError) : bool :=
  Js.truthy_ostring (code error) && Js.truthy_string (name error).

(** [ContractTemplates]: the fields the operations read. *)
Record ContractTemplates := mkContractTemplates {
  explorerApiKey : option string;
  networkName : string
}.

Section Operations.
Context {ethers : EthersLibrary} {provider : ChainProvider}
        {walletManager : WalletManager} {compiler : Compiler}
        {deployer : Deployer} {walletStore : WalletStore}.

(** [checkWalletConnected()]. *)
Definition checkWalletConnected (self : ContractTemplates) : T bool :=
  if negb (isWalletConnected (networkName self)) then
    throw (createWalletError WALLET_NOT_CONNECTED
             ("Wallet not connected for network: " +:+ networkName self)
             [("context", DString "ContractTemplates");
              ("network", DString (networkName self))])
  else ret true.

(** [compileContract(source, contractName)]. *)
Definition compileContract (source contractName : string) : T CompiledContract :=
  try_catch
    (bind (await (solc_compile source)) (fun output =>
     bind
       match output_errors output with
       | Some diagnostics =>
           let errors := filter (fun d => String.eqb (severity d) "error") diagnostics in
           if (0 <? List.length errors)%nat then
             throw (Error ("Compilation errors: "
                           +:+ join ", " (diag_message <$> errors)))
           else
             let warnings :=
               filter (fun d => String.eqb (severity d) "warning") diagnostics in
             forEach (fun warning =>
                        emit (Warned ("Compilation warning: " +:+ diag_message warning)))
               warnings
       | None => ret tt
       end (fun _ =>
     match output_contracts output with
     | None =>
         throw (TypeError "Cannot read properties of undefined (reading 'contract.sol')")
     | Some files =>
         match files !! "contract.sol" with
         | None =>
             throw (TypeError ("Cannot read properties of undefined (reading '"
                               +:+ contractName +:+ "')"))
         | Some contracts =>
             match contracts !! contractName with
             | Some contractOutput =>
                 ret {| abi := out_abi contractOutput;
                        bytecode := out_bytecode contractOutput;
                        deployedBytecode := out_deployedBytecode contractOutput;
                        metadata := out_metadata contractOutput |}
             | None =>
                 if bool_decide (contractName ∈ objectPrototypeNames) then
                   throw (TypeError
                            "Cannot read properties of undefined (reading 'bytecode')")
                 else
                   throw (Error ("Contract " +:+ contractName
                                 +:+ " not found in compiled output"))
             end
         end
     end)))
    (fun error =>
       throw (createTransactionError CONTRACT_ERROR
                ("Compilation failed: " +:+ message error)
                [("contractName", DString contractName)])).

(** [deployCompiledContract(contractName, abi, bytecode, constructorArgs,
    wallet)]. *)
Definition deployCompiledContract (self : ContractTemplates) (contractName : string)
    (abi : list AbiItem) (bytecode : string) (constructorArgs : list string)
    (wallet : option Wallet) : T Deployment :=
  bind
    match wallet with
    | Some w => ret (Some w)
    | None =>
        bind (checkWalletConnected self) (fun _ =>
        await (getWallet (networkName self)))
    end (fun wallet =>
  try_catch
    (bind (await (factory_getDeployTransaction abi ("0x" +:+ bytecode) constructorArgs))
       (fun data =>
     bind
       match wallet with
       | Some w => ret w
       | None => throw (TypeError "Cannot read properties of null (reading 'address')")
       end (fun w =>
     bind (await (provider_estimateGas
                    (mkTx (Some (wallet_address w)) None None (Some data)
                       None None None None))) (fun gasEstimate =>
     let gasLimit := addGasBuffer gasEstimate in
     bind (emit (Sent w data gasLimit)) (fun _ =>
     bind (await (wallet_sendTransaction w data gasLimit)) (fun tx =>
     bind (await (tx_wait tx)) (fun receipt =>
     ret {| address := receipt_contractAddress receipt;
            transactionHash := receipt_hash receipt;
            contractName := contractName;
            deployed_abi := abi;
            constructorArgs := constructorArgs;
            deployed_gasUsed := Js.toString (receipt_gasUsed receipt) |})))))))
    (fun error =>
       throw (createTransactionError CONTRACT_ERROR
                ("Contract deployment failed: " +:+ message error)
                [("contractName", DString contractName)]))).

(** [deployContract(contractName, contractCode, constructorArgs)]. *)
Definition deployContract (self : ContractTemplates) (contractName contractCode : string)
    (constructorArgs : list string) : T Deployment :=
  bind (checkWalletConnected self) (fun _ =>
  try_catch
    (bind (compileContract contractCode contractName) (fun compiledContract =>
     bind (await (getWallet (networkName self))) (fun wallet =>
     deployCompiledContract self contractName (abi compiledContract)
       (bytecode compiledContract) constructorArgs wallet)))
    (fun error =>
       if isCustomError error then throw error
       else
         throw (createTransactionError CONTRACT_ERROR
                  ("Deployment failed: " +:+ message error)
                  [("contractName", DString contractName)]))).

(** [encodeConstructorArgs(abi, args)]. *)
Definition encodeConstructorArgs (abi : list AbiItem) (args : list string) : T string :=
  try_catch
    match find (fun item => String.eqb (item_type item) "constructor") abi with
    | None => ret ""
    | Some constructor =>
        match item_inputs constructor with
        | None => ret ""
        | Some inputs =>
            if (List.length inputs =? 0)%nat then ret ""
            else
              bind (await (iface_encodeDeploy constructor args)) (fun encoded =>
              ret (Js.slice_from 2 encoded))
        end
    end
    (fun error =>
       bind (emit (Warned ("Failed to encode constructor args: " +:+ message error)))
         (fun _ => ret "")).

(** [verifyContract(contractAddress, contractName, contractCode,
    constructorArgs)]. *)
Definition verifyContract (self : ContractTemplates)
    (contractAddress contractName contractCode : string) (constructorArgs : list string)
  : T Verification :=
  if negb (Js.truthy_ostring (explorerApiKey self)) then
    throw (createTransactionError INVALID_PARAMETERS "Explorer API key not provided"
             [("context", DString "ContractTemplates.verifyContract")])
  else if negb (isAddress contractAddress) then
    throw (createTransactionError ErrorCodes.INVALID_ADDRESS "Invalid contract address"
             [("contractAddress", DString contractAddress)])
  else
    try_catch
      (bind (compileContract contractCode contractName) (fun compiledContract =>
       bind (encodeConstructorArgs (abi compiledContract) constructorArgs)
         (fun encodedArgs =>
       let verificationData :=
         {| apikey := default "" (explorerApiKey self);
            module := "contract";
            action := "verifysourcecode";
            contractaddress := contractAddress;
            sourceCode := contractCode;
            codeformat := "solidity-single-file";
            contractname := contractName;
            compilerversion := "v0.8.20+commit.a1b79de6";
            optimizationUsed := 1;
            runs := 200;
            constructorArguments := encodedArgs |} in
       bind (emit (Posted "https://api.polygonscan.com/api" verificationData)) (fun _ =>
       bind (await (axios_post "https://api.polygonscan.com/api" verificationData))
         (fun response =>
       if String.eqb (response_status response) "1" then
         ret {| status := "Verification submitted";
                guid := response_result response;
                verification_message := response_message response |}
       else
         throw (Error ("Verification API error: "
                       +:+ (if Js.truthy_ostring (response_message response)
                            then default "" (response_message response)
                            else "Unknown error"))))))))
      (fun error =>
         throw (createTransactionError CONTRACT_ERROR
                  ("Verification failed: " +:+ message error)
                  [("contractAddress", DString contractAddress);
                   ("contractName", DString contractName)])).

End Operations.
End Templates.

(** ** Specification vocabulary *)

(** Weakest precondition of a computation for a normal and an exceptional
    postcondition. *)
Definition wp {A} (m : M A) (Q : A -> State -> Prop) (E : JsError -> State -> Prop)
    (s : State) : Prop :=
  match m s with
  | (Return a, s') => Q a s'
  | (Throw e, s') => E e s'
  end.

(** Every object of [s] is still there, unchanged, in [s']. *)
Definition extends (s s' : State) : Prop := heap s ⊆ heap s'.

(** Every object of [s] other than [l] is still there, unchanged, in [s'],
    and [l] is still an object if it was one. *)
Definition updates_only (l : loc) (s s' : State) : Prop :=
  (forall l0 t, l0 <> l -> heap s !! l0 = Some t -> heap s' !! l0 = Some t) /\
  (is_Some (heap s !! l) -> is_Some (heap s' !! l)).

(** All eight properties of the Simulation Result data model are present
    (the other six are always there). *)
Definition structurally_valid (r : SimulationResult) : Prop :=
  is_Some (stateChanges r) /\ is_Some (gasCost r).

(** The error's detail bag holds the underlying cause. *)
Definition details_hold_cause (err cause : JsError) : Prop :=
  exists key, (key, DError (name cause) (message cause)) ∈ details err.

Definition sumZ (l : list Z) : Z := foldr Z.add 0 l.

(** Net balance delta in the spec's words: the signed sum of incoming minus
    outgoing transfer amounts. *)
Definition netSignedSum (incoming outgoing : list TransferEvent) : Z :=
  sumZ (ev_value <$> incoming) - sumZ (ev_value <$> outgoing).

(** The working copy [simulateTransaction] and [estimateGas] allocate first. *)
Definition workingCopy (s : State) : loc := fresh (dom (heap s)).

(** The request once "If from address is not provided, use the connected
    wallet" has run on it. *)
Definition withSender {walletManager : WalletManager} (t : TxRequest) : TxRequest :=
  if negb (Js.truthy_ostring (tx_from t)) && isWalletConnected "polygon"
  then set_from (getAddress "polygon") t
  else t.

(** The hash resolves to a known transaction. *)
Definition resolves {provider : ChainProvider} (txHash : string) : Prop :=
  exists tx, provider_getTransaction txHash = Return (Some tx).

(** [analyzeTransaction] cannot format one of the amounts of the
    transaction: its value, its gas price or, once it is mined, its gas
    cost. *)
Definition formattingFails {ethers : EthersLibrary} (tx : TransactionResponse)
    (receipt : option TransactionReceipt) : Prop :=
  (exists e, Ethers.formatEther (txr_value tx) = Throw e) \/
  (exists e, formatUnits (txr_gasPrice tx) Ethers.gwei = Throw e) \/
  (exists rc e, receipt = Some rc /\
     (formatUnits (rc_gasUsed rc * txr_gasPrice tx) Ethers.gwei = Throw e \/
      Ethers.formatEther (rc_gasUsed rc * txr_gasPrice tx) = Throw e)).

(** The error [analyzeTransaction] and [estimateGas] throw: a
    [TransactionError] with code [TRANSACTION_FAILED]. *)
Definition transactionFailed (prefix : string) (cause : JsError)
    (bag : list (string * DetailValue)) : JsError :=
  {| name := "TransactionError";
     code := Some "TRANSACTION_FAILED";
     message := prefix +:+ message cause;
     data := None;
     details := bag |}.

(** The entry the report has for one token of the registry, in the spec's
    words: the net signed sum of the [Transfer] amounts, incoming minus
    outgoing, reported only when it is not zero and its decimal text can be
    produced; nothing when a query for the token fails. *)
Definition reportedChange {ethers : EthersLibrary} {erc20 : ERC20Binding} (address : string)
    (fromBlock toBlock : BlockTag) (entry : string * string) : list BalanceChange :=
  match contract_queryFilter (entry.2) (Some address) None fromBlock toBlock,
        contract_queryFilter (entry.2) None (Some address) fromBlock toBlock with
  | Return outgoingEvents, Return incomingEvents =>
      let net := netSignedSum incomingEvents outgoingEvents in
      if decide (net = 0) then []
      else
        match formatUnits net (catch_default (contract_decimals (entry.2)) 18) with
        | Return text =>
            [ {| bc_token := entry.2;
                 bc_symbol := entry.1;
                 bc_change := text;
                 bc_changeType := if decide (0 < net) then "increase" else "decrease";
                 bc_fromBlock := fromBlock;
                 bc_toBlock := toBlock;
                 bc_events := {| outgoing := List.length outgoingEvents;
                                 incoming := List.length incomingEvents |} |} ]
        | Throw _ => []
        end
  | _, _ => []
  end.

(** The error that ends the scan of a token, if any: the first of its two
    event queries that throws, or else the formatting of a net sum that is
    not zero. *)
Definition scanError {ethers : EthersLibrary} {erc20 : ERC20Binding} (address : string)
    (fromBlock toBlock : BlockTag) (tokenAddress : string) : option JsError :=
  match contract_queryFilter tokenAddress (Some address) None fromBlock toBlock with
  | Throw e => Some e
  | Return outgoingEvents =>
      match contract_queryFilter tokenAddress None (Some address) fromBlock toBlock with
      | Throw e => Some e
      | Return incomingEvents =>
          let net := netSignedSum incomingEvents outgoingEvents in
          if decide (net = 0) then None
          else
            match formatUnits net (catch_default (contract_decimals tokenAddress) 18) with
            | Throw e => Some e
            | Return _ => None
            end
      end
  end.

(** The processing of the token fails. *)
Definition scanFails {ethers : EthersLibrary} {erc20 : ERC20Binding} (address : string)
    (fromBlock toBlock : BlockTag) (tokenAddress : string) : Prop :=
  is_Some (scanError address fromBlock toBlock tokenAddress).

(** The block a caller names by a bound of the range: the latest one when
    the bound is left out, the block of that number for a number other than
    0 that a double holds exactly, and for the decimal text of such a
    number. *)
Inductive namesBlock : option Quantity -> BlockTag -> Prop :=
| names_latest : namesBlock None BlockLatest
| names_number (n : Z) :
    n <> 0 -> Z.abs n <= 2 ^ 53 -> namesBlock (Some (QBigInt n)) (BlockNumber n)
| names_text (n : Z) :
    Z.abs n <= 2 ^ 53 -> namesBlock (Some (QString (Js.toString n))) (BlockNumber n).

(** The request once "If gas limit is not provided, estimate it" has run on
    it: the caller's limit if supplied, otherwise the buffered estimate,
    otherwise the default of 300000. *)
Definition withGasLimit {provider : ChainProvider} (t : TxRequest) : TxRequest :=
  if truthy_oquantity (tx_gasLimit t) then t
  else
    match provider_estimateGas t with
    | Return E => set_gasLimit (QBigInt (addGasBuffer E)) t
    | Throw _ => set_gasLimit (QBigInt 300000) t
    end.

(** [gasPrice || maxFeePerGas || parseUnits('50', 'gwei')] on a request. *)
Definition effectiveGasPrice (t : TxRequest) : Quantity :=
  if truthy_oquantity (tx_gasPrice t) then default (QBigInt 0) (tx_gasPrice t)
  else if truthy_oquantity (tx_maxFeePerGas t) then default (QBigInt 0) (tx_maxFeePerGas t)
  else QBigInt Ethers.parseUnits_50_gwei.

(** Two requests agree on the fields the fee block leaves alone. *)
Definition sameCall (t t' : TxRequest) : Prop :=
  tx_from t' = tx_from t /\ tx_to t' = tx_to t /\ tx_value t' = tx_value t /\
  tx_data t' = tx_data t /\ tx_gasLimit t' = tx_gasLimit t.

(** Every character of the text is a decimal digit. *)
Fixpoint all_digits (s : string) : bool :=
  match s with
  | EmptyString => true
  | String c t =>
      ((48 <=? N_of_ascii c) && (N_of_ascii c <=? 57))%N && all_digits t
  end.

(** The estimates of the node never exceed the gas limit the request
    carries. *)
Definition estimatesWithinLimit {provider : ChainProvider} : Prop :=
  forall t E q g,
    provider_estimateGas t = Return E -> tx_gasLimit t = Some q ->
    quantity_BigInt q = Return g -> E <= g.



(** ** The blocks of simulateTransaction as functions of the working copy

    Every block after the clone reads the working copy and the answers of
    the collaborators only. The functions below give the value each block
    computes from the content [t] of the working copy; the properties section
    proves that the blocks compute exactly these. *)

(** "If gas price is not provided, get it from the network". *)
Definition withFees {provider : ChainProvider} (t : TxRequest) : Completion TxRequest :=
  if negb (truthy_oquantity (tx_gasPrice t)) && negb (truthy_oquantity (tx_maxFeePerGas t))
  then
    match provider_getFeeData with
    | Throw e => Throw e
    | Return feeData =>
        if truthy_oquantity (QBigInt <$> fd_maxFeePerGas feeData) then
          match BigInt_nullable (fd_maxFeePerGas feeData),
                BigInt_nullable (fd_maxPriorityFeePerGas feeData) with
          | Return m, Return p =>
              Return (set_maxPriorityFeePerGas (QBigInt p) (set_maxFeePerGas (QBigInt m) t))
          | Throw e, _ => Throw e
          | _, Throw e => Throw e
          end
        else
          match BigInt_nullable (fd_gasPrice feeData) with
          | Return g => Return (set_gasPrice (QBigInt g) t)
          | Throw e => Throw e
          end
    end
  else Return t.

(** The [try]/[catch] around [provider.call]. *)
Definition callOutcome (c : Completion string) (r : SimulationResult) : SimulationResult :=
  match c with
  | Return _ => with_success true r
  | Throw error =>
      let failed := with_errorMessage (message error) (with_success false r) in
      if Js.truthy_ostring (data error) && Js.includes (default "" (data error)) "revert"
      then with_errorMessage ("Transaction would revert: " +:+ default "" (data error)) failed
      else failed
  end.

(** The [try]/[catch] around the second [provider.estimateGas]. *)
Definition reestimateOutcome (c : Completion Z) (t : TxRequest) (r : SimulationResult)
  : SimulationResult :=
  match c with
  | Return gasEstimate => with_gasUsed (Js.toString gasEstimate) r
  | Throw error =>
      let limit := quantity_toString <$> tx_gasLimit t in
      let r' := with_gasUsed (if Js.truthy_ostring limit then default "" limit else "0") r in
      if negb (Js.truthy_ostring (errorMessage r'))
      then with_errorMessage ("Gas estimation failed: " +:+ message error) r'
      else r'
  end.

(** The entries [detectTokenTransfers] appends for a request. *)
Definition detectedTransfers {ethers : EthersLibrary} {erc20 : ERC20Binding}
    (t : TxRequest) : list TokenTransfer :=
  if Js.truthy_ostring (tx_to t) && Js.truthy_ostring (tx_data t)
     && Js.startsWith (default "" (tx_data t)) ERC20_TRANSFER_SIGNATURE
  then
    match Ethers.parseTransaction ERC20_ABI (default "" (tx_data t)) with
    | Return (Some decoded) =>
        if String.eqb (Ethers.td_name decoded) "transfer" then
          match Ethers.td_args decoded with
          | Ethers.VAddress to :: Ethers.VUint amount :: _ =>
              match formatUnits amount
                      (catch_default (contract_decimals (default "" (tx_to t))) 18) with
              | Return formatted =>
                  [ {| tt_token := tx_to t;
                       tt_symbol :=
                         catch_default (contract_symbol (default "" (tx_to t))) "Unknown";
                       tt_from := tx_from t;
                       tt_to := to;
                       tt_amount := formatted;
                       tt_rawAmount := Js.toString amount;
                       tt_type := "ERC20" |} ]
              | Throw _ => []
              end
          | _ => []
          end
        else []
    | _ => []
    end
  else [].

(** The heuristic address of the contract-creation block. *)
Definition estimatedAddressOf (chainId : Z) (sender : string) (nonce : Z) : string :=
  "0x" +:+ Js.bufferLastBytesHex 20
             (Js.bufferFromHex
                (Js.toString chainId +:+ Js.toLowerCase (Js.slice_from 2 sender)
                 +:+ Js.padStart 64 "0" (Js.toString16 nonce))).

(** The display form of the creation code. *)
Definition bytecodeDisplay (creationCode : string) : string :=
  if (64 <? String.length creationCode)%nat
  then Js.substring0 64 creationCode +:+ "..."
  else creationCode.

(** The entries the contract-creation block appends, or the error it
    throws. *)
Definition creationEntries {provider : ChainProvider} (t : TxRequest)
  : Completion (list ContractInteraction) :=
  if negb (Js.truthy_ostring (tx_to t)) && Js.truthy_ostring (tx_data t) then
    match provider_getTransactionCount (tx_from t), provider_network_chainId, tx_from t with
    | Throw e, _, _ => Throw e
    | Return _, Throw e, _ => Throw e
    | Return _, Return _, None =>
        Throw (TypeError "Cannot read properties of undefined (reading 'slice')")
    | Return nonce, Return chainId, Some sender =>
        Return [ {| ci_type := "creation";
                    ci_bytecode := bytecodeDisplay (default "" (tx_data t));
                    ci_estimatedAddress := estimatedAddressOf chainId sender nonce;
                    ci_constructorArgs := extractConstructorArgs (default "" (tx_data t)) |} ]
    end
  else Return [].

(** The gas cost the last block computes, or the error it throws. *)
Definition gasCostOf {ethers : EthersLibrary} (t : TxRequest) (used : string)
  : Completion GasCost :=
  match BigInt_string used, quantity_BigInt (effectiveGasPrice t) with
  | Throw e, _ => Throw e
  | Return _, Throw e => Throw e
  | Return u, Return p =>
      match formatUnits (u * p) Ethers.gwei, Ethers.formatEther (u * p) with
      | Throw e, _ => Throw e
      | Return _, Throw e => Throw e
      | Return gwei, Return ether =>
          Return {| gc_wei := Js.toString (u * p); gc_gwei := gwei; gc_ether := ether |}
      end
  end.

(** The result of the statements after the preparation, on a working copy
    holding [t]. *)
Definition analysisOutcome {ethers : EthersLibrary} {provider : ChainProvider}
    {erc20 : ERC20Binding} (t : TxRequest) : SimulationResult :=
  match provider_getBlockNumber with
  | Throw e => fallbackResult e
  | Return blockNumber =>
      let r1 := callOutcome (provider_call t blockNumber) initialResult in
      let r2 := reestimateOutcome (provider_estimateGas t) t r1 in
      match creationEntries t with
      | Throw e => fallbackResult e
      | Return created =>
          match gasCostOf t (gasUsed r2) with
          | Throw e => fallbackResult e
          | Return cost =>
              {| success := success r2; gasUsed := gasUsed r2; logs := [];
                 tokenTransfers := detectedTransfers t;
                 contractInteractions := created;
                 errorMessage := errorMessage r2;
                 stateChanges := Some []; gasCost := Some cost |}
          end
      end
  end.

(** The request the analysis runs on, or the error of the fee block. *)
Definition preparedRequest {provider : ChainProvider} {walletManager : WalletManager}
    (t0 : TxRequest) : Completion TxRequest :=
  withFees (withGasLimit (withSender t0)).

(** The result of [simulateTransaction] on a request with content [t0]. *)
Definition simulationOutcome {ethers : EthersLibrary} {provider : ChainProvider}
    {erc20 : ERC20Binding} {walletManager : WalletManager} (t0 : TxRequest)
  : SimulationResult :=
  match preparedRequest t0 with
  | Throw e => fallbackResult e
  | Return t => analysisOutcome t
  end.

(** The exception that reaches the outer [catch] of [simulateTransaction] on
    a request with content [t0], if any: the statements outside the inner
    [try] blocks are the fee block, the block-number read, the
    contract-creation block and the gas-cost block. *)
Definition unhandledException {ethers : EthersLibrary} {provider : ChainProvider}
    {walletManager : WalletManager} (t0 : TxRequest) : option JsError :=
  match preparedRequest t0 with
  | Throw e => Some e
  | Return t =>
      match provider_getBlockNumber with
      | Throw e => Some e
      | Return blockNumber =>
          let r1 := callOutcome (provider_call t blockNumber) initialResult in
          let r2 := reestimateOutcome (provider_estimateGas t) t r1 in
          match creationEntries t with
          | Throw e => Some e
          | Return _ =>
              match gasCostOf t (gasUsed r2) with
              | Throw e => Some e
              | Return _ => None
              end
          end
      end
  end.

(** The lines the scan of one registry entry logs. *)
Definition scanWarnings {ethers : EthersLibrary} {erc20 : ERC20Binding} (address : string)
    (fromBlock toBlock : BlockTag) (entry : string * string) : list string :=
  match scanError address fromBlock toBlock (entry.2) with
  | Some e => ["Failed to get balance changes for " +:+ entry.1 +:+ ": " +:+ message e]
  | None => []
  end.

(** A hexadecimal digit in either case, and in lower case. *)
Definition hex_char (c : ascii) : bool :=
  let n := N_of_ascii c in
  (((48 <=? n) && (n <=? 57)) || ((97 <=? n) && (n <=? 102))
   || ((65 <=? n) && (n <=? 70)))%N.

Definition lower_hex_char (c : ascii) : bool :=
  let n := N_of_ascii c in
  (((48 <=? n) && (n <=? 57)) || ((97 <=? n) && (n <=? 102)))%N.

Fixpoint all_chars (p : ascii -> bool) (s : string) : bool :=
  match s with
  | EmptyString => true
  | String c t => p c && all_chars p t
  end.

(** An account address as text: 42 characters, hexadecimal after the first
    two. *)
Definition hexAddress (a : string) : Prop :=
  String.length a = 42%nat /\ all_chars hex_char (Js.slice_from 2 a) = true.

(** The line the gas-limit block logs on a request: the warning of the
    default limit, when the request has no limit and the estimate fails. *)
Definition limitWarnings {provider : ChainProvider} (t : TxRequest) : list string :=
  if truthy_oquantity (tx_gasLimit t) then []
  else
    match provider_estimateGas t with
    | Return _ => []
    | Throw error =>
        ["Gas estimation failed: " +:+ message error +:+ ". Using default value."]
    end.

(** ** Example environments *)

Module Examples.

(** [formatUnits] of a library that prints every number of the format. *)
Definition formatUnits512 (value decimals : Z) : Completion string :=
  if 80 <? decimals then Throw (Error "invalid FixedNumber decimals (too large)")
  else if (value <? - 2 ^ 511) || (2 ^ 511 <=? value) then Throw (Error "overflow")
  else Return (FixedNumber.toString value decimals).

Definition ethers : EthersLibrary.
Proof.
  refine {| isAddress := fun s => String.prefix "0x" s && (String.length s =? 42)%nat;
            checksumAddress := fun s => s;
            formatUnits := formatUnits512;
            invalidBytesLike := fun _ => TypeError "invalid BytesLike value";
            dataOutOfBounds := Error "data out-of-bounds";
            valueExceedsWidth := fun _ => Error "value exceeds width" |}.
  - intros value decimals Hd Hv. unfold formatUnits512.
    destruct (Z.ltb_spec 80 decimals); [lia|].
    destruct (Z.ltb_spec value (- 2 ^ 511)); [lia|].
    destruct (Z.leb_spec (2 ^ 511) value); [lia|]. reflexivity.
  - intros value decimals Hd. unfold formatUnits512.
    destruct (Z.ltb_spec 80 decimals); [eauto|lia].
  - intros value decimals Hv. unfold formatUnits512.
    destruct (80 <? decimals); [eauto|].
    destruct (Z.ltb_spec value (- 2 ^ 511)); [eauto|].
    destruct (Z.leb_spec (2 ^ 511) value); [eauto|lia].
Defined.

Definition noWallet : WalletManager :=
  {| isWalletConnected := fun _ => false; getAddress := fun _ => "" |}.

(** A node on which everything succeeds and every estimate is 50000. *)
Definition steadyNode : ChainProvider :=
  {| provider_estimateGas := fun _ => Return 50000;
     provider_getFeeData := Return (mkFeeData (Some 30) (Some 40) (Some 2));
     provider_getBlockNumber := Return 1000;
     provider_call := fun _ _ => Return "0x";
     provider_getTransactionCount := fun _ => Return 7;
     provider_network_chainId := Return 137;
     provider_getTransaction := fun _ => Return None;
     provider_getTransactionReceipt := fun _ => Return None |}.

Definition unreachable : JsError := Error "network unreachable".

(** A node that cannot be reached at all. *)
Definition deadNode : ChainProvider :=
  {| provider_estimateGas := fun _ => Throw unreachable;
     provider_getFeeData := Throw unreachable;
     provider_getBlockNumber := Throw unreachable;
     provider_call := fun _ _ => Throw unreachable;
     provider_getTransactionCount := fun _ => Throw unreachable;
     provider_network_chainId := Throw unreachable;
     provider_getTransaction := fun _ => Throw unreachable;
     provider_getTransactionReceipt := fun _ => Throw unreachable |}.

Definition pendingTx : TransactionResponse :=
  mkTransactionResponse "0x2222222222222222222222222222222222222222"
    (Some "0x3333333333333333333333333333333333333333") 1000 30.

(** A node that knows the transaction but fails on the receipt lookup. *)
Definition receiptFailsNode : ChainProvider :=
  {| provider_estimateGas := fun _ => Return 50000;
     provider_getFeeData := Return (mkFeeData (Some 30) (Some 40) (Some 2));
     provider_getBlockNumber := Return 1000;
     provider_call := fun _ _ => Return "0x";
     provider_getTransactionCount := fun _ => Return 7;
     provider_network_chainId := Return 137;
     provider_getTransaction := fun _ => Return (Some pendingTx);
     provider_getTransactionReceipt := fun _ => Throw (Error "timeout") |}.

(** A node that knows the transaction, which is not mined yet. *)
Definition pendingNode : ChainProvider :=
  {| provider_estimateGas := fun _ => Return 50000;
     provider_getFeeData := Return (mkFeeData (Some 30) (Some 40) (Some 2));
     provider_getBlockNumber := Return 1000;
     provider_call := fun _ _ => Return "0x";
     provider_getTransactionCount := fun _ => Return 7;
     provider_network_chainId := Return 137;
     provider_getTransaction := fun _ => Return (Some pendingTx);
     provider_getTransactionReceipt := fun _ => Return None |}.

Definition testToken : ERC20Binding :=
  {| contract_symbol := fun _ => Return "TEST";
     contract_decimals := fun _ => Return 18;
     contract_queryFilter := fun _ _ _ _ _ => Return [] |}.

Definition sender : string := "0x2222222222222222222222222222222222222222".
Definition tokenContract : string := "0x3333333333333333333333333333333333333333".
Definition recipient : string := "0x1111111111111111111111111111111111111111".

(** [transfer(recipient, 500 * 10^18)] as call data. *)
Definition transferData : string :=
  "0xa9059cbb"
  +:+ "0000000000000000000000001111111111111111111111111111111111111111"
  +:+ "00000000000000000000000000000000000000000000001b1ae4d6e2ef500000".

Definition transferRequest : TxRequest :=
  mkTx (Some sender) (Some tokenContract) None (Some transferData) None None None None.

(** [{ to: X, value: 1 }]. *)
Definition valueRequest : TxRequest :=
  mkTx None (Some tokenContract) (Some (QBigInt 1)) None None None None None.

(** A request that carries its own gas limit. *)
Definition limitedRequest : TxRequest :=
  mkTx (Some sender) (Some tokenContract) None None (Some (QString "21000")) None None None.

Definition usdc : string := "0x4444444444444444444444444444444444444444".
Definition misconfigured : string := "not-a-token".

Definition registry : TransactionSimulator :=
  mkTransactionSimulator "http://localhost:8545" None
    [("USDC", usdc); ("BAD", misconfigured); ("TEST", tokenContract)].

(** Event logs: for every token but the misconfigured one, three outgoing
    transfers of 1 unit and ten incoming transfers of 1000000000000000001
    units; [tokenContract] has seen a transfer out and back of the same
    amount. *)
Definition ledger : ERC20Binding :=
  {| contract_symbol := fun _ => Return "TEST";
     contract_decimals := fun _ => Return 18;
     contract_queryFilter := fun token from to _ _ =>
       if String.eqb token misconfigured then Throw (Error "could not resolve name")
       else if String.eqb token tokenContract
       then Return [mkTransferEvent sender recipient 5]
       else match from with
            | Some _ => Return (repeat (mkTransferEvent sender recipient 1) 3)
            | None => Return (repeat (mkTransferEvent recipient sender 1000000000000000001) 10)
            end |}.

(** A call that reverts, as the node reports it. *)
Definition revertError : JsError :=
  mkJsError "Error" (Some "CALL_EXCEPTION") "missing revert data"
    (Some "execution reverted: ERC20: transfer amount exceeds balance") [].

(** A node on which every call reverts and no estimate can be made. *)
Definition revertingNode : ChainProvider :=
  {| provider_estimateGas := fun _ => Throw (Error "cannot estimate gas");
     provider_getFeeData := Return (mkFeeData (Some 30) (Some 40) (Some 2));
     provider_getBlockNumber := Return 1000;
     provider_call := fun _ _ => Throw revertError;
     provider_getTransactionCount := fun _ => Return 7;
     provider_network_chainId := Return 137;
     provider_getTransaction := fun _ => Return None;
     provider_getTransactionReceipt := fun _ => Return None |}.

(** A node that answers calls but cannot estimate gas. *)
Definition stallingNode : ChainProvider :=
  {| provider_estimateGas := fun _ => Throw (Error "cannot estimate gas");
     provider_getFeeData := Return (mkFeeData (Some 30) (Some 40) (Some 2));
     provider_getBlockNumber := Return 1000;
     provider_call := fun _ _ => Return "0x";
     provider_getTransactionCount := fun _ => Return 7;
     provider_network_chainId := Return 137;
     provider_getTransaction := fun _ => Return None;
     provider_getTransactionReceipt := fun _ => Return None |}.

(** A deployment: creation code and a sender, no [to]. *)
Definition creationRequest : TxRequest :=
  mkTx (Some sender) None None
    (Some ("0x608060405234801561001057600080fd5b50610150806100206000396000f3fe"
           +:+ "608060405234801561001057600080fd5b50600436106100365760003560e01c"))
    None None None None.

(** A request that names its own legacy gas price. *)
Definition pricedRequest : TxRequest :=
  mkTx (Some sender) (Some tokenContract) (Some (QBigInt 1)) None None
    (Some (QString "25")) None None.


(** The transfer selector and the recipient word, without the amount. *)
Definition truncatedTransferData : string :=
  "0xa9059cbb"
  +:+ "0000000000000000000000001111111111111111111111111111111111111111".

Definition truncatedTransferRequest : TxRequest :=
  mkTx (Some sender) (Some tokenContract) None (Some truncatedTransferData)
    None None None None.

Definition minedReceipt : TransactionReceipt :=
  mkTransactionReceipt 21000 (Some 1) 4242 [mkLog tokenContract [] "0x"].

(** A node that knows the transaction and its receipt. *)
Definition minedNode : ChainProvider :=
  {| provider_estimateGas := fun _ => Return 50000;
     provider_getFeeData := Return (mkFeeData (Some 30) (Some 40) (Some 2));
     provider_getBlockNumber := Return 5000;
     provider_call := fun _ _ => Return "0x";
     provider_getTransactionCount := fun _ => Return 7;
     provider_network_chainId := Return 137;
     provider_getTransaction := fun _ => Return (Some pendingTx);
     provider_getTransactionReceipt := fun _ => Return (Some minedReceipt) |}.

(** A wallet context with a connected signer. *)
Definition connectedWallet : WalletManager :=
  {| isWalletConnected := fun _ => true; getAddress := fun _ => sender |}.

Definition signer : Templates.Wallet := Templates.mkWallet sender.

Definition signerStore : Templates.WalletStore :=
  {| Templates.getWallet := fun _ => Return (Some signer) |}.

(** A compiler that knows one contract, [Hello], and warns about it. *)
Definition helloCompiler : Templates.Compiler :=
  {| Templates.solc_compile := fun _ =>
       Return {| Templates.output_errors :=
                   Some [Templates.mkDiagnostic "warning" "unused variable"];
                 Templates.output_contracts :=
                   Some {[ "contract.sol" :=
                             {[ "Hello" :=
                                  Templates.mkContractOutput [] "6080" "6080" "{}" ]} ]} |} |}.

(** A deployment side on which the broadcast succeeds and the receipt never
    comes. *)
Definition lostReceiptDeployer : Templates.Deployer :=
  {| Templates.factory_getDeployTransaction := fun _ bytecode _ => Return bytecode;
     Templates.wallet_sendTransaction := fun _ _ _ => Return (Templates.mkPendingDeployment "0xabc");
     Templates.tx_wait := fun _ => Throw (Error "timeout exceeded");
     Templates.iface_encodeDeploy := fun _ _ => Return "0x";
     Templates.axios_post := fun _ _ => Throw (Error "offline") |}.

(** A node whose gas estimate is 4 units. *)
Definition frugalNode : ChainProvider :=
  {| provider_estimateGas := fun _ => Return 4;
     provider_getFeeData := Return (mkFeeData (Some 30) (Some 40) (Some 2));
     provider_getBlockNumber := Return 1000;
     provider_call := fun _ _ => Return "0x";
     provider_getTransactionCount := fun _ => Return 7;
     provider_network_chainId := Return 137;
     provider_getTransaction := fun _ => Return None;
     provider_getTransactionReceipt := fun _ => Return None |}.

(** A token contract that reports 81 decimals and has seen one incoming
    transfer of 5 units. *)
Definition wideToken : ERC20Binding :=
  {| contract_symbol := fun _ => Return "WIDE";
     contract_decimals := fun _ => Return 81;
     contract_queryFilter := fun _ from _ _ _ =>
       match from with
       | Some _ => Return []
       | None => Return [mkTransferEvent recipient sender 5]
       end |}.

(** The caller's request object is object 1 of the heap. *)
Definition callerHeap (t : TxRequest) : State := mkState {[ 1%positive := t ]} [].

End Examples.

(** * Properties *)

(** ** Rules of the weakest precondition *)

Section Rules.
Context {A B : Type}.
Implicit Types (Q : A -> State -> Prop) (E : JsError -> State -> Prop).

Lemma wp_ret (a : A) Q E s : Q a s -> wp (ret a) Q E s.
Proof. done. Qed.

Lemma wp_throw (e : JsError) Q E s : E e s -> wp (throw e) Q E s.
Proof. done. Qed.

Lemma wp_bind (m : M B) (k : B -> M A) Q E s :
  wp m (fun b s' => wp (k b) Q E s') E s -> wp (bind m k) Q E s.
Proof. unfold wp, bind. by destruct (m s) as [[b|e] s']. Qed.

Lemma wp_try_catch (body : M A) (handler : JsError -> M A) Q E s :
  wp body Q (fun e s' => wp (handler e) Q E s') s -> wp (try_catch body handler) Q E s.
Proof. unfold wp, try_catch. by destruct (body s) as [[a|e] s']. Qed.

Lemma wp_await (c : Completion A) Q E s :
  match c with Return a => Q a s | Throw e => E e s end -> wp (await c) Q E s.
Proof. done. Qed.

Lemma wp_mono (m : M A) Q Q' E E' s :
  wp m Q E s ->
  (forall a s', Q a s' -> Q' a s') ->
  (forall e s', E e s' -> E' e s') ->
  wp m Q' E' s.
Proof. unfold wp. destruct (m s) as [[a|e] s']; auto. Qed.

End Rules.

Lemma wp_read (l : loc) Q E s : Q (deref (heap s) l) s -> wp (read l) Q E s.
Proof. done. Qed.

Lemma wp_assign (l : loc) upd Q E s :
  Q tt (mkState (<[l := upd (deref (heap s) l)]> (heap s)) (warnings s)) ->
  wp (assign l upd) Q E s.
Proof. done. Qed.

Lemma wp_warn msg Q E s :
  Q tt (mkState (heap s) (warnings s ++ [msg])) -> wp (warn msg) Q E s.
Proof. done. Qed.

Lemma wp_spread (l : loc) Q E s :
  Q (workingCopy s) (mkState (<[workingCopy s := deref (heap s) l]> (heap s)) (warnings s)) ->
  wp (spread l) Q E s.
Proof. done. Qed.

Lemma deref_insert_eq (h : gmap loc TxRequest) l t : deref (<[l := t]> h) l = t.
Proof. unfold deref. by rewrite lookup_insert_eq. Qed.

Lemma workingCopy_fresh (s : State) : heap s !! workingCopy s = None.
Proof. unfold workingCopy. apply (not_elem_of_dom (D := gset loc)), is_fresh. Qed.


Lemma wp_conj {A} (m : M A) (Q Q' : A -> State -> Prop)
    (E E' : JsError -> State -> Prop) (s : State) :
  wp m Q E s -> wp m Q' E' s ->
  wp m (fun a s' => Q a s' /\ Q' a s') (fun e s' => E e s' /\ E' e s') s.
Proof. unfold wp. by destruct (m s) as [[a|e] s']. Qed.

Lemma wp_self {A} (m : M A) (s : State) :
  wp m (fun a _ => fst (m s) = Return a) (fun e _ => fst (m s) = Throw e) s.
Proof. unfold wp. by destruct (m s) as [[a|e] s']. Qed.

Lemma wp_eq {A} (m : M A) (a : A) (s s0 : State) :
  wp m (fun a' s' => a' = a /\ s' = s0) (fun _ _ => False) s -> m s = (Return a, s0).
Proof. unfold wp. destruct (m s) as [[a'|e] s']; [by intros [-> ->]|done]. Qed.

Ltac wp_step :=
  lazymatch goal with
  | |- wp (bind _ _) _ _ _ => apply wp_bind
  | |- wp (ret _) _ _ _ => apply wp_ret
  | |- wp (throw _) _ _ _ => apply wp_throw
  | |- wp (try_catch _ _) _ _ _ => apply wp_try_catch
  | |- wp (await _) _ _ _ => apply wp_await
  | |- wp (read _) _ _ _ => apply wp_read
  | |- wp (assign _ _) _ _ _ => apply wp_assign
  | |- wp (warn _) _ _ _ => apply wp_warn
  | |- wp (spread _) _ _ _ => apply wp_spread
  | |- wp (if ?c then _ else _) _ _ _ => destruct c eqn:?
  | |- wp (match ?c with _ => _ end) _ _ _ => destruct c eqn:?
  | |- match ?c with _ => _ end => destruct c eqn:?
  end.

(** ** The 20% gas buffer *)

Lemma addGasBuffer_floor (E : Z) : 0 <= E -> addGasBuffer E = E * 120 / 100.
Proof. intros HE. unfold addGasBuffer. apply Z.quot_div_nonneg; lia. Qed.

(** Truncating division leaves an estimate as it is exactly when its
    magnitude is at most 4. *)
Lemma quot_buffer_fixpoint (E : Z) : Z.quot (E * 120) 100 = E <-> -4 <= E <= 4.
Proof.
  pose proof (Z.quot_rem' (E * 120) 100) as Hqr.
  destruct (Z_le_gt_dec 0 E) as [Hpos|Hneg].
  - pose proof (Z.rem_bound_pos (E * 120) 100 ltac:(lia) ltac:(lia)). lia.
  - pose proof (Z.rem_bound_abs (E * 120) 100 ltac:(lia)).
    pose proof (Z.rem_nonpos (E * 120) 100 ltac:(lia) ltac:(lia)). lia.
Qed.

(** ** Footprint of the heap operations *)

Lemma extends_refl s : extends s s.
Proof. by unfold extends. Qed.

Lemma extends_trans s1 s2 s3 : extends s1 s2 -> extends s2 s3 -> extends s1 s3.
Proof. unfold extends. intros. by etrans. Qed.

Lemma extends_deref s s' l t : extends s s' -> heap s !! l = Some t -> heap s' !! l = Some t.
Proof. unfold extends. intros Hsub Hl. by eapply lookup_weaken. Qed.

Lemma extends_spread s t w :
  extends s (mkState (<[workingCopy s := t]> (heap s)) w).
Proof. unfold extends. cbn. apply insert_subseteq, workingCopy_fresh. Qed.

Lemma updates_only_refl l s : updates_only l s s.
Proof. by split. Qed.

Lemma updates_only_trans l s1 s2 s3 :
  updates_only l s1 s2 -> updates_only l s2 s3 -> updates_only l s1 s3.
Proof. intros [H1 H1'] [H2 H2']. split; eauto. Qed.

Lemma updates_only_assign l s t w :
  updates_only l s (mkState (<[l := t]> (heap s)) w).
Proof.
  split; cbn.
  - intros l0 t0 Hne Hl0. by rewrite lookup_insert_ne.
  - intros _. rewrite lookup_insert_eq. by eexists.
Qed.

Lemma deref_Some (h : gmap loc TxRequest) l t : h !! l = Some t -> deref h l = t.
Proof. unfold deref. by intros ->. Qed.

Lemma extends_after_updates s s1 s2 l :
  extends s s1 -> heap s !! l = None -> updates_only l s1 s2 -> extends s s2.
Proof.
  unfold extends. intros Hext Hl [Hupd _]. apply map_subseteq_spec.
  intros l0 t Hl0. apply Hupd; [intros ->; congruence|]. by eapply lookup_weaken.
Qed.

Lemma updates_only_deref l s s' t :
  updates_only l s s' -> heap s !! l = Some t ->
  heap s' !! l = Some (deref (heap s') l).
Proof.
  intros [_ Halloc] Hl. destruct Halloc as [t' Ht']; [by eexists|].
  unfold deref. by rewrite Ht'.
Qed.

(** ** [BigInt(z.toString())] is [z] *)

Lemma pretty_N_char_value (x : N) :
  (x < 10)%N -> Js.digit_value (pretty_N_char x) = Some (Z.of_N x).
Proof.
  intros Hx.
  assert (x = 0 \/ x = 1 \/ x = 2 \/ x = 3 \/ x = 4 \/ x = 5 \/ x = 6 \/ x = 7
          \/ x = 8 \/ x = 9)%N as Hcases by lia.
  repeat (destruct Hcases as [->|Hcases]; [reflexivity|]). by subst.
Qed.

Lemma pretty_N_char_digit (x : N) :
  ((48 <=? N_of_ascii (pretty_N_char x)) && (N_of_ascii (pretty_N_char x) <=? 57))%N = true.
Proof. unfold pretty_N_char. by repeat case_match. Qed.

Lemma parse_pretty_N_go (x : N) :
  exists k, 0 <= k /\ forall s acc,
    Js.parse_digits 10 acc (pretty_N_go x s) = Js.parse_digits 10 (acc * 10 ^ k + Z.of_N x) s.
Proof.
  induction (N.lt_wf_0 x) as [x _ IH].
  destruct (decide (x = 0%N)) as [->|Hx].
  - exists 0. split; [done|]. intros s acc. rewrite pretty_N_go_0. f_equal. lia.
  - destruct (IH (N.div x 10)) as (k & Hk & IHk); [apply N.div_lt; lia|].
    exists (k + 1). split; [lia|]. intros s acc.
    rewrite pretty_N_go_step by lia. rewrite IHk. cbn [Js.parse_digits].
    rewrite pretty_N_char_value by (apply N.mod_lt; lia).
    assert ((Z.of_N (N.modulo x 10) <? 10) = true) as ->.
    { apply Z.ltb_lt. pose proof (N.mod_lt x 10). lia. }
    f_equal. rewrite Z.pow_add_r, Z.pow_1_r by lia.
    pose proof (N.div_mod x 10 ltac:(lia)) as Hdm.
    clear IHk. generalize (10 ^ k). intros q. lia.
Qed.

Lemma all_digits_pretty_N_go (x : N) (s : string) :
  all_digits s = true -> all_digits (pretty_N_go x s) = true.
Proof.
  revert s. induction (N.lt_wf_0 x) as [x _ IH]; intros s Hs.
  destruct (decide (x = 0%N)) as [->|Hx].
  - by rewrite pretty_N_go_0.
  - rewrite pretty_N_go_step by lia. apply IH; [apply N.div_lt; lia|].
    cbn [all_digits]. by rewrite pretty_N_char_digit, Hs.
Qed.

Lemma parse_numeral_pretty (p : positive) :
  Js.parse_numeral 10 (pretty (N.pos p)) = Some (Z.pos p) /\
  all_digits (pretty (N.pos p)) = true /\ pretty (N.pos p) <> "".
Proof.
  unfold pretty, pretty_N. rewrite decide_False by done.
  destruct (parse_pretty_N_go (N.pos p)) as (k & Hk & Hparse).
  specialize (Hparse "" 0). cbn [Js.parse_digits] in Hparse.
  replace (0 * 10 ^ k + Z.of_N (N.pos p)) with (Z.pos p) in Hparse by lia.
  assert (Hne : pretty_N_go (N.pos p) "" <> "").
  { intros Heq. rewrite Heq in Hparse. cbn in Hparse. by injection Hparse. }
  split; [|split; [by apply all_digits_pretty_N_go|done]].
  unfold Js.parse_numeral. by destruct (pretty_N_go (N.pos p) "").
Qed.

Lemma digit_not_white (c : ascii) :
  ((48 <=? N_of_ascii c) && (N_of_ascii c <=? 57))%N = true -> Js.is_white c = false.
Proof.
  unfold Js.is_white. intros [H1%N.leb_le H2%N.leb_le]%andb_true_iff.
  apply orb_false_iff. split; [apply N.eqb_neq; lia|].
  apply andb_false_iff. right. apply N.leb_gt. lia.
Qed.

Lemma trimEnd_digits (s : string) : all_digits s = true -> Js.trimEnd s = s.
Proof.
  induction s as [|c t IH]; [done|]. cbn [all_digits Js.trimEnd].
  intros [Hc Ht]%andb_true_iff. rewrite (IH Ht).
  destruct t; [by rewrite (digit_not_white c Hc)|done].
Qed.

Lemma trim_digits (s : string) : all_digits s = true -> Js.trim s = s.
Proof.
  intros Hs. unfold Js.trim.
  assert (Js.trimStart s = s) as ->; [|by apply trimEnd_digits].
  destruct s as [|c t]; [done|]. cbn in *.
  apply andb_true_iff in Hs as [Hc _]. by rewrite (digit_not_white c Hc).
Qed.

Lemma digit_eqb_false (c d : ascii) :
  ((48 <=? N_of_ascii c) && (N_of_ascii c <=? 57))%N = true ->
  ((48 <=? N_of_ascii d) && (N_of_ascii d <=? 57))%N = false ->
  Ascii.eqb c d = false.
Proof.
  intros Hc Hd. destruct (Ascii.eqb_spec c d) as [->|]; [|done]. congruence.
Qed.

Lemma StringToBigInt_digits (s : string) :
  all_digits s = true -> s <> "" ->
  Js.StringToBigInt s = Js.parse_numeral 10 s.
Proof.
  intros Hs Hne. unfold Js.StringToBigInt. rewrite trim_digits by done.
  destruct s as [|a r]; [done|]. cbn [all_digits] in Hs.
  apply andb_true_iff in Hs as [Ha Hr].
  rewrite !(digit_eqb_false a) by done.
  unfold Js.radix_prefix. destruct r as [|b r]; [done|].
  cbn [all_digits] in Hr. apply andb_true_iff in Hr as [Hb Hr].
  rewrite !(digit_eqb_false b) by done. by destruct (Ascii.eqb a "0").
Qed.

Lemma StringToBigInt_toString (z : Z) : Js.StringToBigInt (Js.toString z) = Some z.
Proof.
  unfold Js.toString, pretty, pretty_Z. destruct z as [|p|p].
  - reflexivity.
  - destruct (parse_numeral_pretty p) as (Hp & Hd & Hne).
    change (pretty p) with (pretty (N.pos p)).
    by rewrite StringToBigInt_digits.
  - destruct (parse_numeral_pretty p) as (Hp & Hd & Hne).
    change (pretty p) with (pretty (N.pos p)).
    change (("-" +:+ pretty (N.pos p))%string) with (String "-" (pretty (N.pos p))).
    generalize dependent (pretty (N.pos p)). intros s Hp Hd Hne.
    unfold Js.StringToBigInt, Js.trim.
    change (Js.trimStart (String "-" s)) with (String "-" s).
    cbn [Js.trimEnd]. rewrite trimEnd_digits by done.
    destruct s as [|c t]; [done|].
    change (Ascii.eqb "-" "-") with true. cbn match.
    by rewrite Hp.
Qed.

Lemma BigInt_string_toString (z : Z) : BigInt_string (Js.toString z) = Return z.
Proof. unfold BigInt_string, quantity_BigInt. by rewrite StringToBigInt_toString. Qed.

Lemma toString_truthy (z : Z) : Js.truthy_string (Js.toString z) = true.
Proof.
  unfold Js.truthy_string. destruct (String.eqb_spec (Js.toString z) "") as [Heq|]; [|done].
  pose proof (StringToBigInt_toString z) as Hz. rewrite Heq in Hz.
  injection Hz as <-. done.
Qed.

(** ** [parseInt] on the text of a number *)

Lemma digit_value_digit (c : ascii) :
  ((48 <=? N_of_ascii c) && (N_of_ascii c <=? 57))%N = true ->
  exists d, Js.digit_value c = Some d /\ 0 <= d < 10.
Proof.
  intros [H1 H2]%andb_true_iff. apply N.leb_le in H1, H2.
  unfold Js.digit_value. exists (Z.of_N (N_of_ascii c) - 48).
  assert ((48 <=? Z.of_N (N_of_ascii c)) = true) as -> by (apply Z.leb_le; lia).
  assert ((Z.of_N (N_of_ascii c) <=? 57) = true) as -> by (apply Z.leb_le; lia).
  split; [done|lia].
Qed.

Lemma parse_prefix_digits (s : string) (acc : Z) :
  all_digits s = true -> Js.parse_prefix 10 (Some acc) s = Js.parse_digits 10 acc s.
Proof.
  revert acc. induction s as [|c t IH]; intros acc Hs; [done|].
  cbn [all_digits] in Hs. apply andb_true_iff in Hs as [Hc Ht].
  destruct (digit_value_digit c Hc) as (d & Hd & Hlt).
  cbn [Js.parse_prefix Js.parse_digits]. rewrite Hd.
  assert ((d <? 10) = true) as -> by (apply Z.ltb_lt; lia).
  cbn [default from_option id]. by apply IH.
Qed.

Lemma parseInt_unsigned (u : string) :
  all_digits u = true -> u <> "" ->
  match u with
  | String "0" (String "x" r) | String "0" (String "X" r) => Js.parse_prefix 16 None r
  | _ => Js.parse_prefix 10 None u
  end = Js.parse_numeral 10 u.
Proof.
  intros Hu Hne. destruct u as [|c t]; [done|].
  cbn [all_digits] in Hu. apply andb_true_iff in Hu as [Hc Ht].
  assert (Hten : Js.parse_prefix 10 None (String c t) = Js.parse_numeral 10 (String c t)).
  { destruct (digit_value_digit c Hc) as (d & Hd & Hlt).
    cbn [Js.parse_prefix Js.parse_numeral Js.parse_digits]. rewrite Hd.
    assert ((d <? 10) = true) as -> by (apply Z.ltb_lt; lia).
    cbn [default from_option id]. by apply parse_prefix_digits. }
  rewrite <- Hten.
  destruct t as [|c' t']; [by destruct c as [[] [] [] [] [] [] [] []]|].
  cbn [all_digits] in Ht. apply andb_true_iff in Ht as [Hc' _].
  destruct c' as [[] [] [] [] [] [] [] []]; try discriminate Hc';
    by destruct c as [[] [] [] [] [] [] [] []].
Qed.

Lemma parseInt_digits (s : string) :
  all_digits s = true -> s <> "" -> Js.parseInt s = Js.parse_numeral 10 s.
Proof.
  intros Hs Hne. pose proof (parseInt_unsigned s Hs Hne) as Hu.
  destruct s as [|c t]; [done|].
  pose proof Hs as Hc. cbn [all_digits] in Hc. apply andb_true_iff in Hc as [Hc _].
  unfold Js.parseInt. cbn [Js.trimStart]. rewrite (digit_not_white c Hc).
  assert (Hsign : match String c t with
                  | String "-" r => (-1, r)
                  | String "+" r => (1, r)
                  | _ => (1, String c t)
                  end = (1, String c t)).
  { destruct c as [[] [] [] [] [] [] [] []]; try discriminate Hc; done. }
  rewrite Hsign, Hu. by destruct (Js.parse_numeral 10 (String c t)) as [[]|].
Qed.

Lemma parseInt_toString (n : Z) : Js.parseInt (Js.toString n) = Some n.
Proof.
  unfold Js.toString. destruct n as [|p|p].
  - reflexivity.
  - destruct (parse_numeral_pretty p) as (Hp & Hd & Hne).
    change (pretty (Z.pos p)) with (pretty (N.pos p)).
    by rewrite parseInt_digits, Hp.
  - destruct (parse_numeral_pretty p) as (Hp & Hd & Hne).
    change (pretty (Z.neg p)) with (String "-" (pretty (N.pos p))).
    pose proof (parseInt_unsigned _ Hd Hne) as Hu.
    set (u := pretty (N.pos p)) in *. unfold Js.parseInt.
    change (Js.trimStart (String "-" u)) with (String "-" u). cbv beta iota zeta.
    rewrite Hu, Hp. done.
Qed.

Lemma exactNumber_true (n : Z) : Z.abs n <= 2 ^ 53 -> exactNumber n = true.
Proof. intros Hn. unfold exactNumber. by apply Z.leb_le. Qed.

(** The code converts a bound that names a block to that block. *)
Lemma namesBlock_blockBound (b : option Quantity) (tag : BlockTag) :
  namesBlock b tag -> blockBound b = tag.
Proof.
  intros [|n Hne Hn|n Hn]; [done| |].
  - unfold blockBound. cbn. by rewrite (proj2 (Z.eqb_neq n 0) Hne), exactNumber_true.
  - unfold blockBound. cbn [truthy_oquantity quantity_truthy].
    by rewrite toString_truthy, parseInt_toString, exactNumber_true.
Qed.

(** ** What estimateGas computes *)

Section EstimateGas.
Context {ethers : EthersLibrary} {provider : ChainProvider}
        {erc20 : ERC20Binding} {walletManager : WalletManager}.

Lemma fillFrom_run (l : loc) (s : State) :
  fillFrom l s =
    (Return tt,
     if negb (Js.truthy_ostring (tx_from (deref (heap s) l))) && isWalletConnected "polygon"
     then mkState (<[l := withSender (deref (heap s) l)]> (heap s)) (warnings s)
     else s).
Proof.
  unfold fillFrom, bind, read, withSender.
  destruct (negb _ && _); done.
Qed.

Lemma deref_fillFrom (l : loc) (s : State) :
  deref (heap (snd (fillFrom l s))) l = withSender (deref (heap s) l).
Proof.
  rewrite fillFrom_run. cbn [snd]. unfold withSender.
  destruct (negb _ && _) eqn:Hc; cbn [heap]; [by rewrite deref_insert_eq|done].
Qed.

(** What [estimateGas] returns, by the answer of the node on the working
    copy. *)
Lemma estimateGas_run (transaction : loc) (s : State) :
  fst (estimateGas transaction s) =
    match provider_estimateGas (withSender (deref (heap s) transaction)) with
    | Return E =>
        Return {| gasEstimate := Js.toString E;
                  gasLimit := Js.toString (addGasBuffer E);
                  recommendedGasLimit := Js.toString (addGasBuffer E) |}
    | Throw error =>
        Throw (transactionFailed "Gas estimation failed: " error
                 [("transaction", DObject transaction)])
    end.
Proof.
  unfold estimateGas, try_catch, bind, spread, read, await.
  fold (workingCopy s). set (l := workingCopy s). set (s1 := mkState _ _).
  assert (Hd : deref (heap s1) l = deref (heap s) transaction)
    by apply deref_insert_eq.
  pose proof (deref_fillFrom l s1) as Hf. rewrite Hd in Hf.
  destruct (fillFrom l s1) as [[[]|e] s2] eqn:Hrun;
    [|by rewrite fillFrom_run in Hrun].
  cbn [snd] in Hf. rewrite Hf.
  by destruct (provider_estimateGas _).
Qed.

End EstimateGas.

(** ** The blocks of simulateTransaction *)

Section Blocks.
Context {ethers : EthersLibrary} {provider : ChainProvider}
        {erc20 : ERC20Binding} {walletManager : WalletManager}.

Lemma fillFrom_spec (l : loc) (s : State) :
  wp (fillFrom l)
     (fun _ s' => deref (heap s') l = withSender (deref (heap s) l) /\
                  updates_only l s s' /\ warnings s' = warnings s)
     (fun _ _ => False) s.
Proof.
  unfold wp. pose proof (deref_fillFrom l s) as Hd. rewrite fillFrom_run in *.
  cbn [snd] in Hd. split; [done|].
  destruct (negb _ && _); split; auto using updates_only_refl, updates_only_assign.
Qed.

Lemma fillGasLimit_spec (l : loc) (s : State) :
  wp (fillGasLimit l)
     (fun _ s' => deref (heap s') l = withGasLimit (deref (heap s) l) /\
                  updates_only l s s')
     (fun _ _ => False) s.
Proof.
  unfold fillGasLimit, withGasLimit.
  apply wp_bind, wp_read.
  destruct (truthy_oquantity _); cbn [negb].
  - apply wp_ret. auto using updates_only_refl.
  - apply wp_try_catch, wp_bind, wp_await.
    destruct (provider_estimateGas _) as [E|e].
    + apply wp_assign. cbn [heap]. rewrite deref_insert_eq.
      auto using updates_only_assign.
    + apply wp_bind, wp_assign, wp_warn. cbn [heap warnings]. rewrite deref_insert_eq.
      auto using updates_only_assign.
Qed.

End Blocks.

(** ** The blocks compute their outcome functions *)

Section Outcome.
Context {ethers : EthersLibrary} {provider : ChainProvider}
        {erc20 : ERC20Binding} {walletManager : WalletManager}.

Lemma fillFees_exact (l : loc) (s : State) :
  wp (fillFees l)
     (fun _ s' => withFees (deref (heap s) l) = Return (deref (heap s') l) /\
                  updates_only l s s' /\
                  sameCall (deref (heap s) l) (deref (heap s') l))
     (fun e s' => withFees (deref (heap s) l) = Throw e /\ updates_only l s s' /\
                  sameCall (deref (heap s) l) (deref (heap s') l)) s.
Proof.
  unfold fillFees, withFees. apply wp_bind, wp_read.
  set (t := deref (heap s) l).
  destruct (negb _ && negb _).
  2:{ apply wp_ret. split; [done|]. split; [apply updates_only_refl|done]. }
  apply wp_bind, wp_await.
  destruct provider_getFeeData as [fd|e];
    [|split; [done|]; split; [apply updates_only_refl|done]].
  destruct (truthy_oquantity (QBigInt <$> fd_maxFeePerGas fd)) eqn:Hm.
  - destruct (fd_maxFeePerGas fd) as [m|]; [|done].
    apply wp_bind, wp_await. cbn [BigInt_nullable].
    apply wp_bind, wp_assign, wp_bind, wp_await. cbn [heap warnings].
    destruct (fd_maxPriorityFeePerGas fd) as [p|]; cbn [BigInt_nullable].
    + apply wp_assign. cbn [heap warnings].
      rewrite !deref_insert_eq, insert_insert_eq. fold t.
      split; [done|]. split; [apply updates_only_assign|done].
    + rewrite deref_insert_eq. fold t.
      split; [done|]. split; [apply updates_only_assign|done].
  - apply wp_bind, wp_await.
    destruct (fd_gasPrice fd) as [g|]; cbn [BigInt_nullable].
    + apply wp_assign. cbn [heap warnings]. rewrite deref_insert_eq. fold t.
      split; [done|]. split; [apply updates_only_assign|done].
    + split; [done|]. split; [apply updates_only_refl|done].
Qed.

Lemma speculativeCall_exact (l : loc) (b : Z) (r : SimulationResult) (s : State) :
  wp (speculativeCall l b r)
     (fun r' s' => r' = callOutcome (provider_call (deref (heap s) l) b) r /\ extends s s')
     (fun _ _ => False) s.
Proof.
  unfold speculativeCall, callOutcome.
  apply wp_try_catch, wp_bind, wp_spread, wp_bind, wp_read, wp_bind, wp_await.
  cbn [heap warnings]. rewrite deref_insert_eq.
  destruct (provider_call _ _) as [v|e].
  - apply wp_ret. split; [done|apply extends_spread].
  - destruct (Js.truthy_ostring (data e)); [destruct (Js.includes _ _)|];
      apply wp_ret; (split; [done|apply extends_spread]).
Qed.

Lemma reestimateGas_exact (l : loc) (r : SimulationResult) (s : State) :
  wp (reestimateGas l r)
     (fun r' s' =>
        r' = reestimateOutcome (provider_estimateGas (deref (heap s) l)) (deref (heap s) l) r /\
        s' = s)
     (fun _ _ => False) s.
Proof.
  unfold reestimateGas, reestimateOutcome.
  apply wp_try_catch, wp_bind, wp_read, wp_bind, wp_await.
  destruct (provider_estimateGas _) as [E|e].
  - by apply wp_ret.
  - apply wp_bind, wp_read. cbn zeta. destruct (negb _); by apply wp_ret.
Qed.

(** The result with further entries appended to its two arrays. *)
Lemma detectTokenTransfers_exact (l : loc) (r : SimulationResult) (s : State) :
  wp (detectTokenTransfers l r)
     (fun r' s' =>
        heap s' = heap s /\
        r' = mkSimulationResult (success r) (gasUsed r) (logs r)
               (tokenTransfers r ++ detectedTransfers (deref (heap s) l))
               (contractInteractions r) (errorMessage r) (stateChanges r) (gasCost r))
     (fun _ _ => False) s.
Proof.
  assert (Hsame : r = mkSimulationResult (success r) (gasUsed r) (logs r)
               (tokenTransfers r ++ [])
               (contractInteractions r) (errorMessage r) (stateChanges r) (gasCost r)).
  { rewrite app_nil_r. by destruct r. }
  unfold detectTokenTransfers, detectedTransfers. apply wp_bind, wp_read.
  set (t := deref (heap s) l).
  destruct (Js.truthy_ostring (tx_to t)) eqn:Hto; cbn [andb]; [|by apply wp_ret].
  destruct (Js.truthy_ostring (tx_data t)) eqn:Hdata; cbn [andb]; [|by apply wp_ret].
  destruct (Js.startsWith _ _); [|by apply wp_ret].
  destruct (tx_to t) as [a|] eqn:Ha; [|done].
  destruct (tx_data t) as [d|] eqn:Hd; [|done].
  unfold detectERC20Transfer. apply wp_bind, wp_read. fold t. rewrite Ha, Hd.
  cbn [default from_option id].
  apply wp_try_catch, wp_bind, wp_await.
  destruct (Ethers.parseTransaction ERC20_ABI d) as [[decoded|]|e].
  - destruct (String.eqb _ _); [|by apply wp_ret].
    destruct (Ethers.td_args decoded) as [|[to|?] [|[?|amount] ?]];
      try (apply wp_throw, wp_bind, wp_warn, wp_ret; by cbn).
    apply wp_bind, wp_try_catch, wp_ret. cbn beta iota.
    apply wp_bind, wp_await.
    destruct (formatUnits amount _) as [formatted|e].
    + apply wp_ret. by cbn.
    + apply wp_bind, wp_warn, wp_ret. by cbn.
  - apply wp_throw, wp_bind, wp_warn, wp_ret. by cbn.
  - apply wp_bind, wp_warn, wp_ret. by cbn.
Qed.

Lemma contractCreation_exact (l : loc) (r : SimulationResult) (s : State) :
  wp (contractCreation l r)
     (fun r' s' =>
        s' = s /\
        exists created,
          creationEntries (deref (heap s) l) = Return created /\
          r' = mkSimulationResult (success r) (gasUsed r) (logs r) (tokenTransfers r)
                 (contractInteractions r ++ created) (errorMessage r) (stateChanges r)
                 (gasCost r))
     (fun e s' => s' = s /\ creationEntries (deref (heap s) l) = Throw e) s.
Proof.
  unfold contractCreation, creationEntries. apply wp_bind, wp_read.
  set (t := deref (heap s) l).
  destruct (negb _ && _).
  2:{ apply wp_ret. split; [done|]. exists []. rewrite app_nil_r. by destruct r. }
  apply wp_bind, wp_await.
  destruct (provider_getTransactionCount _) as [nonce|e]; [|done].
  apply wp_bind, wp_await.
  destruct provider_network_chainId as [chainId|e]; [|done].
  apply wp_bind.
  destruct (tx_from t) as [sender|].
  - apply wp_ret, wp_ret. split; [done|]. by eexists.
  - by apply wp_throw.
Qed.

Lemma addGasCost_exact (l : loc) (r : SimulationResult) (s : State) :
  wp (addGasCost l r)
     (fun r' s' =>
        s' = s /\
        exists cost,
          gasCostOf (deref (heap s) l) (gasUsed r) = Return cost /\
          r' = with_gasCost cost r)
     (fun e s' => s' = s /\ gasCostOf (deref (heap s) l) (gasUsed r) = Throw e) s.
Proof.
  unfold addGasCost, gasCostOf. apply wp_bind, wp_read.
  fold (effectiveGasPrice (deref (heap s) l)).
  apply wp_bind, wp_await.
  destruct (BigInt_string (gasUsed r)) as [u|e]; [|done].
  apply wp_bind, wp_await.
  destruct (quantity_BigInt (effectiveGasPrice _)) as [p|e]; [|done].
  apply wp_bind, wp_await.
  destruct (formatUnits (u * p) Ethers.gwei) as [gwei|e]; [|done].
  apply wp_bind, wp_await.
  destruct (Ethers.formatEther (u * p)) as [ether|e]; [|done].
  apply wp_ret. split; [done|]. by eexists.
Qed.

Lemma callOutcome_arrays c r :
  logs (callOutcome c r) = logs r /\ tokenTransfers (callOutcome c r) = tokenTransfers r /\
  contractInteractions (callOutcome c r) = contractInteractions r /\
  stateChanges (callOutcome c r) = stateChanges r /\
  gasCost (callOutcome c r) = gasCost r /\ gasUsed (callOutcome c r) = gasUsed r.
Proof. unfold callOutcome. destruct c; [done|]. by destruct (_ && _). Qed.

Lemma reestimateOutcome_arrays c t r :
  logs (reestimateOutcome c t r) = logs r /\
  tokenTransfers (reestimateOutcome c t r) = tokenTransfers r /\
  contractInteractions (reestimateOutcome c t r) = contractInteractions r /\
  stateChanges (reestimateOutcome c t r) = stateChanges r /\
  gasCost (reestimateOutcome c t r) = gasCost r /\
  success (reestimateOutcome c t r) = success r.
Proof. unfold reestimateOutcome. destruct c; [done|]. cbn zeta. by destruct (negb _). Qed.

(** The statements after the preparation return [analysisOutcome], or throw
    the error whose fallback object it is. *)
Lemma analysis_exact (l : loc) (t : TxRequest) (s : State) :
  heap s !! l = Some t ->
  wp (let simulationResult := initialResult in
      blockNumber <- await provider_getBlockNumber ;;
      simulationResult <- speculativeCall l blockNumber simulationResult ;;
      simulationResult <- reestimateGas l simulationResult ;;
      simulationResult <- detectTokenTransfers l simulationResult ;;
      simulationResult <- contractCreation l simulationResult ;;
      simulationResult <- addGasCost l simulationResult ;;
      ret simulationResult)
     (fun r s' => extends s s' /\ r = analysisOutcome t)
     (fun e s' => extends s s' /\ fallbackResult e = analysisOutcome t) s.
Proof.
  intros Hl. cbn zeta. unfold analysisOutcome. apply wp_bind, wp_await.
  destruct provider_getBlockNumber as [b|e]; [|split; [apply extends_refl|done]].
  apply wp_bind. eapply wp_mono; [apply speculativeCall_exact| |done].
  intros r1 s1 (-> & Hext1). cbn beta. rewrite (deref_Some _ _ _ Hl).
  assert (Hl1 : heap s1 !! l = Some t) by (by eapply extends_deref).
  apply wp_bind. eapply wp_mono; [apply reestimateGas_exact| |done].
  intros r2 s2 (-> & ->). cbn beta. rewrite (deref_Some _ _ _ Hl1).
  set (r1 := callOutcome _ _). set (r2 := reestimateOutcome _ _ _).
  assert (Hr2 : logs r2 = [] /\ tokenTransfers r2 = [] /\ contractInteractions r2 = [] /\
                stateChanges r2 = Some [] /\ gasCost r2 = None).
  { destruct (callOutcome_arrays (provider_call t b) initialResult) as (?&?&?&?&?&?).
    destruct (reestimateOutcome_arrays (provider_estimateGas t) t r1) as (?&?&?&?&?&?).
    change (logs initialResult) with (@nil Log) in *.
    change (tokenTransfers initialResult) with (@nil TokenTransfer) in *.
    change (contractInteractions initialResult) with (@nil ContractInteraction) in *.
    change (stateChanges initialResult) with (Some (@nil Empty_set)) in *.
    change (gasCost initialResult) with (@None GasCost) in *.
    subst r2 r1. repeat split; congruence. }
  destruct Hr2 as (Hlogs & Htt & Hci & Hsc & Hgc).
  apply wp_bind. eapply wp_mono; [apply detectTokenTransfers_exact| |done].
  intros r3 s3 (Hh3 & ->). cbn beta. rewrite (deref_Some _ _ _ Hl1).
  assert (Hext3 : extends s s3) by (unfold extends in *; by rewrite Hh3).
  assert (Hl3 : heap s3 !! l = Some t) by (by rewrite Hh3).
  apply wp_bind. eapply wp_mono; [apply contractCreation_exact| |].
  2:{ intros e s4 (-> & Hc). cbn beta. rewrite (deref_Some _ _ _ Hl3) in Hc.
      by rewrite Hc. }
  intros r4 s4 (-> & created & Hc & ->). cbn beta.
  rewrite (deref_Some _ _ _ Hl3) in Hc. rewrite Hc.
  apply wp_bind. eapply wp_mono; [apply addGasCost_exact| |].
  2:{ intros e s5 (-> & Hg). cbn beta. rewrite (deref_Some _ _ _ Hl3) in Hg.
      cbn [gasUsed] in Hg. by rewrite Hg. }
  intros r5 s5 (-> & cost & Hg & ->). cbn beta.
  rewrite (deref_Some _ _ _ Hl3) in Hg. cbn [gasUsed] in Hg. rewrite Hg.
  apply wp_ret. split; [done|]. unfold with_gasCost. cbn.
  by rewrite Hlogs, Htt, Hci, Hsc.
Qed.

(** The preparation leaves the working copy holding [preparedRequest], or
    throws the error [preparedRequest] gives; either way the working copy
    agrees with the request outside its fee fields once sender and gas limit
    are filled in. *)
Lemma prepare_exact {A} (transaction : loc) (k : loc -> M A)
    (Q : A -> State -> Prop) (E : JsError -> State -> Prop) (s : State) :
  (forall s' t,
     extends s s' -> heap s' !! workingCopy s = Some t ->
     preparedRequest (deref (heap s) transaction) = Return t ->
     wp (k (workingCopy s)) Q E s') ->
  (forall e s' t,
     extends s s' -> heap s' !! workingCopy s = Some t ->
     sameCall (withGasLimit (withSender (deref (heap s) transaction))) t ->
     preparedRequest (deref (heap s) transaction) = Throw e -> E e s') ->
  wp (txToSimulate <- spread transaction ;;
      _ <- fillFrom txToSimulate ;;
      _ <- fillGasLimit txToSimulate ;;
      _ <- fillFees txToSimulate ;;
      k txToSimulate) Q E s.
Proof.
  intros Hk HE. set (l := workingCopy s) in *. set (t0 := deref (heap s) transaction) in *.
  apply wp_bind, wp_spread. fold l t0. set (s1 := mkState _ _).
  assert (Hext1 : extends s s1) by apply extends_spread.
  assert (Hl1 : heap s1 !! l = Some t0) by apply lookup_insert_eq.
  assert (Hfresh : heap s !! l = None) by apply workingCopy_fresh.
  apply wp_bind. eapply wp_mono; [apply fillFrom_spec| |done].
  intros [] s2 (Hd2 & Hu2 & _). cbn beta.
  rewrite (deref_Some _ _ _ Hl1) in Hd2.
  apply wp_bind. eapply wp_mono; [apply fillGasLimit_spec| |done].
  intros [] s3 (Hd3 & Hu3). cbn beta. rewrite Hd2 in Hd3.
  assert (Hu13 : updates_only l s1 s3) by (by eapply updates_only_trans).
  apply wp_bind. eapply wp_mono; [apply fillFees_exact| |].
  - intros [] s4 (Hfees & Hu4 & _). cbn beta. rewrite Hd3 in Hfees.
    assert (Hu14 : updates_only l s1 s4) by (by eapply updates_only_trans).
    apply (Hk s4 (deref (heap s4) l)).
    + by eapply extends_after_updates.
    + by eapply updates_only_deref.
    + done.
  - intros e s4 (Hfees & Hu4 & Hsame). rewrite Hd3 in Hfees, Hsame.
    assert (Hu14 : updates_only l s1 s4) by (by eapply updates_only_trans).
    apply (HE e s4 (deref (heap s4) l)).
    + by eapply extends_after_updates.
    + by eapply updates_only_deref.
    + done.
    + done.
Qed.

Lemma withFees_fields (t t' : TxRequest) :
  withFees t = Return t' ->
  tx_from t' = tx_from t /\ tx_to t' = tx_to t /\ tx_data t' = tx_data t /\
  tx_value t' = tx_value t /\ tx_gasLimit t' = tx_gasLimit t.
Proof.
  unfold withFees. destruct (negb _ && negb _); [|by intros [= <-]].
  destruct provider_getFeeData as [fd|]; [|done].
  destruct (truthy_oquantity _).
  - destruct (BigInt_nullable (fd_maxFeePerGas fd)); [|done].
    destruct (BigInt_nullable (fd_maxPriorityFeePerGas fd)); [|done].
    by intros [= <-].
  - destruct (BigInt_nullable (fd_gasPrice fd)); [|done]. by intros [= <-].
Qed.

(** [simulateTransaction] returns [simulationOutcome] of the content of the
    request, leaves every earlier object as it was, and leaves the working
    copy holding the prepared request; when the fee block throws, the working
    copy holds the request with sender and gas limit filled in, up to its fee
    fields. *)
Lemma simulateTransaction_exact (transaction : loc) (s : State) :
  wp (simulateTransaction transaction)
     (fun r s' =>
        extends s s' /\ r = simulationOutcome (deref (heap s) transaction) /\
        (forall t, preparedRequest (deref (heap s) transaction) = Return t ->
                   heap s' !! workingCopy s = Some t) /\
        exists t, heap s' !! workingCopy s = Some t /\
                  sameCall (withGasLimit (withSender (deref (heap s) transaction))) t)
     (fun _ _ => False) s.
Proof.
  unfold simulateTransaction, simulationOutcome. apply wp_try_catch, prepare_exact.
  - intros s1 t Hext1 Hl1 Hprep. rewrite Hprep.
    assert (Hsame : sameCall (withGasLimit (withSender (deref (heap s) transaction))) t).
    { apply withFees_fields in Hprep as (? & ? & ? & ? & ?). by repeat split. }
    eapply wp_mono; [by apply (analysis_exact _ t)| |].
    + intros r s2 (Hext2 & ->). split; [by eapply extends_trans|]. split; [done|].
      split; [intros ? [= <-]; by eapply extends_deref|].
      exists t. split; [by eapply extends_deref|done].
    + intros e s2 (Hext2 & <-). apply wp_ret. split; [by eapply extends_trans|].
      split; [done|]. split; [intros ? [= <-]; by eapply extends_deref|].
      exists t. split; [by eapply extends_deref|done].
  - intros e s1 t Hext1 Hl1 Hsame ->. apply wp_ret. split; [done|]. split; [done|].
    split; [done|]. by exists t.
Qed.

Lemma simulateTransaction_result (transaction : loc) (s : State) :
  fst (simulateTransaction transaction s)
  = Return (simulationOutcome (deref (heap s) transaction)).
Proof.
  pose proof (simulateTransaction_exact transaction s) as H. unfold wp in H.
  destruct (simulateTransaction transaction s) as [[r|e] s']; [|done].
  by destruct H as (_ & -> & _).
Qed.

(** Every run of [simulateTransaction], with its result and final state. *)
Lemma simulateTransaction_run (transaction : loc) (s s' : State) (r : SimulationResult) :
  simulateTransaction transaction s = (Return r, s') ->
  extends s s' /\ r = simulationOutcome (deref (heap s) transaction) /\
  forall t, preparedRequest (deref (heap s) transaction) = Return t ->
            heap s' !! workingCopy s = Some t.
Proof.
  intros Hrun. pose proof (simulateTransaction_exact transaction s) as H.
  unfold wp in H. rewrite Hrun in H. by destruct H as (? & ? & ? & _).
Qed.

Lemma simulateTransaction_total (transaction : loc) (s : State) :
  exists r s',
    simulateTransaction transaction s = (Return r, s') /\
    extends s s' /\ r = simulationOutcome (deref (heap s) transaction) /\
    forall t, preparedRequest (deref (heap s) transaction) = Return t ->
              heap s' !! workingCopy s = Some t.
Proof.
  pose proof (simulateTransaction_exact transaction s) as H. unfold wp in H.
  destruct (simulateTransaction transaction s) as [[r|e] s'] eqn:Hrun; [|done].
  exists r, s'. by destruct H as (? & ? & ? & _).
Qed.

(** The working copy after a simulation. *)
Lemma simulateTransaction_workingCopy (transaction : loc) (s : State) :
  exists t,
    heap (snd (simulateTransaction transaction s)) !! workingCopy s = Some t /\
    sameCall (withGasLimit (withSender (deref (heap s) transaction))) t.
Proof.
  pose proof (simulateTransaction_exact transaction s) as H. unfold wp in H.
  destruct (simulateTransaction transaction s) as [[r|e] s'] eqn:Hrun; [|done].
  by destruct H as (_ & _ & _ & ?).
Qed.

End Outcome.

(** ** The outcome functions *)

Lemma string_length_app (a b : string) :
  String.length (a +:+ b) = (String.length a + String.length b)%nat.
Proof. induction a as [|c a IH]; [done|]. simpl. by f_equal. Qed.

Lemma length_substring_le (n m : nat) (s : string) :
  (String.length (String.substring n m s) <= m)%nat.
Proof.
  revert n m. induction s as [|c s IH]; intros [|n] [|m]; cbn; try lia.
  - specialize (IH 0%nat m). lia.
  - apply (IH n 0%nat).
  - apply (IH n (S m)).
Qed.

Lemma bytecodeDisplay_length (creationCode : string) :
  (String.length (bytecodeDisplay creationCode) <= 67)%nat.
Proof.
  unfold bytecodeDisplay. destruct (Nat.ltb_spec 64 (String.length creationCode)); [|lia].
  rewrite string_length_app. pose proof (length_substring_le 0 64 creationCode).
  unfold Js.substring0. cbn [String.length]. lia.
Qed.

Section OutcomeLemmas.
Context {ethers : EthersLibrary} {provider : ChainProvider}
        {erc20 : ERC20Binding} {walletManager : WalletManager}.

Lemma tx_gasLimit_withGasLimit (t : TxRequest) :
  tx_gasLimit (withGasLimit t) =
    if truthy_oquantity (tx_gasLimit t) then tx_gasLimit t
    else match provider_estimateGas t with
         | Return E => Some (QBigInt (addGasBuffer E))
         | Throw _ => Some (QBigInt 300000)
         end.
Proof.
  unfold withGasLimit. destruct (truthy_oquantity _); [done|].
  by destruct (provider_estimateGas t).
Qed.

Lemma tx_gasLimit_withSender (t : TxRequest) :
  tx_gasLimit (withSender t) = tx_gasLimit t.
Proof. unfold withSender. by destruct (_ && _). Qed.

Lemma withGasLimit_fields (t : TxRequest) :
  tx_from (withGasLimit t) = tx_from t /\ tx_to (withGasLimit t) = tx_to t /\
  tx_data (withGasLimit t) = tx_data t /\ is_Some (tx_gasLimit (withGasLimit t)).
Proof.
  rewrite tx_gasLimit_withGasLimit. unfold withGasLimit.
  destruct (truthy_oquantity (tx_gasLimit t)) eqn:Hg.
  - repeat split. by destruct (tx_gasLimit t).
  - destruct (provider_estimateGas t); repeat split; by eexists.
Qed.

Lemma withSender_fields (t : TxRequest) :
  tx_to (withSender t) = tx_to t /\ tx_data (withSender t) = tx_data t /\
  tx_value (withSender t) = tx_value t /\ tx_gasLimit (withSender t) = tx_gasLimit t /\
  tx_gasPrice (withSender t) = tx_gasPrice t /\
  tx_maxFeePerGas (withSender t) = tx_maxFeePerGas t /\
  tx_maxPriorityFeePerGas (withSender t) = tx_maxPriorityFeePerGas t.
Proof. unfold withSender. by destruct (_ && _). Qed.

Lemma withGasLimit_fees (t : TxRequest) :
  tx_value (withGasLimit t) = tx_value t /\
  tx_gasPrice (withGasLimit t) = tx_gasPrice t /\
  tx_maxFeePerGas (withGasLimit t) = tx_maxFeePerGas t /\
  tx_maxPriorityFeePerGas (withGasLimit t) = tx_maxPriorityFeePerGas t.
Proof.
  unfold withGasLimit. destruct (truthy_oquantity _); [done|].
  by destruct (provider_estimateGas t).
Qed.

Lemma preparedRequest_fields (t0 t : TxRequest) :
  preparedRequest t0 = Return t ->
  tx_from t = tx_from (withSender t0) /\ tx_to t = tx_to t0 /\ tx_data t = tx_data t0 /\
  tx_value t = tx_value t0 /\
  tx_gasLimit t = tx_gasLimit (withGasLimit (withSender t0)).
Proof.
  unfold preparedRequest. intros (Hf & Ht & Hd & Hv & Hg)%withFees_fields.
  destruct (withGasLimit_fields (withSender t0)) as (Hf' & Ht' & Hd' & _).
  destruct (withGasLimit_fees (withSender t0)) as (Hv' & _).
  destruct (withSender_fields t0) as (Ht'' & Hd'' & Hv'' & _).
  repeat split; congruence.
Qed.

(** The fields of [analysisOutcome] when it is not a fallback object. *)
Lemma analysisOutcome_valid (t : TxRequest) :
  structurally_valid (analysisOutcome t) ->
  exists b created cost,
    provider_getBlockNumber = Return b /\
    creationEntries t = Return created /\
    let r2 := reestimateOutcome (provider_estimateGas t) t
                (callOutcome (provider_call t b) initialResult) in
    gasCostOf t (gasUsed r2) = Return cost /\
    analysisOutcome t =
      {| success := success r2; gasUsed := gasUsed r2; logs := [];
         tokenTransfers := detectedTransfers t; contractInteractions := created;
         errorMessage := errorMessage r2; stateChanges := Some [];
         gasCost := Some cost |}.
Proof.
  unfold analysisOutcome, structurally_valid.
  destruct provider_getBlockNumber as [b|]; [|by intros [_ [? [=]]]].
  destruct (creationEntries t) as [created|]; [|by intros [_ [? [=]]]].
  cbn zeta.
  destruct (gasCostOf t _) as [cost|] eqn:Hcost; [|by intros [_ [? [=]]]].
  intros _. exists b, created, cost. cbn zeta. by rewrite Hcost.
Qed.

Lemma simulationOutcome_valid (t0 : TxRequest) :
  structurally_valid (simulationOutcome t0) ->
  exists t, preparedRequest t0 = Return t /\ simulationOutcome t0 = analysisOutcome t /\
            structurally_valid (analysisOutcome t).
Proof.
  unfold simulationOutcome. destruct (preparedRequest t0) as [t|].
  - intros Hv. by exists t.
  - by intros [_ [? [=]]].
Qed.

Lemma detectedTransfers_shape (t : TxRequest) :
  detectedTransfers t = [] \/
  Js.truthy_ostring (tx_to t) = true /\
  exists tr, detectedTransfers t = [tr] /\ tt_type tr = "ERC20" /\
             tt_token tr = tx_to t /\ tt_from tr = tx_from t.
Proof.
  unfold detectedTransfers.
  destruct (Js.truthy_ostring (tx_to t)); [|by left]. cbn [andb].
  destruct (_ && _); [|by left].
  destruct (Ethers.parseTransaction _ _) as [[d|]|]; try by left.
  destruct (String.eqb _ _); [|by left].
  destruct (Ethers.td_args d) as [|[to|?] [|[?|amount] ?]]; try by left.
  destruct (formatUnits amount _) as [formatted|]; [|by left].
  right. split; [done|]. by eexists.
Qed.

Lemma creationEntries_shape (t : TxRequest) (created : list ContractInteraction) :
  creationEntries t = Return created ->
  created = [] \/ Js.truthy_ostring (tx_to t) = false /\ List.length created = 1%nat.
Proof.
  unfold creationEntries.
  destruct (Js.truthy_ostring (tx_to t)); cbn [negb andb]; [intros [= <-]; by left|].
  destruct (Js.truthy_ostring (tx_data t)); [|intros [= <-]; by left].
  destruct (provider_getTransactionCount _); [|done].
  destruct provider_network_chainId; [|done].
  destruct (tx_from t); [|done]. intros [= <-]. by right.
Qed.

(** The result by the exception that reaches the outer [catch]. *)
Lemma simulationOutcome_cases (t0 : TxRequest) :
  match unhandledException t0 with
  | Some e => simulationOutcome t0 = fallbackResult e
  | None =>
      exists t b created cost,
        preparedRequest t0 = Return t /\
        provider_getBlockNumber = Return b /\
        creationEntries t = Return created /\
        let r2 := reestimateOutcome (provider_estimateGas t) t
                    (callOutcome (provider_call t b) initialResult) in
        gasCostOf t (gasUsed r2) = Return cost /\
        simulationOutcome t0 =
          {| success := success r2; gasUsed := gasUsed r2; logs := [];
             tokenTransfers := detectedTransfers t; contractInteractions := created;
             errorMessage := errorMessage r2; stateChanges := Some [];
             gasCost := Some cost |}
  end.
Proof.
  unfold unhandledException, simulationOutcome, analysisOutcome.
  destruct (preparedRequest t0) as [t|e]; [|done].
  destruct provider_getBlockNumber as [b|e]; [|done].
  destruct (creationEntries t) as [created|e] eqn:Hcreated; [|done]. cbn zeta.
  destruct (gasCostOf t _) as [cost|e] eqn:Hcost; [|done].
  by exists t, b, created, cost.
Qed.

Lemma unhandledException_valid (t0 : TxRequest) :
  unhandledException t0 = None <-> structurally_valid (simulationOutcome t0).
Proof.
  pose proof (simulationOutcome_cases t0) as Hc.
  destruct (unhandledException t0) as [e|].
  - rewrite Hc. split; [done|]. by intros [[? [=]] _].
  - destruct Hc as (t & b & created & cost & _ & _ & _ & _ & ->).
    split; [|done]. intros _. split; by eexists.
Qed.

(** [success] and [errorMessage] after the two guarded blocks. *)
Lemma reestimateOutcome_success c t c' :
  success (reestimateOutcome c t (callOutcome c' initialResult))
  = match c' with Return _ => true | Throw _ => false end.
Proof.
  unfold reestimateOutcome, callOutcome.
  destruct c' as [v|e]; destruct c as [E|e']; cbn; by repeat case_match.
Qed.

Lemma reestimateOutcome_failed_message c t e :
  is_Some (errorMessage (reestimateOutcome c t (callOutcome (Throw e) initialResult))).
Proof.
  unfold reestimateOutcome, callOutcome.
  destruct c as [E|e']; cbn; repeat case_match; by eexists.
Qed.

End OutcomeLemmas.

(** ** estimateGas *)

Section EstimateGasProperties.
Context {ethers : EthersLibrary} {provider : ChainProvider}
        {erc20 : ERC20Binding} {walletManager : WalletManager}.

(** C10, as amended: whenever [estimateGas] succeeds, [gasLimit] and
    [recommendedGasLimit] are the same string, the decimal numeral of
    [E * 120 / 100] with the division truncated, where [E] is the estimate
    of the node, while [gasEstimate] is the numeral of [E] itself. For an
    estimate that is not negative the buffered value is
    [floor(E * 120 / 100)]. [gasLimit] and [gasEstimate] are the same
    numeral exactly when the estimate is at most 4 in magnitude. *)
Theorem estimateGas_gasLimit_is_recommended (transaction : loc) (s s' : State)
    (r : GasEstimate) :
  estimateGas transaction s = (Return r, s') ->
  exists E,
    provider_estimateGas (withSender (deref (heap s) transaction)) = Return E /\
    gasEstimate r = Js.toString E /\
    gasLimit r = Js.toString (Z.quot (E * 120) 100) /\
    recommendedGasLimit r = gasLimit r /\
    (0 <= E -> gasLimit r = Js.toString (E * 120 / 100)) /\
    (gasLimit r = gasEstimate r <-> -4 <= E <= 4).
Proof.
  intros Hrun. pose proof (estimateGas_run transaction s) as Hfst.
  rewrite Hrun in Hfst. cbn [fst] in Hfst.
  destruct (provider_estimateGas _) as [E|e]; [|done].
  injection Hfst as ->. exists E. cbn [gasEstimate gasLimit recommendedGasLimit].
  unfold addGasBuffer. do 4 (split; [done|]). split.
  - intros HE. by rewrite Z.quot_div_nonneg by lia.
  - rewrite <- quot_buffer_fixpoint. split; [|by intros ->].
    intros Heq. by apply (inj pretty) in Heq.
Qed.

(** C5, as amended: when the gas estimate of the node throws, [estimateGas]
    throws a [TransactionError] with code [TRANSACTION_FAILED] whose message
    is ["Gas estimation failed: "] followed by the message of the cause and
    whose detail bag holds the caller's request object; no value is
    returned. *)
Theorem estimateGas_failure_is_rethrown (transaction : loc) (s : State) (cause : JsError) :
  provider_estimateGas (withSender (deref (heap s) transaction)) = Throw cause ->
  fst (estimateGas transaction s) =
    Throw (transactionFailed "Gas estimation failed: " cause
             [("transaction", DObject transaction)]).
Proof. intros Hc. by rewrite estimateGas_run, Hc. Qed.

End EstimateGasProperties.

Lemma estimateGas_gasLimit_is_recommended_witness :
  exists r s',
    estimateGas (provider := Examples.steadyNode) (walletManager := Examples.noWallet)
      1%positive (Examples.callerHeap Examples.valueRequest) = (Return r, s') /\
    gasEstimate r = "50000" /\ gasLimit r = "60000" /\ recommendedGasLimit r = "60000".
Proof.
  eexists. eexists. split; [vm_compute; reflexivity|].
  destruct (estimateGas_gasLimit_is_recommended
              (provider := Examples.steadyNode) (walletManager := Examples.noWallet)
              1%positive (Examples.callerHeap Examples.valueRequest) _ _
              ltac:(vm_compute; reflexivity))
    as (E & HE & Hraw & Hlimit & Hrec & _).
  injection HE as <-. rewrite Hrec. split; [exact Hraw|]. split; exact Hlimit.
Defined.

(** C10 as stated fails: for an estimate of 4 gas units the buffered value is
    4 again, and [gasLimit] is the numeral of the raw estimate. *)
Lemma estimateGas_gasLimit_equals_estimate :
  exists r s',
    estimateGas (provider := Examples.frugalNode) (walletManager := Examples.noWallet)
      1%positive (Examples.callerHeap Examples.valueRequest) = (Return r, s') /\
    provider_estimateGas (ChainProvider := Examples.frugalNode)
      (withSender (walletManager := Examples.noWallet) Examples.valueRequest) = Return 4 /\
    gasEstimate r = "4" /\ gasLimit r = "4" /\ recommendedGasLimit r = "4" /\
    gasLimit r = gasEstimate r.
Proof. eexists. eexists. split; [vm_compute; reflexivity|]. by repeat split. Qed.

(** C5 as stated fails: with an unreachable node the thrown error carries the
    request in its detail bag, not the cause. *)
Lemma estimateGas_details_lack_cause :
  exists err s',
    estimateGas (provider := Examples.deadNode) (walletManager := Examples.noWallet)
      1%positive (Examples.callerHeap Examples.valueRequest) = (Throw err, s') /\
    details err = [("transaction", DObject 1%positive)] /\
    ~ details_hold_cause err Examples.unreachable.
Proof.
  eexists. eexists. split; [vm_compute; reflexivity|]. split; [reflexivity|].
  intros [key Hin]. cbn in Hin.
  apply list_elem_of_singleton in Hin. discriminate.
Qed.

Lemma estimateGas_failure_is_rethrown_witness :
  fst (estimateGas (provider := Examples.deadNode) (walletManager := Examples.noWallet)
         1%positive (Examples.callerHeap Examples.valueRequest)) =
    Throw (transactionFailed "Gas estimation failed: " Examples.unreachable
             [("transaction", DObject 1%positive)]).
Proof.
  apply (estimateGas_failure_is_rethrown (provider := Examples.deadNode)
           (walletManager := Examples.noWallet)).
  reflexivity.
Defined.

(** ** analyzeTransaction *)

Section AnalyzeTransaction.
Context {ethers : EthersLibrary} {provider : ChainProvider}.

Lemma analyzeTransaction_throws_iff (txHash : string) (s : State) :
  (exists err, fst (analyzeTransaction txHash s) = Throw err) <->
  (~ resolves txHash \/
   (exists e, provider_getTransactionReceipt txHash = Throw e) \/
   exists tx receipt,
     provider_getTransaction txHash = Return (Some tx) /\
     provider_getTransactionReceipt txHash = Return receipt /\
     formattingFails tx receipt).
Proof.
  unfold resolves, formattingFails, analyzeTransaction, try_catch, bind, await, throw, ret.
  destruct (provider_getTransaction txHash) as [[tx|]|e] eqn:Htx; cbn.
  2,3: split; [intros _; left; intros [? ?]; discriminate|intros _; by eexists].
  destruct (provider_getTransactionReceipt txHash) as [receipt|e] eqn:Hrc; cbn.
  2:{ split; [intros _; right; left; by eexists|intros _; by eexists]. }
  assert (Hres : ~ ~ exists tx0, Return (Some tx) = Return (Some tx0)) by (intros Hn; apply Hn; eauto).
  destruct (Ethers.formatEther (txr_value tx)) as [valueEther|e] eqn:Hv; cbn.
  2:{ split; [|intros _; by eexists]. intros _. right. right.
      exists tx, receipt. repeat split; try done. left. by eexists. }
  destruct (formatUnits (txr_gasPrice tx) Ethers.gwei) as [gasPriceGwei|e] eqn:Hp; cbn.
  2:{ split; [|intros _; by eexists]. intros _. right. right.
      exists tx, receipt. repeat split; try done. right. left. by eexists. }
  destruct receipt as [rc|]; cbn.
  - destruct (formatUnits (rc_gasUsed rc * txr_gasPrice tx) Ethers.gwei) as [gwei|e] eqn:Hg; cbn.
    2:{ split; [|intros _; by eexists]. intros _. right. right.
        exists tx, (Some rc). repeat split; try done. right. right.
        exists rc, e. split; [done|by left]. }
    destruct (Ethers.formatEther (rc_gasUsed rc * txr_gasPrice tx)) as [ether|e] eqn:He; cbn.
    2:{ split; [|intros _; by eexists]. intros _. right. right.
        exists tx, (Some rc). repeat split; try done. right. right.
        exists rc, e. split; [done|by right]. }
    split; [intros [? ?]; discriminate|].
    intros [Hn|[[? ?]|(tx0 & receipt & Ht0 & Hr0 & Hf)]]; [done|discriminate|].
    injection Ht0 as <-. injection Hr0 as <-.
    destruct Hf as [[? ?]|[[? ?]|(rc0 & e & Hrc0 & [?|?])]]; try congruence;
      injection Hrc0 as <-; congruence.
  - split; [intros [? ?]; discriminate|].
    intros [Hn|[[? ?]|(tx0 & receipt & Ht0 & Hr0 & Hf)]]; [done|discriminate|].
    injection Ht0 as <-. injection Hr0 as <-.
    destruct Hf as [[? ?]|[[? ?]|(rc0 & e & Hrc0 & _)]]; congruence.
Qed.

Lemma analyzeTransaction_error_shape (txHash : string) (s : State) (err : JsError) :
  fst (analyzeTransaction txHash s) = Throw err ->
  exists cause, err = transactionFailed "Analysis failed: " cause [("txHash", DString txHash)].
Proof.
  unfold analyzeTransaction, try_catch, bind, await, throw, ret.
  destruct (provider_getTransaction txHash) as [[tx|]|e]; cbn;
    [|intros [= <-]; by exists (Error ("Transaction not found: " +:+ txHash))
     |intros [= <-]; by exists e].
  destruct (provider_getTransactionReceipt txHash) as [receipt|e]; cbn;
    [|intros [= <-]; by exists e].
  destruct (Ethers.formatEther (txr_value tx)) as [valueEther|e]; cbn;
    [|intros [= <-]; by exists e].
  destruct (formatUnits (txr_gasPrice tx) Ethers.gwei) as [gasPriceGwei|e]; cbn;
    [|intros [= <-]; by exists e].
  destruct receipt as [rc|]; cbn; [|done].
  destruct (formatUnits (rc_gasUsed rc * txr_gasPrice tx) Ethers.gwei) as [gwei|e]; cbn;
    [|intros [= <-]; by exists e].
  destruct (Ethers.formatEther (rc_gasUsed rc * txr_gasPrice tx)) as [ether|e]; cbn;
    [done|intros [= <-]; by exists e].
Qed.

Lemma analyzeTransaction_pending_run (txHash : string) (s : State)
    (tx : TransactionResponse) (valueEther gasPriceGwei : string) :
  provider_getTransaction txHash = Return (Some tx) ->
  provider_getTransactionReceipt txHash = Return None ->
  Ethers.formatEther (txr_value tx) = Return valueEther ->
  formatUnits (txr_gasPrice tx) Ethers.gwei = Return gasPriceGwei ->
  fst (analyzeTransaction txHash s) =
    Return {| ta_hash := txHash;
              ta_from := txr_from tx;
              ta_to := if Js.truthy_ostring (txr_to tx)
                       then default "" (txr_to tx) else "Contract Creation";
              ta_value := {| va_wei := Js.toString (txr_value tx); va_ether := valueEther |};
              ta_gasUsed := "Pending";
              ta_gasPrice := {| gp_wei := Js.toString (txr_gasPrice tx);
                                gp_gwei := gasPriceGwei |};
              ta_status := "Pending";
              ta_blockNumber := NPPending;
              ta_timestamp := "Unknown";
              ta_logs := 0;
              ta_gasCost := None |}.
Proof.
  intros Htx Hrc Hv Hp.
  unfold analyzeTransaction, try_catch, bind, await, throw, ret.
  by rewrite Htx, Hrc, Hv, Hp.
Qed.

(** C6, as amended: [analyzeTransaction] throws, and then a
    [TransactionError] with code [TRANSACTION_FAILED] and an
    ["Analysis failed: "] message, exactly when the hash does not resolve to
    a transaction (the lookup returns [null] or throws), or the receipt
    lookup throws, or one of the amounts of the transaction cannot be
    formatted. When the hash resolves, the receipt lookup returns [null] and
    the value and the gas price can be formatted, as they can when they are
    below 2^511 in magnitude, it returns a result with status ["Pending"]
    whose [gasUsed] and [blockNumber] are the ['Pending'] marker. *)
Theorem analyzeTransaction_outcome (txHash : string) (s : State) :
  ((exists err, fst (analyzeTransaction txHash s) = Throw err) <->
   (~ resolves txHash \/
    (exists e, provider_getTransactionReceipt txHash = Throw e) \/
    exists tx receipt,
      provider_getTransaction txHash = Return (Some tx) /\
      provider_getTransactionReceipt txHash = Return receipt /\
      formattingFails tx receipt)) /\
  (forall err, fst (analyzeTransaction txHash s) = Throw err ->
     exists cause,
       err = transactionFailed "Analysis failed: " cause [("txHash", DString txHash)]) /\
  (forall tx valueEther gasPriceGwei,
     provider_getTransaction txHash = Return (Some tx) ->
     provider_getTransactionReceipt txHash = Return None ->
     Ethers.formatEther (txr_value tx) = Return valueEther ->
     formatUnits (txr_gasPrice tx) Ethers.gwei = Return gasPriceGwei ->
     exists r,
       fst (analyzeTransaction txHash s) = Return r /\
       ta_status r = "Pending" /\ ta_gasUsed r = "Pending" /\
       ta_blockNumber r = NPPending /\ ta_gasCost r = None /\
       va_ether (ta_value r) = valueEther /\ gp_gwei (ta_gasPrice r) = gasPriceGwei) /\
  (forall tx,
     provider_getTransaction txHash = Return (Some tx) ->
     provider_getTransactionReceipt txHash = Return None ->
     Z.abs (txr_value tx) < 2 ^ 511 -> Z.abs (txr_gasPrice tx) < 2 ^ 511 ->
     exists r,
       fst (analyzeTransaction txHash s) = Return r /\
       ta_status r = "Pending" /\ ta_gasUsed r = "Pending" /\
       ta_blockNumber r = NPPending /\ ta_gasCost r = None).
Proof.
  split; [apply analyzeTransaction_throws_iff|].
  split; [apply analyzeTransaction_error_shape|].
  split.
  - intros tx valueEther gasPriceGwei Htx Hrc Hv Hp. eexists.
    split; [by eapply analyzeTransaction_pending_run|]. by repeat split.
  - intros tx Htx Hrc Hv Hp. eexists. split.
    + eapply analyzeTransaction_pending_run; [done|done| |].
      * unfold Ethers.formatEther. by apply formatUnits_in_range.
      * by apply formatUnits_in_range.
    + by repeat split.
Qed.

End AnalyzeTransaction.

(** C6 as stated fails: the hash resolves to a known transaction, the receipt
    lookup times out, and [analyzeTransaction] throws. *)
Lemma analyzeTransaction_throws_on_resolved_hash :
  resolves (provider := Examples.receiptFailsNode) "0xabc" /\
  exists err,
    fst (analyzeTransaction (ethers := Examples.ethers)
           (provider := Examples.receiptFailsNode) "0xabc" (mkState ∅ [])) = Throw err.
Proof.
  split.
  - exists Examples.pendingTx. reflexivity.
  - eexists. vm_compute. reflexivity.
Qed.

(** A transaction that is known and not mined yet. *)
Example analyzeTransaction_pending :
  exists r,
    fst (analyzeTransaction (ethers := Examples.ethers) (provider := Examples.pendingNode)
           "0xabc" (mkState ∅ []))
      = Return r /\
    ta_status r = "Pending" /\ ta_gasUsed r = "Pending" /\
    ta_blockNumber r = NPPending /\ ta_logs r = 0 /\ ta_gasCost r = None.
Proof. eexists. split; [vm_compute; reflexivity|]. by repeat split. Qed.

(** ** getTokenBalanceChanges *)

Lemma fold_left_sub (l : list TransferEvent) (a : Z) :
  fold_left (fun totalChange event => totalChange - ev_value event) l a
  = a - sumZ (ev_value <$> l).
Proof.
  unfold sumZ. revert a. induction l as [|e l IH]; intros a; cbn.
  - lia.
  - rewrite IH. lia.
Qed.

Lemma fold_left_add (l : list TransferEvent) (a : Z) :
  fold_left (fun totalChange event => totalChange + ev_value event) l a
  = a + sumZ (ev_value <$> l).
Proof.
  unfold sumZ. revert a. induction l as [|e l IH]; intros a; cbn.
  - lia.
  - rewrite IH. lia.
Qed.

(** The two accumulation loops compute the net signed sum. *)
Lemma totalChangeOf_net (eventsFrom eventsTo : list TransferEvent) :
  totalChangeOf eventsFrom eventsTo = netSignedSum eventsTo eventsFrom.
Proof.
  unfold totalChangeOf, netSignedSum. rewrite fold_left_add, fold_left_sub. lia.
Qed.

Section BalanceChanges.
Context {ethers : EthersLibrary} {erc20 : ERC20Binding}.

(** One iteration of the loop: the entry of the token, if any, is appended
    and the failure, if any, is logged. *)
Lemma scanToken_run address fromBlock toBlock changes entry s :
  scanToken address fromBlock toBlock changes entry s
  = (Return (changes ++ reportedChange address fromBlock toBlock entry),
     mkState (heap s) (warnings s ++ scanWarnings address fromBlock toBlock entry)).
Proof.
  destruct entry as [symbol tokenAddress]. destruct s as [h w].
  unfold scanToken, reportedChange, scanWarnings, scanError, try_catch, bind, await,
    warn, ret.
  cbn [fst snd heap warnings].
  destruct (contract_queryFilter tokenAddress (Some address) None _ _) as [out|e];
    [|by rewrite app_nil_r].
  destruct (contract_queryFilter tokenAddress None (Some address) _ _) as [inc|e];
    [|by rewrite app_nil_r].
  rewrite totalChangeOf_net.
  destruct (decide (netSignedSum inc out = 0)) as [->|Hne]; cbn.
  { by rewrite !app_nil_r. }
  rewrite (proj2 (Z.eqb_neq _ _) Hne). cbn.
  destruct (formatUnits _ _) as [text|e]; [|by rewrite app_nil_r].
  rewrite app_nil_r.
  destruct (decide (0 < netSignedSum inc out)) as [Hp|Hp].
  - by rewrite (proj2 (Z.ltb_lt _ _) Hp).
  - by rewrite (proj2 (Z.ltb_ge _ _)) by lia.
Qed.

Lemma scanTokens_run address fromBlock toBlock tokens changes s :
  scanTokens address fromBlock toBlock tokens changes s
  = (Return (changes ++ flat_map (reportedChange address fromBlock toBlock) tokens),
     mkState (heap s)
       (warnings s ++ flat_map (scanWarnings address fromBlock toBlock) tokens)).
Proof.
  revert changes s. induction tokens as [|entry rest IH]; intros changes s; cbn.
  - rewrite !app_nil_r. by destruct s.
  - unfold bind. rewrite scanToken_run, IH. cbn [heap warnings].
    by rewrite <- !app_assoc.
Qed.

(** On a valid address the operation returns a report whose [changes] are the
    reported changes of the registry's tokens, in registry order, and logs
    the failures. *)
Lemma getTokenBalanceChanges_run self address fromBlock toBlock s :
  isAddress address = true -> Js.truthy_string address = true ->
  getTokenBalanceChanges self (Some address) fromBlock toBlock s
  = (Return {| br_address := address;
               br_fromBlock := blockBound fromBlock;
               br_toBlock := blockBound toBlock;
               br_changes :=
                 flat_map (reportedChange address (blockBound fromBlock) (blockBound toBlock))
                   (tokenAddresses self) |},
     mkState (heap s)
       (warnings s ++
        flat_map (scanWarnings address (blockBound fromBlock) (blockBound toBlock))
          (tokenAddresses self))).
Proof.
  intros Hvalid Htruthy. unfold getTokenBalanceChanges.
  cbn [Js.truthy_ostring from_option id].
  rewrite Hvalid, Htruthy. cbn [negb orb]. unfold bind.
  by rewrite scanTokens_run.
Qed.

Lemma getTokenBalanceChanges_report self address fromBlock toBlock s :
  isAddress address = true -> Js.truthy_string address = true ->
  fst (getTokenBalanceChanges self (Some address) fromBlock toBlock s)
  = Return {| br_address := address;
              br_fromBlock := blockBound fromBlock;
              br_toBlock := blockBound toBlock;
              br_changes :=
                flat_map (reportedChange address (blockBound fromBlock) (blockBound toBlock))
                  (tokenAddresses self) |}.
Proof. intros Hvalid Htruthy. by rewrite getTokenBalanceChanges_run. Qed.

Lemma reportedChange_fields address fromBlock toBlock entry c :
  c ∈ reportedChange address fromBlock toBlock entry ->
  bc_symbol c = entry.1 /\ bc_token c = entry.2.
Proof.
  unfold reportedChange.
  destruct (contract_queryFilter _ (Some address) None _ _) as [out|e];
    [|by intros ?%elem_of_nil].
  destruct (contract_queryFilter _ None (Some address) _ _) as [inc|e];
    [|by intros ?%elem_of_nil].
  destruct (decide _); [by intros ?%elem_of_nil|].
  destruct (formatUnits _ _); [|by intros ?%elem_of_nil].
  by intros ->%list_elem_of_singleton.
Qed.

Lemma reportedChange_sublist address fromBlock toBlock (tokens : list (string * string)) :
  ((fun c => (bc_symbol c, bc_token c))
     <$> flat_map (reportedChange address fromBlock toBlock) tokens) `sublist_of` tokens.
Proof.
  induction tokens as [|[symbol tokenAddress] rest IH]; [done|].
  cbn [flat_map]. rewrite fmap_app.
  unfold reportedChange at 1. cbn [fst snd].
  destruct (contract_queryFilter _ (Some address) None _ _); [|by apply sublist_cons].
  destruct (contract_queryFilter _ None (Some address) _ _); [|by apply sublist_cons].
  destruct (decide _); [by apply sublist_cons|].
  destruct (formatUnits _ _); [|by apply sublist_cons]. by apply sublist_skip.
Qed.

Lemma reportedChange_bounds address fromBlock toBlock entry c :
  c ∈ reportedChange address fromBlock toBlock entry ->
  bc_fromBlock c = fromBlock /\ bc_toBlock c = toBlock /\
  (bc_changeType c = "increase" \/ bc_changeType c = "decrease").
Proof.
  unfold reportedChange.
  destruct (contract_queryFilter _ (Some address) None _ _) as [out|e];
    [|by intros ?%elem_of_nil].
  destruct (contract_queryFilter _ None (Some address) _ _) as [inc|e];
    [|by intros ?%elem_of_nil].
  destruct (decide _); [by intros ?%elem_of_nil|].
  destruct (formatUnits _ _); [|by intros ?%elem_of_nil].
  intros ->%list_elem_of_singleton. cbn. destruct (decide _); auto.
Qed.

(** The entry of a token whose two queries answer. *)
Lemma reportedChange_answered address fromBlock toBlock symbol tokenAddress
    (outgoingEvents incomingEvents : list TransferEvent) :
  contract_queryFilter tokenAddress (Some address) None fromBlock toBlock
    = Return outgoingEvents ->
  contract_queryFilter tokenAddress None (Some address) fromBlock toBlock
    = Return incomingEvents ->
  reportedChange address fromBlock toBlock (symbol, tokenAddress) =
    let net := netSignedSum incomingEvents outgoingEvents in
    if decide (net = 0) then []
    else
      match formatUnits net (catch_default (contract_decimals tokenAddress) 18) with
      | Return text =>
          [ {| bc_token := tokenAddress; bc_symbol := symbol; bc_change := text;
               bc_changeType := if decide (0 < net) then "increase" else "decrease";
               bc_fromBlock := fromBlock; bc_toBlock := toBlock;
               bc_events := {| outgoing := List.length outgoingEvents;
                               incoming := List.length incomingEvents |} |} ]
      | Throw _ => []
      end.
Proof. intros Hout Hinc. unfold reportedChange. cbn [fst snd]. by rewrite Hout, Hinc. Qed.

(** A token whose scan fails has no entry and one warning. *)
Lemma reportedChange_failed address fromBlock toBlock symbol tokenAddress e :
  scanError address fromBlock toBlock tokenAddress = Some e ->
  reportedChange address fromBlock toBlock (symbol, tokenAddress) = [] /\
  scanWarnings address fromBlock toBlock (symbol, tokenAddress)
  = ["Failed to get balance changes for " +:+ symbol +:+ ": " +:+ message e].
Proof.
  unfold reportedChange, scanWarnings, scanError. cbn [fst snd].
  destruct (contract_queryFilter _ (Some address) None _ _) as [out|e1];
    [|by intros [= ->]].
  destruct (contract_queryFilter _ None (Some address) _ _) as [inc|e1];
    [|by intros [= ->]].
  destruct (decide _); [done|].
  destruct (formatUnits _ _); [done|]. by intros [= ->].
Qed.

(** An entry of the report for a pair of the registry is the entry of that
    pair. *)
Lemma reportedChange_mine address fromBlock toBlock (tokens : list (string * string))
    symbol tokenAddress c :
  c ∈ flat_map (reportedChange address fromBlock toBlock) tokens ->
  bc_symbol c = symbol -> bc_token c = tokenAddress ->
  c ∈ reportedChange address fromBlock toBlock (symbol, tokenAddress).
Proof.
  intros Hc Hs Ht.
  apply list_elem_of_In, in_flat_map in Hc as ([sym tok] & _ & Hc).
  apply list_elem_of_In in Hc.
  destruct (reportedChange_fields _ _ _ _ _ Hc) as [Hs' Ht']. cbn in Hs', Ht'.
  by replace sym with symbol in Hc by congruence;
     replace tok with tokenAddress in Hc by congruence.
Qed.

End BalanceChanges.

Section BalanceChangeProperties.
Context {ethers : EthersLibrary} {erc20 : ERC20Binding}.

(** C3, as amended: for a valid address, a block range whose bounds name
    blocks, and a token of the registry whose two event queries over that
    range answer, the code computes the net change as the signed sum of the
    transfer amounts on unbounded integers, incoming minus outgoing. The
    report has an entry for the token if and only if that sum is not zero
    and [formatUnits] renders it with the token's decimals; it does so for
    at most 80 decimals and a sum below 2^511 in magnitude, and then the
    entry is there if and only if the sum is not zero; for more than 80
    decimals there is no entry. The entry carries the rendered sum, its
    sign, the block range and the two event counts. *)
Theorem getTokenBalanceChanges_reports_net_sum
    (self : TransactionSimulator) (address : string) (fromBlock toBlock : option Quantity)
    (fb tb : BlockTag) (s : State) (symbol tokenAddress : string)
    (outgoingEvents incomingEvents : list TransferEvent) :
  isAddress address = true ->
  Js.truthy_string address = true ->
  namesBlock fromBlock fb ->
  namesBlock toBlock tb ->
  (symbol, tokenAddress) ∈ tokenAddresses self ->
  contract_queryFilter tokenAddress (Some address) None fb tb = Return outgoingEvents ->
  contract_queryFilter tokenAddress None (Some address) fb tb = Return incomingEvents ->
  let net := sumZ (ev_value <$> incomingEvents) - sumZ (ev_value <$> outgoingEvents) in
  let decimals := catch_default (contract_decimals tokenAddress) 18 in
  exists report,
    fst (getTokenBalanceChanges self (Some address) fromBlock toBlock s) = Return report /\
    br_fromBlock report = fb /\ br_toBlock report = tb /\
    totalChangeOf outgoingEvents incomingEvents = net /\
    ((exists c, c ∈ br_changes report /\ bc_symbol c = symbol /\ bc_token c = tokenAddress)
     <-> net <> 0 /\ exists text, formatUnits net decimals = Return text) /\
    (0 <= decimals <= 80 -> Z.abs net < 2 ^ 511 ->
     ((exists c, c ∈ br_changes report /\ bc_symbol c = symbol /\ bc_token c = tokenAddress)
      <-> net <> 0)) /\
    (80 < decimals ->
     ~ exists c, c ∈ br_changes report /\ bc_symbol c = symbol /\ bc_token c = tokenAddress) /\
    (forall c,
       c ∈ br_changes report -> bc_symbol c = symbol -> bc_token c = tokenAddress ->
       formatUnits net decimals = Return (bc_change c) /\
       bc_changeType c = (if decide (0 < net) then "increase" else "decrease") /\
       bc_fromBlock c = fb /\ bc_toBlock c = tb /\
       bc_events c = {| outgoing := List.length outgoingEvents;
                        incoming := List.length incomingEvents |}).
Proof.
  intros Hvalid Htruthy Hfb Htb Hin Hout Hinc net decimals.
  apply namesBlock_blockBound in Hfb, Htb.
  eexists. split; [by apply getTokenBalanceChanges_report|].
  cbn [br_fromBlock br_toBlock br_changes]. rewrite Hfb, Htb.
  split; [done|]. split; [done|]. split; [apply totalChangeOf_net|].
  pose proof (reportedChange_answered address fb tb symbol tokenAddress _ _ Hout Hinc)
    as Hown.
  cbn zeta in Hown. fold net decimals in Hown. unfold netSignedSum in Hown. fold net in Hown.
  assert (Hiff : (exists c, c ∈ flat_map (reportedChange address fb tb) (tokenAddresses self)
                            /\ bc_symbol c = symbol /\ bc_token c = tokenAddress)
                 <-> net <> 0 /\ exists text, formatUnits net decimals = Return text).
  { split.
    - intros (c & Hc & Hs & Ht).
      apply (reportedChange_mine _ _ _ _ _ _ _ Hc Hs) in Ht. rewrite Hown in Ht.
      destruct (decide (net = 0)); [by apply elem_of_nil in Ht|].
      destruct (formatUnits net decimals) as [text|]; [|by apply elem_of_nil in Ht].
      split; [done|by exists text].
    - intros (Hne & text & Htext). eexists. split.
      + apply list_elem_of_In, in_flat_map. exists (symbol, tokenAddress).
        split; [by apply list_elem_of_In|]. rewrite Hown, Htext.
        destruct (decide (net = 0)); [done|]. by left.
      + done. }
  split; [done|]. split; [|split].
  - intros Hd Hn. rewrite Hiff. rewrite (formatUnits_in_range net decimals Hd Hn).
    split; [by intros [? _]|]. intros Hne. split; [done|by eexists].
  - intros Hd. rewrite Hiff. intros (_ & text & Htext).
    destruct (formatUnits_decimals_limit net decimals Hd) as [e He]. congruence.
  - intros c Hc Hs Ht.
    apply (reportedChange_mine _ _ _ _ _ _ _ Hc Hs) in Ht. rewrite Hown in Ht.
    destruct (decide (net = 0)); [by apply elem_of_nil in Ht|].
    destruct (formatUnits net decimals) as [text|]; [|by apply elem_of_nil in Ht].
    by apply list_elem_of_singleton in Ht as ->.
Qed.

(** C8: when the processing of one token of the registry fails, the operation
    still returns a report and logs the failure as a warning. The report has
    no entry for the failing token, and its entries are those of the other
    tokens of the registry, in registry order: every other token whose
    queries answer with a net sum that is not zero and can be rendered has
    its entry. *)
Theorem getTokenBalanceChanges_skips_failing_token
    (url : string) (key : option string) (before after : list (string * string))
    (symbol tokenAddress address : string) (fromBlock toBlock : option Quantity)
    (s : State) :
  isAddress address = true ->
  Js.truthy_string address = true ->
  scanFails address (blockBound fromBlock) (blockBound toBlock) tokenAddress ->
  let fb := blockBound fromBlock in
  let tb := blockBound toBlock in
  exists report s',
    getTokenBalanceChanges
      (mkTransactionSimulator url key (before ++ (symbol, tokenAddress) :: after))
      (Some address) fromBlock toBlock s = (Return report, s') /\
    br_changes report = flat_map (reportedChange address fb tb) (before ++ after) /\
    (forall c, c ∈ br_changes report -> bc_token c <> tokenAddress) /\
    (forall sym tok outgoingEvents incomingEvents text,
       (sym, tok) ∈ before ++ after ->
       contract_queryFilter tok (Some address) None fb tb = Return outgoingEvents ->
       contract_queryFilter tok None (Some address) fb tb = Return incomingEvents ->
       let net := sumZ (ev_value <$> incomingEvents) - sumZ (ev_value <$> outgoingEvents) in
       net <> 0 ->
       formatUnits net (catch_default (contract_decimals tok) 18) = Return text ->
       {| bc_token := tok; bc_symbol := sym; bc_change := text;
          bc_changeType := if decide (0 < net) then "increase" else "decrease";
          bc_fromBlock := fb; bc_toBlock := tb;
          bc_events := {| outgoing := List.length outgoingEvents;
                          incoming := List.length incomingEvents |} |}
       ∈ br_changes report) /\
    (exists e,
       scanError address fb tb tokenAddress = Some e /\
       ("Failed to get balance changes for " +:+ symbol +:+ ": " +:+ message e)
       ∈ warnings s') /\
    heap s' = heap s.
Proof.
  intros Hvalid Htruthy [e He] fb tb. fold fb tb in He.
  assert (Hnone : forall sym, reportedChange address fb tb (sym, tokenAddress) = []).
  { intros sym. by destruct (reportedChange_failed address fb tb sym tokenAddress e He). }
  destruct (reportedChange_failed address fb tb symbol tokenAddress e He) as [_ Hwarn].
  eexists _, _. rewrite getTokenBalanceChanges_run by done. fold fb tb.
  split; [reflexivity|]. cbn [br_changes tokenAddresses warnings heap].
  rewrite !flat_map_app. cbn [flat_map]. rewrite Hnone, Hwarn. cbn [app].
  rewrite <- flat_map_app.
  split; [done|]. split; [|split; [|split; [|done]]].
  - intros c Hc Ht.
    apply list_elem_of_In, in_flat_map in Hc as ([sym tok] & _ & Hc).
    apply list_elem_of_In in Hc.
    destruct (reportedChange_fields _ _ _ _ _ Hc) as [_ Ht']. cbn in Ht'.
    replace tok with tokenAddress in Hc by congruence.
    rewrite Hnone in Hc. by apply elem_of_nil in Hc.
  - intros sym tok outgoingEvents incomingEvents text Hin Hout Hinc Hne Htext.
    apply list_elem_of_In, in_flat_map. exists (sym, tok).
    split; [by apply list_elem_of_In|].
    rewrite (reportedChange_answered _ _ _ _ _ _ _ Hout Hinc). cbn zeta.
    unfold netSignedSum. rewrite Htext.
    destruct (decide (_ = 0)); [done|]. by left.
  - exists e. split; [done|].
    rewrite !elem_of_app. right. right. apply list_elem_of_here.
Qed.

End BalanceChangeProperties.

Lemma getTokenBalanceChanges_reports_net_sum_witness :
  exists report c,
    fst (getTokenBalanceChanges (ethers := Examples.ethers) (erc20 := Examples.ledger)
           Examples.registry (Some Examples.sender) None (Some (QString "120"))
           (mkState ∅ []))
      = Return report /\
    c ∈ br_changes report /\ bc_symbol c = "USDC" /\
    bc_change c = "10.000000000000000007" /\ bc_changeType c = "increase" /\
    bc_fromBlock c = BlockLatest /\ bc_toBlock c = BlockNumber 120.
Proof.
  destruct (getTokenBalanceChanges_reports_net_sum
              (ethers := Examples.ethers) (erc20 := Examples.ledger)
              Examples.registry Examples.sender None (Some (QString "120"))
              BlockLatest (BlockNumber 120) (mkState ∅ [])
              "USDC" Examples.usdc
              (repeat (mkTransferEvent Examples.sender Examples.recipient 1) 3)
              (repeat (mkTransferEvent Examples.recipient Examples.sender
                         1000000000000000001) 10))
    as (report & Hrun & _ & _ & _ & Hiff & _ & _ & Hentry).
  - reflexivity.
  - reflexivity.
  - apply names_latest.
  - apply (names_text 120). vm_compute. discriminate.
  - apply list_elem_of_here.
  - reflexivity.
  - reflexivity.
  - destruct (proj2 Hiff) as (c & Hc & Hs & Ht).
    { split; [by vm_compute|]. eexists. vm_compute. reflexivity. }
    exists report, c. destruct (Hentry c Hc Hs Ht) as (Hchange & Htype & Hfrom & Hto & _).
    vm_compute in Hchange. injection Hchange as Hchange.
    repeat split; [exact Hrun|exact Hc|exact Hs|by symmetry|exact Htype|exact Hfrom|exact Hto].
Defined.

(** C3 as stated fails: the token reports 81 decimals, the address has
    received 5 units and sent none, so the net signed sum is 5, and the report
    has no entry for the token: [formatUnits] throws for more than 80
    decimals, inside the [try] of the token. *)
Lemma getTokenBalanceChanges_omits_nonzero_sum :
  exists report incomingEvents,
    fst (getTokenBalanceChanges (ethers := Examples.ethers) (erc20 := Examples.wideToken)
           (mkTransactionSimulator "http://localhost:8545" None [("WIDE", Examples.usdc)])
           (Some Examples.sender) None None (mkState ∅ []))
      = Return report /\
    contract_queryFilter (ERC20Binding := Examples.wideToken) Examples.usdc
      (Some Examples.sender) None BlockLatest BlockLatest = Return [] /\
    contract_queryFilter (ERC20Binding := Examples.wideToken) Examples.usdc
      None (Some Examples.sender) BlockLatest BlockLatest = Return incomingEvents /\
    netSignedSum incomingEvents [] = 5 /\
    br_changes report = [].
Proof. eexists _, _. split; [vm_compute; reflexivity|]. by repeat split. Qed.

Lemma getTokenBalanceChanges_skips_failing_token_witness :
  exists report s',
    getTokenBalanceChanges (ethers := Examples.ethers) (erc20 := Examples.ledger)
      Examples.registry (Some Examples.sender) None None (mkState ∅ [])
      = (Return report, s') /\
    (forall c, c ∈ br_changes report -> bc_token c <> Examples.misconfigured) /\
    (exists c, c ∈ br_changes report /\ bc_symbol c = "USDC" /\
               bc_change c = "10.000000000000000007") /\
    "Failed to get balance changes for BAD: could not resolve name" ∈ warnings s'.
Proof.
  destruct (getTokenBalanceChanges_skips_failing_token
              (ethers := Examples.ethers) (erc20 := Examples.ledger)
              "http://localhost:8545" None [("USDC", Examples.usdc)]
              [("TEST", Examples.tokenContract)] "BAD" Examples.misconfigured
              Examples.sender None None (mkState ∅ []))
    as (report & s' & Hrun & _ & Hskip & Hothers & (e & He & Hwarn) & _).
  - reflexivity.
  - reflexivity.
  - eexists. vm_compute. reflexivity.
  - exists report, s'. split; [exact Hrun|]. split; [exact Hskip|]. split.
    + eexists. split.
      * apply (Hothers "USDC" Examples.usdc
                 (repeat (mkTransferEvent Examples.sender Examples.recipient 1) 3)
                 (repeat (mkTransferEvent Examples.recipient Examples.sender
                            1000000000000000001) 10) "10.000000000000000007");
          [apply list_elem_of_here|reflexivity|reflexivity|vm_compute; discriminate
          |vm_compute; reflexivity].
      * split; reflexivity.
    + vm_compute in He. injection He as <-. exact Hwarn.
Defined.

(** ** simulateTransaction *)

Section SimulateProperties.
Context {ethers : EthersLibrary} {provider : ChainProvider}
        {erc20 : ERC20Binding} {walletManager : WalletManager}.

(** C1, as amended: [simulateTransaction] never throws; it always returns a
    result object. Whenever [success] is false the [errorMessage] is not
    null. When the speculative call, made on the prepared request at the
    block number the node reports, throws, [success] is false. An exception
    that reaches the outer [catch], such as the one of a node that cannot
    report the fee data the request needs or the block number, yields the
    fallback object: [success] is false, the [errorMessage] is the message
    of that exception, and [stateChanges] and [gasCost] are absent. In every
    other result all eight properties are present, and [success] is true
    exactly when the speculative call returned. *)
Theorem simulateTransaction_never_throws (transaction : loc) (s : State) :
  let t0 := deref (heap s) transaction in
  exists r s',
    simulateTransaction transaction s = (Return r, s') /\
    (success r = false -> is_Some (errorMessage r)) /\
    (forall t b e,
       preparedRequest t0 = Return t -> provider_getBlockNumber = Return b ->
       provider_call t b = Throw e -> success r = false) /\
    (forall e,
       truthy_oquantity (tx_gasPrice t0) = false ->
       truthy_oquantity (tx_maxFeePerGas t0) = false ->
       provider_getFeeData = Throw e -> r = fallbackResult e) /\
    (forall t e,
       preparedRequest t0 = Return t -> provider_getBlockNumber = Throw e ->
       r = fallbackResult e) /\
    match unhandledException t0 with
    | Some e =>
        r = fallbackResult e /\ success r = false /\
        errorMessage r = Some (message e) /\
        stateChanges r = None /\ gasCost r = None
    | None =>
        structurally_valid r /\
        forall t b,
          preparedRequest t0 = Return t -> provider_getBlockNumber = Return b ->
          (success r = true <-> exists v, provider_call t b = Return v)
    end.
Proof.
  intros t0.
  destruct (simulateTransaction_total transaction s) as (r & s' & Hrun & _ & -> & _).
  fold t0. exists (simulationOutcome t0), s'. split; [done|].
  assert (Hfee : forall e,
            truthy_oquantity (tx_gasPrice t0) = false ->
            truthy_oquantity (tx_maxFeePerGas t0) = false ->
            provider_getFeeData = Throw e -> simulationOutcome t0 = fallbackResult e).
  { intros e Hgp Hmf Hfd. unfold simulationOutcome, preparedRequest, withFees.
    destruct (withGasLimit_fees (withSender t0)) as (_ & -> & -> & _).
    destruct (withSender_fields t0) as (_ & _ & _ & _ & -> & -> & _).
    by rewrite Hgp, Hmf, Hfd. }
  assert (Hblock : forall t e,
            preparedRequest t0 = Return t -> provider_getBlockNumber = Throw e ->
            simulationOutcome t0 = fallbackResult e).
  { intros t e Ht Hb. unfold simulationOutcome, analysisOutcome. by rewrite Ht, Hb. }
  pose proof (simulationOutcome_cases t0) as Hcases.
  destruct (unhandledException t0) as [e|].
  - rewrite Hcases in *. split; [by eexists|]. split; [done|].
    split; [exact Hfee|]. split; [exact Hblock|]. by repeat split.
  - destruct Hcases as (t & b & created & cost & Ht & Hb & _ & _ & Hout).
    rewrite Hout in *.
    split; [|split; [|split; [exact Hfee|split; [exact Hblock|split]]]].
    + cbn [success errorMessage]. rewrite reestimateOutcome_success.
      destruct (provider_call t b) as [v|e]; [done|]. intros _.
      apply reestimateOutcome_failed_message.
    + intros t' b' e Ht' Hb' Hcall.
      replace t' with t in Hcall by congruence. replace b' with b in Hcall by congruence.
      cbn [success]. by rewrite reestimateOutcome_success, Hcall.
    + split; by eexists.
    + intros t' b' Ht' Hb'.
      replace t' with t by congruence. replace b' with b by congruence.
      cbn [success]. rewrite reestimateOutcome_success.
      destruct (provider_call t b) as [v|e]; [|split; [done|by intros [? ?]]].
      split; [by eexists|done].
Qed.

(** C2: the buffered limit of a gas estimate [E] of the node is exactly
    [floor(E * 120 / 100)]. In [simulateTransaction] the working copy ends
    with that limit when the caller supplied none and the node's estimate is
    [E], and with the caller's own limit, untouched, when one was supplied;
    [estimateGas] reports the numeral of that same buffered value. *)
Theorem gas_buffer_is_exact_floor (transaction : loc) (s : State) (E : Z) :
  0 <= E ->
  addGasBuffer E = E * 120 / 100 /\
  100 * addGasBuffer E <= E * 120 < 100 * addGasBuffer E + 100 /\
  (exists t,
     heap (snd (simulateTransaction transaction s)) !! workingCopy s = Some t /\
     let t0 := withSender (deref (heap s) transaction) in
     (truthy_oquantity (tx_gasLimit t0) = true ->
        tx_gasLimit t = tx_gasLimit (deref (heap s) transaction)) /\
     (truthy_oquantity (tx_gasLimit t0) = false ->
        provider_estimateGas t0 = Return E ->
        tx_gasLimit t = Some (QBigInt (E * 120 / 100)))) /\
  (provider_estimateGas (withSender (deref (heap s) transaction)) = Return E ->
     exists r,
       fst (estimateGas transaction s) = Return r /\
       gasLimit r = Js.toString (E * 120 / 100) /\
       recommendedGasLimit r = Js.toString (E * 120 / 100)).
Proof.
  intros HE. pose proof (addGasBuffer_floor E HE) as Hfloor.
  split; [done|]. split.
  { rewrite Hfloor. pose proof (Z.mul_div_le (E * 120) 100 ltac:(lia)).
    pose proof (Z.mul_succ_div_gt (E * 120) 100 ltac:(lia)). lia. }
  split.
  - destruct (simulateTransaction_workingCopy transaction s)
      as (t & Hl & (_ & _ & _ & _ & Hlimit)).
    exists t. split; [done|]. cbn zeta.
    rewrite Hlimit, tx_gasLimit_withGasLimit. split.
    + intros ->. apply tx_gasLimit_withSender.
    + intros -> ->. by rewrite Hfloor.
  - intros Hest. rewrite estimateGas_run, Hest, Hfloor. by eexists.
Qed.

(** C4, as amended: when the preparation of the request succeeds, the node
    reports the block number, the speculative call on the prepared request
    returns, the node estimates the gas of the prepared request, the
    contract-creation block completes and the gas cost can be computed and
    rendered, [simulateTransaction] returns [success = true], no error
    message, and a [gasUsed] that is the numeral of the node's gas estimate
    [E] for the prepared request, whose gas limit is the final one (the
    caller's if supplied, otherwise the buffered estimate, otherwise
    300000). [E] is at most that limit whenever the node's estimates never
    exceed the limit a request carries, and also when the caller supplied no
    limit and [E] is the non-negative estimate the limit was buffered from;
    the simulator itself does not compare them. *)
Theorem simulateTransaction_reports_estimate (transaction : loc) (s : State)
    (t0 t : TxRequest) (b : Z) (v : string) (E price : Z)
    (created : list ContractInteraction) (gwei ether : string) :
  heap s !! transaction = Some t0 ->
  preparedRequest t0 = Return t ->
  provider_getBlockNumber = Return b ->
  provider_call t b = Return v ->
  provider_estimateGas t = Return E ->
  creationEntries t = Return created ->
  quantity_BigInt (effectiveGasPrice t) = Return price ->
  formatUnits (E * price) Ethers.gwei = Return gwei ->
  Ethers.formatEther (E * price) = Return ether ->
  exists r s',
    simulateTransaction transaction s = (Return r, s') /\
    heap s' !! workingCopy s = Some t /\
    tx_gasLimit t = tx_gasLimit (withGasLimit (withSender t0)) /\
    success r = true /\ errorMessage r = None /\ gasUsed r = Js.toString E /\
    BigInt_string (gasUsed r) = Return E /\
    gasCost r = Some {| gc_wei := Js.toString (E * price); gc_gwei := gwei;
                        gc_ether := ether |} /\
    (estimatesWithinLimit ->
     forall q g, tx_gasLimit t = Some q -> quantity_BigInt q = Return g -> E <= g) /\
    (truthy_oquantity (tx_gasLimit (withSender t0)) = false ->
     provider_estimateGas (withSender t0) = Return E -> 0 <= E ->
     tx_gasLimit t = Some (QBigInt (E * 120 / 100)) /\ E <= E * 120 / 100).
Proof.
  intros Hl Ht Hb Hcall HE Hcreated Hprice Hgwei Hether.
  destruct (simulateTransaction_total transaction s) as (r & s' & Hrun & _ & Hr & Hwc).
  rewrite (deref_Some _ _ _ Hl) in Hr, Hwc. subst r.
  exists (simulationOutcome t0), s'. split; [done|]. split; [by apply Hwc|].
  pose proof (preparedRequest_fields _ _ Ht) as (_ & _ & _ & _ & Hlimit).
  split; [done|].
  assert (Hcost : gasCostOf t (Js.toString E)
                  = Return {| gc_wei := Js.toString (E * price); gc_gwei := gwei;
                              gc_ether := ether |}).
  { unfold gasCostOf. by rewrite BigInt_string_toString, Hprice, Hgwei, Hether. }
  unfold simulationOutcome, analysisOutcome.
  rewrite Ht, Hb, Hcall, HE, Hcreated. cbn [callOutcome reestimateOutcome gasUsed with_gasUsed
    with_success]. rewrite Hcost. cbn [success errorMessage gasUsed gasCost].
  do 3 (split; [done|]). split; [apply BigInt_string_toString|]. split; [done|]. split.
  - intros Hcap q g Hq Hqg. by eapply Hcap.
  - intros Hnone Hfirst Hpos. split.
    + rewrite Hlimit, tx_gasLimit_withGasLimit. rewrite Hnone, Hfirst.
      by rewrite addGasBuffer_floor.
    + apply Z.div_le_lower_bound; lia.
Qed.



(** What [detectTokenTransfers] returns and the state it leaves. *)
Lemma detectTokenTransfers_result (l : loc) (r : SimulationResult) (s : State) :
  exists s',
    detectTokenTransfers l r s
    = (Return (mkSimulationResult (success r) (gasUsed r) (logs r)
                 (tokenTransfers r ++ detectedTransfers (deref (heap s) l))
                 (contractInteractions r) (errorMessage r) (stateChanges r) (gasCost r)),
       s') /\
    heap s' = heap s.
Proof.
  pose proof (detectTokenTransfers_exact l r s) as H. unfold wp in H.
  destruct (detectTokenTransfers l r s) as [[r'|e] s']; [|done].
  destruct H as [Hh ->]. by exists s'.
Qed.





Lemma estimateGas_extends (transaction : loc) (s : State) :
  extends s (snd (estimateGas transaction s)).
Proof.
  assert (Hwp : wp (estimateGas transaction)
                  (fun _ s' => extends s s') (fun _ s' => extends s s') s).
  { unfold estimateGas. apply wp_try_catch, wp_bind, wp_spread.
    set (l := workingCopy s). set (s1 := mkState _ _).
    assert (Hext1 : extends s s1) by apply extends_spread.
    assert (Hfresh : heap s !! l = None) by apply workingCopy_fresh.
    apply wp_bind. eapply wp_mono; [apply fillFrom_spec| |done].
    intros [] s2 (_ & Hu2 & _). cbn beta.
    assert (Hext2 : extends s s2) by (by eapply extends_after_updates).
    apply wp_bind, wp_read, wp_bind, wp_await.
    destruct (provider_estimateGas _); [by apply wp_ret|by apply wp_throw]. }
  unfold wp in Hwp. by destruct (estimateGas transaction s) as [[r|e] s'].
Qed.

(** C9: [simulateTransaction] and [estimateGas] leave every object that
    existed before the call as it was, the caller's request in particular:
    the fill-ins go to the working copy, which is a different object. *)
Theorem request_is_never_mutated (transaction : loc) (s : State) (t : TxRequest) :
  heap s !! transaction = Some t ->
  workingCopy s <> transaction /\
  heap (snd (simulateTransaction transaction s)) !! transaction = Some t /\
  heap (snd (estimateGas transaction s)) !! transaction = Some t /\
  extends s (snd (simulateTransaction transaction s)) /\
  extends s (snd (estimateGas transaction s)).
Proof.
  intros Hl.
  destruct (simulateTransaction_total transaction s) as (r & s' & Hrun & Hext & _).
  rewrite Hrun. cbn [snd]. pose proof (estimateGas_extends transaction s) as Hext'.
  split; [|repeat split; eauto using extends_deref].
  intros Heq. pose proof (workingCopy_fresh s) as Hfresh. congruence.
Qed.

End SimulateProperties.

(** ** Concrete runs *)

(** C1 as stated fails: when the node cannot be reached the result is the
    fallback object, which has no [stateChanges] and no [gasCost]. *)
Lemma simulateTransaction_fallback_lacks_fields :
  exists r s',
    simulateTransaction (ethers := Examples.ethers) (provider := Examples.deadNode)
      (erc20 := Examples.testToken) (walletManager := Examples.noWallet)
      1%positive (Examples.callerHeap Examples.valueRequest) = (Return r, s') /\
    success r = false /\ errorMessage r = Some "network unreachable" /\
    stateChanges r = None /\ gasCost r = None /\ ~ structurally_valid r.
Proof.
  eexists. eexists. split; [vm_compute; reflexivity|].
  repeat split; try reflexivity. intros [[x Hx] _]. discriminate.
Qed.

Lemma gas_buffer_is_exact_floor_witness :
  addGasBuffer 50000 = 60000 /\
  exists t,
    heap (snd (simulateTransaction (ethers := Examples.ethers)
                 (provider := Examples.steadyNode) (erc20 := Examples.testToken)
                 (walletManager := Examples.noWallet)
                 1%positive (Examples.callerHeap Examples.valueRequest)))
      !! workingCopy (Examples.callerHeap Examples.valueRequest) = Some t /\
    tx_gasLimit t = Some (QBigInt 60000).
Proof.
  destruct (gas_buffer_is_exact_floor (ethers := Examples.ethers)
              (provider := Examples.steadyNode) (erc20 := Examples.testToken)
              (walletManager := Examples.noWallet)
              1%positive (Examples.callerHeap Examples.valueRequest) 50000)
    as (Hfloor & _ & (t & Hl & _ & Hestimated) & _); [lia|].
  split; [exact Hfloor|]. exists t. split; [exact Hl|].
  apply Hestimated; reflexivity.
Defined.

(** C4 as stated fails: the request is valid, the node reports everything it
    is asked, the call on the prepared request succeeds, the caller's gas
    limit is 21000, and the reported [gasUsed] is the node's estimate,
    50000. *)
Lemma simulateTransaction_gasUsed_exceeds_limit :
  exists r s' t,
    simulateTransaction (ethers := Examples.ethers) (provider := Examples.steadyNode)
      (erc20 := Examples.testToken) (walletManager := Examples.noWallet)
      1%positive (Examples.callerHeap Examples.limitedRequest) = (Return r, s') /\
    preparedRequest (provider := Examples.steadyNode) (walletManager := Examples.noWallet)
      Examples.limitedRequest = Return t /\
    heap s' !! workingCopy (Examples.callerHeap Examples.limitedRequest) = Some t /\
    provider_call (ChainProvider := Examples.steadyNode) t 1000 = Return "0x" /\
    provider_estimateGas (ChainProvider := Examples.steadyNode) t = Return 50000 /\
    success r = true /\ errorMessage r = None /\
    BigInt_string (gasUsed r) = Return 50000 /\
    (quantity_BigInt <$> tx_gasLimit t) = Some (Return 21000) /\
    ~ (50000 <= 21000).
Proof.
  eexists. eexists. eexists. split; [vm_compute; reflexivity|].
  split; [vm_compute; reflexivity|]. split; [vm_compute; reflexivity|].
  repeat split; try reflexivity. lia.
Qed.

Lemma simulateTransaction_reports_estimate_witness :
  exists r s',
    simulateTransaction (ethers := Examples.ethers) (provider := Examples.steadyNode)
      (erc20 := Examples.testToken) (walletManager := Examples.noWallet)
      1%positive (Examples.callerHeap Examples.transferRequest) = (Return r, s') /\
    success r = true /\ errorMessage r = None /\ gasUsed r = "50000" /\
    gasCost r = Some {| gc_wei := "2000000"; gc_gwei := "0.002";
                        gc_ether := "0.000000000002" |}.
Proof.
  destruct (simulateTransaction_reports_estimate (ethers := Examples.ethers)
              (provider := Examples.steadyNode) (erc20 := Examples.testToken)
              (walletManager := Examples.noWallet)
              1%positive (Examples.callerHeap Examples.transferRequest)
              Examples.transferRequest
              (set_maxPriorityFeePerGas (QBigInt 2)
                 (set_maxFeePerGas (QBigInt 40)
                    (set_gasLimit (QBigInt 60000) Examples.transferRequest)))
              1000 "0x" 50000 40 [] "0.002" "0.000000000002")
    as (r & s' & Hrun & _ & _ & Hs & Hm & Hu & _ & Hc & _);
    [reflexivity|vm_compute; reflexivity|reflexivity|reflexivity|reflexivity
    |reflexivity|reflexivity|vm_compute; reflexivity|vm_compute; reflexivity|].
  exists r, s'. split; [exact Hrun|]. split; [exact Hs|]. split; [exact Hm|].
  split; [exact Hu|exact Hc].
Defined.



Lemma request_is_never_mutated_witness :
  heap (snd (simulateTransaction (ethers := Examples.ethers)
               (provider := Examples.steadyNode) (erc20 := Examples.testToken)
               (walletManager := Examples.noWallet)
               1%positive (Examples.callerHeap Examples.valueRequest)))
    !! 1%positive = Some Examples.valueRequest /\
  heap (snd (estimateGas (provider := Examples.steadyNode)
               (walletManager := Examples.noWallet)
               1%positive (Examples.callerHeap Examples.valueRequest)))
    !! 1%positive = Some Examples.valueRequest.
Proof.
  destruct (request_is_never_mutated (ethers := Examples.ethers)
              (provider := Examples.steadyNode) (erc20 := Examples.testToken)
              (walletManager := Examples.noWallet)
              1%positive (Examples.callerHeap Examples.valueRequest)
              Examples.valueRequest) as (_ & Hsim & Hest & _); [reflexivity|].
  split; [exact Hsim|exact Hest].
Defined.

(** ** Properties of the simulation result *)

Section OutcomeProperties.
Context {ethers : EthersLibrary} {provider : ChainProvider}
        {erc20 : ERC20Binding} {walletManager : WalletManager}.

(** X1: Simulating the same request again, after any calls of the simulator that
    left the objects of the heap as they were, gives the same result: the
    result depends on the content of the request and the answers of the node
    only, not on the working copies and log lines of earlier calls. In
    particular a simulation can be repeated. *)
Theorem simulateTransaction_repeatable (transaction : loc) (s : State) :
  is_Some (heap s !! transaction) ->
  (forall s', extends s s' ->
     fst (simulateTransaction transaction s') = fst (simulateTransaction transaction s)) /\
  fst (simulateTransaction transaction (snd (simulateTransaction transaction s)))
  = fst (simulateTransaction transaction s).
Proof.
  intros [t0 Ht0].
  assert (Hext : forall s', extends s s' ->
     fst (simulateTransaction transaction s') = fst (simulateTransaction transaction s)).
  { intros s' Hext. rewrite !simulateTransaction_result. do 2 f_equal.
    rewrite (deref_Some _ _ _ Ht0). apply deref_Some. by eapply extends_deref. }
  split; [done|]. apply Hext.
  destruct (simulateTransaction_total transaction s) as (r & s' & -> & ? & _). done.
Qed.

(** X2: When the speculative call, made on the prepared request at the block
    the node reports, throws, [success] is false. In a result that is not
    the fallback object the [errorMessage] is ["Transaction would revert: "]
    followed by the error's data when the data contains ["revert"], and
    otherwise the error's own message when it is not empty; a failure of the
    later gas estimation does not replace it. *)
Theorem simulateTransaction_reports_revert (transaction : loc) (s : State)
    (t0 t : TxRequest) (b : Z) (e : JsError) :
  heap s !! transaction = Some t0 ->
  preparedRequest t0 = Return t ->
  provider_getBlockNumber = Return b ->
  provider_call t b = Throw e ->
  exists r s',
    simulateTransaction transaction s = (Return r, s') /\
    success r = false /\
    (structurally_valid r ->
     (Js.includes (default "" (data e)) "revert" = true ->
      errorMessage r = Some ("Transaction would revert: " +:+ default "" (data e))) /\
     (Js.includes (default "" (data e)) "revert" = false -> message e <> "" ->
      errorMessage r = Some (message e))).
Proof.
  intros Hl Ht Hb Hcall.
  destruct (simulateTransaction_total transaction s) as (r & s' & Hrun & _ & Hr & _).
  rewrite (deref_Some _ _ _ Hl) in Hr. subst r.
  exists (simulationOutcome t0), s'. split; [done|].
  pose proof (simulationOutcome_cases t0) as Hcases.
  pose proof (unhandledException_valid t0) as Hvalid.
  destruct (unhandledException t0) as [e'|].
  { rewrite Hcases. split; [done|]. by intros [[? [=]] _]. }
  destruct Hcases as (t' & b' & created & cost & Ht' & Hb' & _ & _ & ->).
  replace t' with t by congruence. replace b' with b by congruence.
  cbn [success errorMessage]. rewrite reestimateOutcome_success, Hcall.
  split; [done|]. intros _. unfold callOutcome, reestimateOutcome. split.
  - intros Hinc.
    assert (Htruthy : Js.truthy_ostring (data e) = true).
    { destruct (data e) as [[|]|]; done. }
    rewrite Htruthy, Hinc. cbn [andb]. by destruct (provider_estimateGas t).
  - intros Hinc Hmsg. rewrite Hinc, andb_false_r.
    destruct (provider_estimateGas t); [done|]. cbn.
    unfold Js.truthy_string. by destruct (String.eqb_spec (message e) "").
Qed.

(** X3: When the speculative call on the prepared request returns but the node
    cannot estimate the gas of the prepared request, a result that is not
    the fallback object still has [success = true], and carries the message
    ["Gas estimation failed: ..."]; its [gasUsed] is not an estimate but the
    text of the gas limit of the working copy: the caller's if one was
    supplied, otherwise the buffered first estimate, and the default
    ["300000"] when there was none. *)
Theorem simulateTransaction_estimation_failure (transaction : loc) (s : State)
    (t0 t : TxRequest) (b : Z) (v : string) (e : JsError) :
  heap s !! transaction = Some t0 ->
  preparedRequest t0 = Return t ->
  provider_getBlockNumber = Return b ->
  provider_call t b = Return v ->
  provider_estimateGas t = Throw e ->
  exists r s',
    simulateTransaction transaction s = (Return r, s') /\
    (structurally_valid r ->
     success r = true /\
     errorMessage r = Some ("Gas estimation failed: " +:+ message e) /\
     gasUsed r =
       let limit := tx_gasLimit t0 in
       if truthy_oquantity limit then default "" (quantity_toString <$> limit)
       else match provider_estimateGas (withSender t0) with
            | Return E0 => Js.toString (Z.quot (E0 * 120) 100)
            | Throw _ => "300000"
            end).
Proof.
  intros Hl Ht Hb Hcall Hest.
  destruct (simulateTransaction_total transaction s) as (r & s' & Hrun & _ & Hr & _).
  rewrite (deref_Some _ _ _ Hl) in Hr. subst r.
  exists (simulationOutcome t0), s'. split; [done|].
  pose proof (simulationOutcome_cases t0) as Hcases.
  pose proof (unhandledException_valid t0) as Hvalid.
  destruct (unhandledException t0) as [e'|].
  { intros Hv. apply Hvalid in Hv. discriminate. }
  destruct Hcases as (t' & b' & created & cost & Ht' & Hb' & _ & _ & ->).
  replace t' with t by congruence. replace b' with b by congruence.
  intros _. cbn [success errorMessage gasUsed].
  rewrite Hcall, Hest. cbn [callOutcome reestimateOutcome].
  apply preparedRequest_fields in Ht as (_ & _ & _ & _ & Hlimit).
  rewrite Hlimit, tx_gasLimit_withGasLimit.
  destruct (withSender_fields t0) as (_ & _ & _ & -> & _).
  cbn zeta. destruct (truthy_oquantity (tx_gasLimit t0)) eqn:Hq.
  - destruct (tx_gasLimit t0) as [q|]; [|done].
    assert (Htext : Js.truthy_ostring (quantity_toString <$> Some q) = true).
    { destruct q as [z|text]; [apply toString_truthy|done]. }
    rewrite Htext. done.
  - destruct (provider_estimateGas (withSender t0)) as [E0|]; [|done].
    cbn. by rewrite toString_truthy.
Qed.

(** X4: The [gasCost] of a result is the product of its [gasUsed] and the
    effective gas price of the working copy ([gasPrice], else
    [maxFeePerGas], else 50 gwei), given as the decimal numeral of the
    product in wei and the texts [formatUnits] returns for it in gwei and
    ether, which are its fixed-point renderings when the product is below
    2^511 in magnitude; the [wei] text reads back as that product. *)
Theorem simulateTransaction_gas_cost (transaction : loc) (s : State) :
  exists r s',
    simulateTransaction transaction s = (Return r, s') /\
    forall c, gasCost r = Some c ->
      exists t used price,
        heap s' !! workingCopy s = Some t /\
        BigInt_string (gasUsed r) = Return used /\
        quantity_BigInt (effectiveGasPrice t) = Return price /\
        gc_wei c = Js.toString (used * price) /\
        formatUnits (used * price) 9 = Return (gc_gwei c) /\
        formatUnits (used * price) 18 = Return (gc_ether c) /\
        (Z.abs (used * price) < 2 ^ 511 ->
         c = {| gc_wei := Js.toString (used * price);
                gc_gwei := FixedNumber.toString (used * price) 9;
                gc_ether := FixedNumber.toString (used * price) 18 |}) /\
        Js.StringToBigInt (gc_wei c) = Some (used * price).
Proof.
  destruct (simulateTransaction_total transaction s) as (r & s' & Hrun & _ & -> & Hwc).
  exists (simulationOutcome (deref (heap s) transaction)), s'. split; [done|].
  set (t0 := deref (heap s) transaction) in *. intros c Hc.
  pose proof (simulationOutcome_cases t0) as Hcases.
  destruct (unhandledException t0) as [e'|]; [by rewrite Hcases in Hc|].
  destruct Hcases as (t & b & created & cost & Ht & _ & _ & Hcost & Hout).
  rewrite Hout in Hc |- *. cbn [gasCost gasUsed] in *. injection Hc as <-.
  cbn zeta in Hcost. unfold gasCostOf in Hcost.
  destruct (BigInt_string _) as [used|] eqn:Hused; [|done].
  destruct (quantity_BigInt _) as [price|] eqn:Hprice; [|done].
  destruct (formatUnits (used * price) Ethers.gwei) as [gwei|] eqn:Hgwei; [|done].
  destruct (Ethers.formatEther (used * price)) as [ether|] eqn:Hether; [|done].
  injection Hcost as <-.
  exists t, used, price. split; [by apply Hwc|]. split; [done|].
  split; [done|]. split; [reflexivity|]. split; [done|]. split; [done|].
  split; [|apply StringToBigInt_toString].
  intros Hrange. cbn [gc_wei gc_gwei gc_ether].
  unfold Ethers.formatEther, Ethers.gwei in *.
  rewrite formatUnits_in_range in Hgwei, Hether by (done || lia).
  by injection Hgwei as <-; injection Hether as <-.
Qed.

(** X5: Fee fields of the working copy. A request that supplies a gas price or
    a maximum fee keeps its three fee fields as they are, and the node's fee
    data play no part. Otherwise the node's fee data are used: when they
    report a maximum fee the working copy gets the EIP-1559 pair and no
    legacy gas price, and else it gets the legacy gas price alone; when the
    node cannot report fee data the result is the fallback object. *)
Theorem simulateTransaction_fee_selection (transaction : loc) (s : State) :
  let t0 := deref (heap s) transaction in
  exists r s',
    simulateTransaction transaction s = (Return r, s') /\
    (truthy_oquantity (tx_gasPrice t0) || truthy_oquantity (tx_maxFeePerGas t0) = true ->
     exists t,
       heap s' !! workingCopy s = Some t /\
       tx_gasPrice t = tx_gasPrice t0 /\ tx_maxFeePerGas t = tx_maxFeePerGas t0 /\
       tx_maxPriorityFeePerGas t = tx_maxPriorityFeePerGas t0) /\
    (truthy_oquantity (tx_gasPrice t0) || truthy_oquantity (tx_maxFeePerGas t0) = false ->
     match provider_getFeeData with
     | Throw e => r = fallbackResult e
     | Return fd =>
         if truthy_oquantity (QBigInt <$> fd_maxFeePerGas fd) then
           forall p, fd_maxPriorityFeePerGas fd = Some p ->
             exists t,
               heap s' !! workingCopy s = Some t /\
               tx_maxFeePerGas t = QBigInt <$> fd_maxFeePerGas fd /\
               tx_maxPriorityFeePerGas t = Some (QBigInt p) /\
               tx_gasPrice t = tx_gasPrice t0
         else
           forall g, fd_gasPrice fd = Some g ->
             exists t,
               heap s' !! workingCopy s = Some t /\
               tx_gasPrice t = Some (QBigInt g) /\
               tx_maxFeePerGas t = tx_maxFeePerGas t0 /\
               tx_maxPriorityFeePerGas t = tx_maxPriorityFeePerGas t0
     end).
Proof.
  intros t0.
  destruct (simulateTransaction_total transaction s) as (r & s' & Hrun & _ & -> & Hwc).
  exists (simulationOutcome (deref (heap s) transaction)), s'. split; [done|].
  fold t0 in Hwc |- *. set (t1 := withGasLimit (withSender t0)).
  assert (Hfees : tx_gasPrice t1 = tx_gasPrice t0 /\
                  tx_maxFeePerGas t1 = tx_maxFeePerGas t0 /\
                  tx_maxPriorityFeePerGas t1 = tx_maxPriorityFeePerGas t0).
  { destruct (withGasLimit_fees (withSender t0)) as (_ & ? & ? & ?).
    destruct (withSender_fields t0) as (_ & _ & _ & _ & ? & ? & ?).
    unfold t1. repeat split; congruence. }
  destruct Hfees as (Hgp & Hmf & Hmp).
  unfold simulationOutcome. unfold preparedRequest in *. fold t1 in Hwc |- *.
  unfold withFees in *. rewrite Hgp, Hmf in *.
  destruct (truthy_oquantity (tx_gasPrice t0) || truthy_oquantity (tx_maxFeePerGas t0))
    eqn:Hsupplied.
  - assert (Hc : negb (truthy_oquantity (tx_gasPrice t0))
                 && negb (truthy_oquantity (tx_maxFeePerGas t0)) = false).
    { by destruct (truthy_oquantity (tx_gasPrice t0)),
                  (truthy_oquantity (tx_maxFeePerGas t0)). }
    rewrite Hc in *. split; [|done]. intros _. exists t1. split; [by apply Hwc|done].
  - assert (Hc : negb (truthy_oquantity (tx_gasPrice t0))
                 && negb (truthy_oquantity (tx_maxFeePerGas t0)) = true).
    { by destruct (truthy_oquantity (tx_gasPrice t0)),
                  (truthy_oquantity (tx_maxFeePerGas t0)). }
    rewrite Hc in *. split; [done|]. intros _.
    destruct provider_getFeeData as [fd|e]; [|done].
    destruct (truthy_oquantity (QBigInt <$> fd_maxFeePerGas fd)) eqn:Hm.
    + intros p Hp. destruct (fd_maxFeePerGas fd) as [m|]; [|done].
      rewrite Hp in *. cbn [BigInt_nullable] in *.
      eexists. split; [by apply Hwc|]. cbn. done.
    + intros g Hg. rewrite Hg in *. cbn [BigInt_nullable] in *.
      eexists. split; [by apply Hwc|]. cbn. done.
Qed.

(** X6: Contract creation. In a result that is not the fallback object there is
    a contract interaction exactly when the request has no [to] and has
    data, and then there is one entry: of type ["creation"], with the
    creation code cut to 64 characters and ["..."] (so at most 67
    characters), the constructor arguments [extractConstructorArgs] reads
    off the creation code, and an estimated address computed from the chain
    id, the sender and a nonce the node reports. No other request gets a
    contract interaction. *)
Theorem simulateTransaction_creation_entry (transaction : loc) (s : State) :
  let t0 := deref (heap s) transaction in
  exists r s',
    simulateTransaction transaction s = (Return r, s') /\
    (structurally_valid r ->
     if negb (Js.truthy_ostring (tx_to t0)) && Js.truthy_ostring (tx_data t0) then
       exists c chainId sender nonce,
         contractInteractions r = [c] /\
         ci_type c = "creation" /\
         ci_bytecode c = bytecodeDisplay (default "" (tx_data t0)) /\
         (String.length (ci_bytecode c) <= 67)%nat /\
         ci_constructorArgs c = extractConstructorArgs (default "" (tx_data t0)) /\
         tx_from (withSender t0) = Some sender /\
         provider_network_chainId = Return chainId /\
         provider_getTransactionCount (Some sender) = Return nonce /\
         ci_estimatedAddress c = estimatedAddressOf chainId sender nonce
     else contractInteractions r = []).
Proof.
  intros t0.
  destruct (simulateTransaction_total transaction s) as (r & s' & Hrun & _ & -> & _).
  exists (simulationOutcome (deref (heap s) transaction)), s'. split; [done|].
  fold t0.
  intros (t & Ht & -> & (b & created & cost & _ & Hc & _ & ->)%analysisOutcome_valid)
    %simulationOutcome_valid.
  cbn [contractInteractions].
  apply preparedRequest_fields in Ht as (Hfrom & Hto & Hdata & _).
  unfold creationEntries in Hc. rewrite Hto, Hdata, Hfrom in Hc.
  destruct (negb _ && _); [|by injection Hc as <-].
  destruct (tx_from (withSender t0)) as [sender|].
  - destruct (provider_getTransactionCount _) as [nonce|] eqn:Hn; [|done].
    destruct provider_network_chainId as [chainId|]; [|done].
    injection Hc as <-. eexists _, chainId, sender, nonce.
    split; [done|]. cbn. repeat split; try done. apply bytecodeDisplay_length.
  - destruct (provider_getTransactionCount _); [|done].
    by destruct provider_network_chainId.
Qed.

(** X7: The arrays of every result: [logs] is always empty and [stateChanges]
    is empty or absent; there is at most one token transfer and at most one
    contract interaction, and never both; a token transfer is of type
    ["ERC20"], names the request's [to] as the token and has the sender of
    the working copy as its [from]. *)
Theorem simulateTransaction_result_arrays (transaction : loc) (s : State) :
  let t0 := deref (heap s) transaction in
  exists r s',
    simulateTransaction transaction s = (Return r, s') /\
    logs r = [] /\
    (stateChanges r = Some [] \/ stateChanges r = None) /\
    (List.length (tokenTransfers r) <= 1)%nat /\
    (List.length (contractInteractions r) <= 1)%nat /\
    (tokenTransfers r = [] \/ contractInteractions r = []) /\
    (forall tr, tr ∈ tokenTransfers r ->
       tt_type tr = "ERC20" /\ tt_token tr = tx_to t0 /\
       tt_from tr = tx_from (withSender t0)).
Proof.
  intros t0.
  destruct (simulateTransaction_total transaction s) as (r & s' & Hrun & _ & -> & _).
  exists (simulationOutcome (deref (heap s) transaction)), s'. split; [done|].
  fold t0. unfold simulationOutcome.
  assert (Hfb : forall e,
            let r := fallbackResult e in
            logs r = [] /\ (stateChanges r = Some [] \/ stateChanges r = None) /\
            (List.length (tokenTransfers r) <= 1)%nat /\
            (List.length (contractInteractions r) <= 1)%nat /\
            (tokenTransfers r = [] \/ contractInteractions r = []) /\
            (forall tr, tr ∈ tokenTransfers r ->
               tt_type tr = "ERC20" /\ tt_token tr = tx_to t0 /\
               tt_from tr = tx_from (withSender t0))).
  { intros e. cbn. split; [done|]. split; [by right|]. split; [lia|]. split; [lia|].
    split; [by left|]. intros tr Htr. by apply elem_of_nil in Htr. }
  destruct (preparedRequest t0) as [t|e] eqn:Ht; [|apply Hfb].
  apply preparedRequest_fields in Ht as (Hfrom & Hto & _).
  unfold analysisOutcome. destruct provider_getBlockNumber as [b|]; [|apply Hfb].
  destruct (creationEntries t) as [created|] eqn:Hc; [|apply Hfb]. cbn zeta.
  destruct (gasCostOf t _); [|apply Hfb]. cbn.
  split; [done|]. split; [by left|].
  apply creationEntries_shape in Hc.
  destruct (detectedTransfers_shape t) as [->|(Htruthy & tr & -> & Hty & Htok & Hfr)].
  - split; [cbn; lia|]. split; [by destruct Hc as [->|[_ ->]]; cbn; lia|].
    split; [by left|]. intros tr0 Htr. by apply elem_of_nil in Htr.
  - destruct Hc as [->|[Hfalse _]]; [|congruence].
    split; [cbn; lia|]. split; [cbn; lia|]. split; [by right|].
    intros ? ->%list_elem_of_singleton. repeat split; congruence.
Qed.

End OutcomeProperties.

Lemma simulateTransaction_repeatable_witness :
  fst (simulateTransaction (ethers := Examples.ethers) (provider := Examples.steadyNode)
         (erc20 := Examples.testToken) (walletManager := Examples.noWallet) 1%positive
         (snd (simulateTransaction (ethers := Examples.ethers)
                 (provider := Examples.steadyNode) (erc20 := Examples.testToken)
                 (walletManager := Examples.noWallet) 1%positive
                 (Examples.callerHeap Examples.transferRequest))))
  = fst (simulateTransaction (ethers := Examples.ethers) (provider := Examples.steadyNode)
           (erc20 := Examples.testToken) (walletManager := Examples.noWallet) 1%positive
           (Examples.callerHeap Examples.transferRequest)).
Proof.
  apply (simulateTransaction_repeatable (ethers := Examples.ethers)
           (provider := Examples.steadyNode) (erc20 := Examples.testToken)
           (walletManager := Examples.noWallet) 1%positive
           (Examples.callerHeap Examples.transferRequest)).
  eexists. reflexivity.
Defined.

Lemma simulateTransaction_reports_revert_witness :
  exists r s',
    simulateTransaction (ethers := Examples.ethers) (provider := Examples.revertingNode)
      (erc20 := Examples.testToken) (walletManager := Examples.noWallet)
      1%positive (Examples.callerHeap Examples.transferRequest) = (Return r, s') /\
    success r = false /\
    errorMessage r
    = Some "Transaction would revert: execution reverted: ERC20: transfer amount exceeds balance".
Proof.
  destruct (simulateTransaction_reports_revert (ethers := Examples.ethers)
              (provider := Examples.revertingNode) (erc20 := Examples.testToken)
              (walletManager := Examples.noWallet)
              1%positive (Examples.callerHeap Examples.transferRequest)
              Examples.transferRequest
              (set_maxPriorityFeePerGas (QBigInt 2)
                 (set_maxFeePerGas (QBigInt 40)
                    (set_gasLimit (QBigInt 300000) Examples.transferRequest)))
              1000 Examples.revertError) as (r & s' & Hrun & Hs & Hm);
    [reflexivity|vm_compute; reflexivity|reflexivity|reflexivity|].
  exists r, s'. split; [exact Hrun|]. split; [exact Hs|].
  apply Hm; [|reflexivity].
  vm_compute in Hrun. injection Hrun as <- _. split; eexists; reflexivity.
Defined.

Lemma simulateTransaction_estimation_failure_witness :
  exists r s',
    simulateTransaction (ethers := Examples.ethers) (provider := Examples.stallingNode)
      (erc20 := Examples.testToken) (walletManager := Examples.noWallet)
      1%positive (Examples.callerHeap Examples.limitedRequest) = (Return r, s') /\
    success r = true /\
    errorMessage r = Some "Gas estimation failed: cannot estimate gas" /\
    gasUsed r = "21000".
Proof.
  destruct (simulateTransaction_estimation_failure (ethers := Examples.ethers)
              (provider := Examples.stallingNode) (erc20 := Examples.testToken)
              (walletManager := Examples.noWallet)
              1%positive (Examples.callerHeap Examples.limitedRequest)
              Examples.limitedRequest
              (set_maxPriorityFeePerGas (QBigInt 2)
                 (set_maxFeePerGas (QBigInt 40) Examples.limitedRequest))
              1000 "0x" (Error "cannot estimate gas")) as (r & s' & Hrun & Hv);
    [reflexivity|vm_compute; reflexivity|reflexivity|reflexivity|reflexivity|].
  exists r, s'. split; [exact Hrun|]. apply Hv.
  vm_compute in Hrun. injection Hrun as <- _. split; eexists; reflexivity.
Defined.

(** ** Detection of token transfers *)

Section DetectionEffects.
Context {ethers : EthersLibrary} {provider : ChainProvider}
        {erc20 : ERC20Binding} {walletManager : WalletManager}.

Lemma detectTokenTransfers_effects (l : loc) (r : SimulationResult) (s : State) :
  wp (detectTokenTransfers l r)
     (fun r' s' =>
        heap s' = heap s /\
        ((exists tr,
            r' = push_tokenTransfer tr r /\ tt_type tr = "ERC20" /\
            tt_token tr = tx_to (deref (heap s) l) /\
            tt_from tr = tx_from (deref (heap s) l) /\
            warnings s' = warnings s) \/
         (r' = r /\
          (warnings s' = warnings s \/
           exists m, warnings s' = warnings s ++ ["Failed to decode ERC20 transfer: " +:+ m]))))
     (fun _ _ => False) s.
Proof.
  unfold detectTokenTransfers. apply wp_bind, wp_read.
  set (t := deref (heap s) l).
  destruct (Js.truthy_ostring (tx_to t)) eqn:Hto; cbn [andb];
    [|apply wp_ret; by auto].
  destruct (Js.truthy_ostring (tx_data t)) eqn:Hdata; cbn [andb];
    [|apply wp_ret; by auto].
  destruct (Js.startsWith _ _); [|apply wp_ret; by auto].
  destruct (tx_to t) as [a|] eqn:Ha; [|done].
  unfold detectERC20Transfer. apply wp_bind, wp_read. fold t. rewrite Ha.
  apply wp_try_catch, wp_bind, wp_await.
  destruct (match tx_data t with Some d => _ | None => _ end) as [[decoded|]|e].
  - destruct (String.eqb _ _); [|apply wp_ret; by auto].
    destruct (Ethers.td_args decoded) as [|[to|?] [|[?|amount] ?]];
      try (apply wp_throw, wp_bind, wp_warn, wp_ret; cbn; by eauto 10).
    apply wp_bind, wp_try_catch, wp_ret. cbn beta iota.
    apply wp_bind, wp_await.
    destruct (formatUnits amount _) as [formatted|e].
    + apply wp_ret. split; [done|]. left. eexists. split; [done|]. by cbn.
    + apply wp_bind, wp_warn, wp_ret. cbn. by eauto 10.
  - apply wp_throw, wp_bind, wp_warn, wp_ret. cbn. by eauto 10.
  - apply wp_bind, wp_warn, wp_ret. cbn. by eauto 10.
Qed.

(** X8: [detectTokenTransfers] never throws and never touches the heap. It
    returns the result it was given, either as it is or with one entry
    appended to [tokenTransfers]: an entry of type ["ERC20"] whose token is
    the request's [to] and whose [from] is the request's [from]. It logs at
    most one line, a ["Failed to decode ERC20 transfer: ..."] warning, and
    only when it appended nothing. *)
Theorem detectTokenTransfers_footprint (transaction : loc) (r : SimulationResult)
    (s : State) :
  exists r' s',
    detectTokenTransfers transaction r s = (Return r', s') /\
    heap s' = heap s /\
    ((exists tr,
        r' = push_tokenTransfer tr r /\ tt_type tr = "ERC20" /\
        tt_token tr = tx_to (deref (heap s) transaction) /\
        tt_from tr = tx_from (deref (heap s) transaction) /\
        warnings s' = warnings s) \/
     (r' = r /\
      (warnings s' = warnings s \/
       exists m, warnings s' = warnings s ++ ["Failed to decode ERC20 transfer: " +:+ m]))).
Proof.
  pose proof (detectTokenTransfers_effects transaction r s) as H. unfold wp in H.
  destruct (detectTokenTransfers transaction r s) as [[r'|e] s']; [|done].
  by exists r', s'.
Qed.


(** X10: Call data that begins with the transfer selector but cannot be decoded
    gives no entry and no exception: the result is returned as it was, and
    one warning with the decoder's message is logged. *)
Theorem detectTokenTransfers_undecodable (transaction : loc) (s : State)
    (r : SimulationResult) (t : TxRequest) (data : string) (e : JsError) :
  heap s !! transaction = Some t ->
  Js.truthy_ostring (tx_to t) = true ->
  tx_data t = Some data ->
  Js.startsWith data ERC20_TRANSFER_SIGNATURE = true ->
  Ethers.parseTransaction ERC20_ABI data = Throw e ->
  detectTokenTransfers transaction r s
  = (Return r,
     mkState (heap s) (warnings s ++ ["Failed to decode ERC20 transfer: " +:+ message e])).
Proof.
  intros Hl Hto Hdata Hstart Hparse.
  assert (Htruthy : Js.truthy_string data = true) by (by destruct data).
  apply wp_eq. unfold detectTokenTransfers. apply wp_bind, wp_read.
  rewrite (deref_Some _ _ _ Hl), Hto, Hdata. cbn [Js.truthy_ostring from_option id].
  rewrite Htruthy, Hstart. cbn [andb].
  unfold detectERC20Transfer. apply wp_bind, wp_read.
  rewrite (deref_Some _ _ _ Hl), Hdata.
  apply wp_try_catch, wp_bind, wp_await. rewrite Hparse.
  by apply wp_bind, wp_warn, wp_ret.
Qed.

End DetectionEffects.


Lemma detectTokenTransfers_undecodable_witness :
  detectTokenTransfers (ethers := Examples.ethers) (erc20 := Examples.testToken)
    1%positive initialResult (Examples.callerHeap Examples.truncatedTransferRequest)
  = (Return initialResult,
     mkState (heap (Examples.callerHeap Examples.truncatedTransferRequest))
       ["Failed to decode ERC20 transfer: data out-of-bounds"]).
Proof.
  apply (detectTokenTransfers_undecodable (ethers := Examples.ethers)
           (erc20 := Examples.testToken) 1%positive
           (Examples.callerHeap Examples.truncatedTransferRequest) initialResult
           Examples.truncatedTransferRequest Examples.truncatedTransferData
           (Error "data out-of-bounds")); reflexivity.
Defined.

(** ** Constructor arguments *)

Lemma substring_whole (s : string) : String.substring 0 (String.length s) s = s.
Proof. induction s as [|c s IH]; [done|]. cbn. by rewrite IH. Qed.

Lemma substring_split (n : nat) (s : string) :
  (n <= String.length s)%nat ->
  s = String.substring 0 n s +:+ String.substring n (String.length s - n) s /\
  String.length (String.substring n (String.length s - n) s) = (String.length s - n)%nat.
Proof.
  revert n. induction s as [|c s IH]; intros n Hn.
  - destruct n; [done|cbn in Hn; lia].
  - destruct n as [|n].
    + rewrite Nat.sub_0_r, substring_whole. split; [|done].
      by destruct (String.length (String c s)).
    + cbn in Hn. destruct (IH n ltac:(lia)) as [Heq Hlen].
      cbn [String.length Nat.sub String.substring]. split; [|done].
      change (String c (String.substring 0 n s) +:+ ?x)
        with (String c (String.substring 0 n s +:+ x)). by f_equal.
Qed.

(** X11: [extractConstructorArgs] returns the empty array for a creation code of
    at most two characters. For any longer code it returns a tail of the
    code as [raw] and never the error object: the last 43 characters when
    the code has at least 43, the last [43 - n] characters when the length
    [n] is between 22 and 42 (the computed start index is then negative and
    counts from the end), and the whole code when it is shorter than 22. *)
Theorem extractConstructorArgs_tail (bytecode : string) :
  let n := String.length bytecode in
  if (n <=? 2)%nat then extractConstructorArgs bytecode = ArgsNone
  else
    exists front raw,
      extractConstructorArgs bytecode
      = ArgsRaw raw "Constructor arguments detection requires ABI" /\
      bytecode = front +:+ raw /\
      String.length raw
      = (if 43 <=? n then 43 else if 22 <=? n then 43 - n else n)%nat.
Proof.
  intros n. unfold extractConstructorArgs. fold n.
  destruct (Nat.leb_spec n 2) as [Hle|Hgt]; [by rewrite orb_true_r|].
  assert (Htruthy : Js.truthy_string bytecode = true) by (destruct bytecode; [cbn in n; lia|done]).
  rewrite Htruthy. cbn [negb orb]. unfold Js.slice_from. fold n.
  set (b := if Z.of_nat n - 43 <? 0
            then Z.max (Z.of_nat n + (Z.of_nat n - 43)) 0
            else Z.min (Z.of_nat n - 43) (Z.of_nat n)).
  assert (Hb : 0 <= b /\ (Z.to_nat b <= n)%nat /\
               (n - Z.to_nat b
                = if 43 <=? n then 43 else if 22 <=? n then 43 - n else n)%nat).
  { unfold b. destruct (Z.ltb_spec (Z.of_nat n - 43) 0);
      destruct (Nat.leb_spec 43 n); destruct (Nat.leb_spec 22 n); lia. }
  destruct Hb as (Hpos & Hb & Hlen).
  destruct (substring_split (Z.to_nat b) bytecode Hb) as [Heq Hl]. fold n in Heq, Hl.
  exists (String.substring 0 (Z.to_nat b) bytecode),
         (String.substring (Z.to_nat b) (n - Z.to_nat b) bytecode).
  replace (Z.to_nat (Z.of_nat n - b)) with (n - Z.to_nat b)%nat by lia.
  split; [done|]. split; [done|]. by rewrite Hl.
Qed.

(** ** Balance changes: validation, log lines and shape of the report *)

Section BalanceChangeEffects.
Context {ethers : EthersLibrary} {erc20 : ERC20Binding}.

(** X13: [getTokenBalanceChanges] validates the address before anything else.
    It throws exactly when the address is missing, empty or not an address;
    the error is then a [TransactionError] with code [INVALID_ADDRESS] and
    message ["Invalid address provided"] whose details hold the rejected
    address, and nothing has been queried or logged. On any valid address it
    returns a report, whatever the token scans do. *)
Theorem getTokenBalanceChanges_validates_address (self : TransactionSimulator)
    (address : option string) (fromBlock toBlock : option Quantity) (s : State) :
  if Js.truthy_ostring address && isAddress (default "" address) then
    exists report s',
      getTokenBalanceChanges self address fromBlock toBlock s = (Return report, s')
  else
    getTokenBalanceChanges self address fromBlock toBlock s
    = (Throw {| name := "TransactionError"; code := Some "INVALID_ADDRESS";
                message := "Invalid address provided"; data := None;
                details := [("address", match address with
                                        | Some a => DString a
                                        | None => DUndefined
                                        end)] |}, s).
Proof.
  unfold getTokenBalanceChanges.
  destruct (Js.truthy_ostring address); cbn [negb andb orb]; [|done].
  destruct (isAddress _); cbn [negb]; [|done].
  unfold bind. rewrite scanTokens_run. by eexists _, _.
Qed.

(** X14: The scan leaves the heap as it was and logs one warning for each token
    of the registry whose processing fails, in registry order, naming the
    token's symbol and the message of the failure; it logs nothing else. The
    processing of a token fails when one of its two event queries throws,
    and also when the queries answer with a net sum that is not zero and
    [formatUnits] throws on it, as it does for a token of more than 80
    decimals. *)
Theorem getTokenBalanceChanges_logs_failures (self : TransactionSimulator)
    (address : string) (fromBlock toBlock : option Quantity) (s : State) :
  isAddress address = true ->
  Js.truthy_string address = true ->
  let fb := blockBound fromBlock in
  let tb := blockBound toBlock in
  let failure (tokenAddress : string) : option JsError :=
    match contract_queryFilter tokenAddress (Some address) None fb tb with
    | Throw e => Some e
    | Return outgoingEvents =>
        match contract_queryFilter tokenAddress None (Some address) fb tb with
        | Throw e => Some e
        | Return incomingEvents =>
            let net := sumZ (ev_value <$> incomingEvents)
                       - sumZ (ev_value <$> outgoingEvents) in
            if decide (net = 0) then None
            else match formatUnits net (catch_default (contract_decimals tokenAddress) 18) with
                 | Throw e => Some e
                 | Return _ => None
                 end
        end
    end in
  snd (getTokenBalanceChanges self (Some address) fromBlock toBlock s)
  = mkState (heap s)
      (warnings s ++
       flat_map (fun entry =>
                   match failure (entry.2) with
                   | Some e => ["Failed to get balance changes for " +:+ entry.1
                                +:+ ": " +:+ message e]
                   | None => []
                   end) (tokenAddresses self)) /\
  (forall symbol tokenAddress outgoingEvents incomingEvents,
     (symbol, tokenAddress) ∈ tokenAddresses self ->
     contract_queryFilter tokenAddress (Some address) None fb tb = Return outgoingEvents ->
     contract_queryFilter tokenAddress None (Some address) fb tb = Return incomingEvents ->
     sumZ (ev_value <$> incomingEvents) - sumZ (ev_value <$> outgoingEvents) <> 0 ->
     80 < catch_default (contract_decimals tokenAddress) 18 ->
     exists e,
       ("Failed to get balance changes for " +:+ symbol +:+ ": " +:+ message e)
       ∈ warnings (snd (getTokenBalanceChanges self (Some address) fromBlock toBlock s))).
Proof.
  intros Hvalid Htruthy fb tb failure.
  rewrite getTokenBalanceChanges_run by done. cbn [snd]. fold fb tb.
  assert (Hfail : forall tokenAddress, failure tokenAddress = scanError address fb tb tokenAddress)
    by done.
  split; [done|].
  intros symbol tokenAddress outgoingEvents incomingEvents Hin Hout Hinc Hne Hdec.
  destruct (formatUnits_decimals_limit
              (sumZ (ev_value <$> incomingEvents) - sumZ (ev_value <$> outgoingEvents))
              _ Hdec) as [e He].
  exists e. cbn [warnings]. apply elem_of_app. right.
  apply list_elem_of_In, in_flat_map. exists (symbol, tokenAddress).
  split; [by apply list_elem_of_In|].
  unfold scanWarnings, scanError. cbn [fst snd]. rewrite Hout, Hinc. unfold netSignedSum.
  rewrite He. destruct (decide _); [done|]. by left.
Qed.

(** X15: Shape of the report on a valid address. It echoes the address and the
    two converted block bounds. Its entries follow the registry: the
    (symbol, token) pairs of the entries are a sublist of the registry, so
    they come in registry order with at most one entry per registered
    token and none for an unregistered one. Every entry carries the
    report's block bounds and is an ["increase"] or a ["decrease"]. *)
Theorem getTokenBalanceChanges_report_shape (self : TransactionSimulator)
    (address : string) (fromBlock toBlock : option Quantity) (s : State) :
  isAddress address = true ->
  Js.truthy_string address = true ->
  exists report,
    fst (getTokenBalanceChanges self (Some address) fromBlock toBlock s) = Return report /\
    br_address report = address /\
    br_fromBlock report = blockBound fromBlock /\
    br_toBlock report = blockBound toBlock /\
    ((fun c => (bc_symbol c, bc_token c)) <$> br_changes report)
      `sublist_of` tokenAddresses self /\
    (List.length (br_changes report) <= List.length (tokenAddresses self))%nat /\
    (forall c, c ∈ br_changes report ->
       bc_fromBlock c = br_fromBlock report /\ bc_toBlock c = br_toBlock report /\
       (bc_changeType c = "increase" \/ bc_changeType c = "decrease")).
Proof.
  intros Hvalid Htruthy. eexists. split; [by apply getTokenBalanceChanges_report|].
  cbn [br_address br_fromBlock br_toBlock br_changes].
  pose proof (reportedChange_sublist address (blockBound fromBlock) (blockBound toBlock)
                (tokenAddresses self)) as Hsub.
  split; [done|]. split; [done|]. split; [done|]. split; [done|]. split.
  - apply sublist_length in Hsub. by rewrite length_fmap in Hsub.
  - intros c Hc. apply list_elem_of_In, in_flat_map in Hc as (entry & _ & Hc).
    apply list_elem_of_In in Hc. by eapply reportedChange_bounds.
Qed.

End BalanceChangeEffects.

Lemma getTokenBalanceChanges_logs_failures_witness :
  snd (getTokenBalanceChanges (ethers := Examples.ethers) (erc20 := Examples.ledger)
         Examples.registry (Some Examples.sender) None None (mkState ∅ []))
  = mkState ∅ ["Failed to get balance changes for BAD: could not resolve name"].
Proof.
  destruct (getTokenBalanceChanges_logs_failures (ethers := Examples.ethers)
              (erc20 := Examples.ledger) Examples.registry Examples.sender None None
              (mkState ∅ [])) as [Hlog _]; [reflexivity|reflexivity|exact Hlog].
Defined.

(** A token of 81 decimals is left out of the report with a warning. *)
Example getTokenBalanceChanges_wide_token :
  getTokenBalanceChanges (ethers := Examples.ethers) (erc20 := Examples.wideToken)
    (mkTransactionSimulator "http://localhost:8545" None [("WIDE", Examples.usdc)])
    (Some Examples.sender) None None (mkState ∅ [])
  = (Return {| br_address := Examples.sender; br_fromBlock := BlockLatest;
               br_toBlock := BlockLatest; br_changes := [] |},
     mkState ∅ ["Failed to get balance changes for WIDE: "
                +:+ "invalid FixedNumber decimals (too large)"]).
Proof. reflexivity. Qed.

Lemma getTokenBalanceChanges_report_shape_witness :
  exists report,
    fst (getTokenBalanceChanges (ethers := Examples.ethers) (erc20 := Examples.ledger)
           Examples.registry (Some Examples.sender) None (Some (QString "120"))
           (mkState ∅ [])) = Return report /\
    br_fromBlock report = BlockLatest /\
    br_toBlock report = BlockNumber 120 /\
    (List.length (br_changes report) <= 3)%nat.
Proof.
  destruct (getTokenBalanceChanges_report_shape (ethers := Examples.ethers)
              (erc20 := Examples.ledger) Examples.registry Examples.sender
              None (Some (QString "120")) (mkState ∅ []))
    as (report & Hrun & _ & Hfrom & Hto & _ & Hlen & _); [reflexivity|reflexivity|].
  exists report. split; [exact Hrun|]. split; [exact Hfrom|]. split; [exact Hto|exact Hlen].
Defined.

(** ** Block bounds *)

(** X16: A block bound is converted with [b ? parseInt(b) : 'latest']. A missing
    bound, the number 0 and the empty text all mean ['latest'], so block 0
    cannot be named by the number 0, while the text ["0"] does name it. A
    number other than 0 is kept, and its decimal text reads back as that
    number, as long as its magnitude is at most 2^53, the range in which a
    double holds every integer; beyond that range the conversion gives the
    double [parseInt] returns for the bound. A text that does not begin
    with a numeral, such as ["latest"] itself, becomes [NaN]. *)
Theorem blockBound_cases :
  blockBound None = BlockLatest /\
  blockBound (Some (QBigInt 0)) = BlockLatest /\
  blockBound (Some (QString "")) = BlockLatest /\
  blockBound (Some (QString "0")) = BlockNumber 0 /\
  blockBound (Some (QString "latest")) = BlockNaN /\
  (forall n, n <> 0 -> Z.abs n <= 2 ^ 53 ->
     blockBound (Some (QBigInt n)) = BlockNumber n) /\
  (forall n, Z.abs n <= 2 ^ 53 ->
     blockBound (Some (QString (Js.toString n))) = BlockNumber n) /\
  (forall n, 2 ^ 53 < Z.abs n ->
     blockBound (Some (QBigInt n)) = BlockOther (QBigInt n) /\
     blockBound (Some (QString (Js.toString n))) = BlockOther (QString (Js.toString n))).
Proof.
  do 5 (split; [reflexivity|]). split; [|split].
  - intros n Hn Hr. apply namesBlock_blockBound. by constructor.
  - intros n Hr. apply namesBlock_blockBound. by constructor.
  - intros n Hr.
    assert (Hex : exactNumber n = false) by (unfold exactNumber; apply Z.leb_gt; lia).
    assert (Hne : (n =? 0) = false) by (apply Z.eqb_neq; lia).
    unfold blockBound. cbn [truthy_oquantity quantity_truthy].
    by rewrite Hne, toString_truthy, parseInt_toString, Hex.
Qed.

(** ** Analysis of a mined transaction *)

Section AnalyzeMined.
Context {ethers : EthersLibrary} {provider : ChainProvider}
        {erc20 : ERC20Binding} {walletManager : WalletManager}.

(** X17: For a transaction that has a receipt and whose value, gas price and
    gas cost [formatUnits] renders, [analyzeTransaction] returns without
    changing the state. The status is ["Success"] when the receipt's status
    is a non-zero number and ["Failed"] when it is 0 or [null]; the timestamp
    is always ["Unknown"] and [logs] is the number of logs. The amounts
    agree with each other: [gasUsed], [gasPrice.wei] and [gasCost.wei] read
    back as the receipt's gas, the transaction's gas price and their
    product, and the other amounts are the renderings. A missing [to] is
    shown as ["Contract Creation"]. When one of the four renderings throws,
    the operation throws an ["Analysis failed: "] error instead. *)
Theorem analyzeTransaction_mined (txHash : string) (s : State)
    (tx : TransactionResponse) (rc : TransactionReceipt) :
  provider_getTransaction txHash = Return (Some tx) ->
  provider_getTransactionReceipt txHash = Return (Some rc) ->
  match Ethers.formatEther (txr_value tx),
        formatUnits (txr_gasPrice tx) Ethers.gwei,
        formatUnits (rc_gasUsed rc * txr_gasPrice tx) Ethers.gwei,
        Ethers.formatEther (rc_gasUsed rc * txr_gasPrice tx) with
  | Return valueEther, Return gasPriceGwei, Return gwei, Return ether =>
      exists r cost,
        analyzeTransaction txHash s = (Return r, s) /\
        ta_hash r = txHash /\
        ta_status r = match rc_status rc with
                      | Some status => if status =? 0 then "Failed" else "Success"
                      | None => "Failed"
                      end /\
        ta_timestamp r = "Unknown" /\
        ta_logs r = Z.of_nat (List.length (rc_logs rc)) /\
        ta_blockNumber r = NPNumber (rc_blockNumber rc) /\
        (txr_to tx = None -> ta_to r = "Contract Creation") /\
        ta_gasCost r = Some cost /\
        Js.StringToBigInt (ta_gasUsed r) = Some (rc_gasUsed rc) /\
        Js.StringToBigInt (gp_wei (ta_gasPrice r)) = Some (txr_gasPrice tx) /\
        Js.StringToBigInt (gc_wei cost) = Some (rc_gasUsed rc * txr_gasPrice tx) /\
        va_ether (ta_value r) = valueEther /\ gp_gwei (ta_gasPrice r) = gasPriceGwei /\
        gc_gwei cost = gwei /\ gc_ether cost = ether
  | Throw e, _, _, _
  | Return _, Throw e, _, _
  | Return _, Return _, Throw e, _
  | Return _, Return _, Return _, Throw e =>
      analyzeTransaction txHash s
      = (Throw (transactionFailed "Analysis failed: " e [("txHash", DString txHash)]), s)
  end.
Proof.
  intros Htx Hrc. unfold analyzeTransaction, try_catch, bind, await, throw, ret.
  rewrite Htx, Hrc. cbn.
  destruct (Ethers.formatEther (txr_value tx)) as [valueEther|e]; [|done].
  destruct (formatUnits (txr_gasPrice tx) Ethers.gwei) as [gasPriceGwei|e]; [|done].
  cbn.
  destruct (formatUnits (rc_gasUsed rc * txr_gasPrice tx) Ethers.gwei) as [gwei|e]; [|done].
  destruct (Ethers.formatEther (rc_gasUsed rc * txr_gasPrice tx)) as [ether|e]; [|done].
  cbn. eexists _, _. split; [reflexivity|]. cbn.
  split; [done|].
  split; [destruct (rc_status rc) as [status|]; cbn; [by destruct (status =? 0)|done]|].
  split; [done|]. split; [done|]. split; [done|].
  split; [by intros ->|]. split; [reflexivity|]. cbn.
  by rewrite !StringToBigInt_toString.
Qed.

End AnalyzeMined.

Lemma analyzeTransaction_mined_witness :
  exists r,
    analyzeTransaction (ethers := Examples.ethers) (provider := Examples.minedNode)
      "0xabc" (mkState ∅ [])
    = (Return r, mkState ∅ []) /\
    ta_status r = "Success" /\ ta_logs r = 1 /\
    ta_gasCost r = Some {| gc_wei := "630000"; gc_gwei := "0.00063";
                           gc_ether := "0.00000000000063" |}.
Proof.
  pose proof (analyzeTransaction_mined (ethers := Examples.ethers)
                (provider := Examples.minedNode) "0xabc"
                (mkState ∅ []) Examples.pendingTx Examples.minedReceipt
                eq_refl eq_refl) as Hmined.
  hnf in Hmined.
  destruct Hmined as (r & cost & Hrun & _ & Hstatus & _ & Hlogs & _ & _ & Hcost & _).
  exists r. split; [exact Hrun|]. split; [exact Hstatus|]. split; [exact Hlogs|].
  injection Hrun as <-. reflexivity.
Defined.

(** ** The estimated address of a contract creation *)

Lemma lower_hex_char_value (c : ascii) :
  lower_hex_char c = true ->
  Js.lower_ascii c = c /\ exists x, Js.digit_value c = Some x /\ (x <? 16) = true.
Proof.
  destruct c as [[] [] [] [] [] [] [] []]; try discriminate; intros _;
    (split; [reflexivity|eexists; split; reflexivity]).
Qed.

Lemma hex_char_lower (c : ascii) : hex_char c = true -> lower_hex_char (Js.lower_ascii c) = true.
Proof. destruct c as [[] [] [] [] [] [] [] []]; try discriminate; reflexivity. Qed.

Lemma digit_lower_hex (c : ascii) :
  ((48 <=? N_of_ascii c) && (N_of_ascii c <=? 57))%N = true -> lower_hex_char c = true.
Proof. unfold lower_hex_char. by intros ->. Qed.

Lemma string_app_cons (c : ascii) (a b : string) : String c a +:+ b = String c (a +:+ b).
Proof. reflexivity. Qed.

Lemma all_chars_app (p : ascii -> bool) (a b : string) :
  all_chars p (a +:+ b) = all_chars p a && all_chars p b.
Proof.
  induction a as [|c a IH]; [done|].
  rewrite string_app_cons. cbn [all_chars]. by rewrite IH, andb_assoc.
Qed.

Lemma all_digits_lower_hex (s : string) :
  all_digits s = true -> all_chars lower_hex_char s = true.
Proof.
  induction s as [|c s IH]; [done|]. cbn. intros [Hc Hs]%andb_true_iff.
  by rewrite (digit_lower_hex c Hc), IH.
Qed.

Lemma toLowerCase_hex (s : string) :
  all_chars hex_char s = true -> all_chars lower_hex_char (Js.toLowerCase s) = true.
Proof.
  induction s as [|c s IH]; [done|]. cbn. intros [Hc Hs]%andb_true_iff.
  by rewrite (hex_char_lower c Hc), IH.
Qed.

Lemma toLowerCase_length (s : string) : String.length (Js.toLowerCase s) = String.length s.
Proof. induction s as [|c s IH]; [done|]. cbn. by rewrite IH. Qed.

Lemma string_of_uint_lower_hex (d : Hexadecimal.uint) :
  all_chars lower_hex_char (HexadecimalString.NilEmpty.string_of_uint d) = true.
Proof. induction d; cbn; done. Qed.

Lemma toString16_lower_hex (n : Z) :
  0 <= n -> all_chars lower_hex_char (Js.toString16 n) = true.
Proof.
  intros Hn. unfold Js.toString16, Z.to_hex_int.
  destruct n as [|p|p]; [done| |lia].
  cbn [HexadecimalString.NilZero.string_of_int].
  unfold HexadecimalString.NilZero.string_of_uint.
  destruct (Pos.to_hex_uint p); try done; apply string_of_uint_lower_hex.
Qed.

Lemma toString_digits (n : Z) : 0 <= n -> all_digits (Js.toString n) = true.
Proof.
  intros Hn. unfold Js.toString. destruct n as [|p|p]; [done| |lia].
  change (pretty (Z.pos p)) with (pretty (N.pos p)).
  by destruct (parse_numeral_pretty p) as (_ & ? & _).
Qed.

Lemma string_of_list_repeat (c : ascii) (k : nat) :
  String.length (string_of_list_ascii (repeat c k)) = k /\
  forall p, p c = true -> all_chars p (string_of_list_ascii (repeat c k)) = true.
Proof.
  induction k as [|k [IHl IHp]]; [done|]. cbn. split; [by rewrite IHl|].
  intros p Hp. by rewrite Hp, IHp.
Qed.

Lemma padStart_hex (h : string) :
  (String.length h <= 64)%nat -> all_chars lower_hex_char h = true ->
  String.length (Js.padStart 64 "0" h) = 64%nat /\
  all_chars lower_hex_char (Js.padStart 64 "0" h) = true.
Proof.
  intros Hlen Hh. unfold Js.padStart.
  destruct (string_of_list_repeat "0" (64 - String.length h)) as [Hl Hp].
  rewrite string_length_app, all_chars_app, Hl, Hh, Hp by done. split; [lia|done].
Qed.

Lemma substring_prefix_length (m : nat) (s : string) :
  (m <= String.length s)%nat -> String.length (String.substring 0 m s) = m.
Proof.
  revert m. induction s as [|c s IH]; intros [|m] Hm; cbn in *; try done; try lia.
  rewrite IH; [done|lia].
Qed.

Lemma substring_of_prefix (a k m : nat) (s : string) :
  (a + k <= m)%nat ->
  String.substring a k (String.substring 0 m s) = String.substring a k s.
Proof.
  revert a k m. induction s as [|c s IH]; intros a k m Hm.
  - by destruct m, a, k.
  - destruct m as [|m].
    + assert (a = 0%nat /\ k = 0%nat) as [-> ->] by lia. done.
    + cbn [String.substring]. destruct a as [|a].
      * destruct k as [|k]; [done|]. cbn [String.substring]. f_equal.
        apply (IH 0%nat k m). lia.
      * cbn [String.substring]. apply IH. lia.
Qed.

Lemma substring_past_prefix (x y : string) (j k : nat) :
  String.substring (String.length x + j) k (x +:+ y) = String.substring j k y.
Proof. induction x as [|c x IH]; [done|]. rewrite string_app_cons. apply IH. Qed.

Lemma string_app_assoc (a b c : string) : (a +:+ b) +:+ c = a +:+ (b +:+ c).
Proof. induction a as [|x a IH]; [done|]. rewrite !string_app_cons. by f_equal. Qed.

Lemma bufferFromHex_lower_hex (s : string) :
  all_chars lower_hex_char s = true ->
  Js.bufferFromHex s = String.substring 0 (2 * (String.length s / 2)) s.
Proof.
  remember (String.length s) as n eqn:Hn. revert s Hn.
  induction (lt_wf n) as [n _ IH]. intros s -> Hs.
  destruct s as [|a [|b t]]; [done|done|].
  cbn [all_chars] in Hs. apply andb_true_iff in Hs as [Ha Hs].
  apply andb_true_iff in Hs as [Hb Ht].
  destruct (lower_hex_char_value a Ha) as (Hla & x & Hx & Hx16).
  destruct (lower_hex_char_value b Hb) as (Hlb & y & Hy & Hy16).
  cbn [Js.bufferFromHex]. rewrite Hx, Hy, Hx16, Hy16, Hla, Hlb. cbn [andb].
  rewrite (IH (String.length t)) by (cbn; lia || done).
  cbn [String.length].
  replace (S (S (String.length t)) / 2)%nat with (S (String.length t / 2)).
  2:{ change (S (S (String.length t))) with (1 * 2 + String.length t)%nat.
      rewrite Nat.div_add_l by lia. lia. }
  replace (2 * S (String.length t / 2))%nat with (S (S (2 * (String.length t / 2)))) by lia.
  done.
Qed.

Lemma slice_from_last (k : nat) (s : string) :
  (0 < k <= String.length s)%nat ->
  Js.slice_from (- Z.of_nat k) s = String.substring (String.length s - k) k s.
Proof.
  intros Hk. unfold Js.slice_from.
  assert ((- Z.of_nat k <? 0) = true) as -> by (apply Z.ltb_lt; lia).
  rewrite Z.max_l by lia. f_equal; lia.
Qed.

(** The estimated address is 40 digits of the padded nonce. *)
Lemma estimatedAddressOf_padded_nonce (chainId nonce : Z) (sender : string) :
  0 <= chainId -> 0 <= nonce ->
  (String.length (Js.toString16 nonce) <= 64)%nat ->
  hexAddress sender ->
  estimatedAddressOf chainId sender nonce
  = "0x" +:+ String.substring
               (if Nat.even (String.length (Js.toString chainId)) then 24 else 23) 40
               (Js.padStart 64 "0" (Js.toString16 nonce)).
Proof.
  intros Hc Hn Hlen [Hs42 Hhex]. unfold estimatedAddressOf. f_equal.
  set (C := Js.toString chainId). set (A := Js.toLowerCase (Js.slice_from 2 sender)).
  set (P := Js.padStart 64 "0" (Js.toString16 nonce)).
  destruct (padStart_hex (Js.toString16 nonce) Hlen (toString16_lower_hex nonce Hn))
    as [HPlen HPhex]. fold P in HPlen, HPhex.
  assert (HAlen : String.length A = 40%nat).
  { unfold A. rewrite toLowerCase_length. unfold Js.slice_from. rewrite Hs42. cbn.
    destruct (substring_split 2 sender ltac:(lia)) as [_ Hl]. by rewrite Hs42 in Hl. }
  assert (HAhex : all_chars lower_hex_char A = true) by (by apply toLowerCase_hex).
  assert (HChex : all_chars lower_hex_char C = true)
    by (by apply all_digits_lower_hex, toString_digits).
  set (S := C +:+ A +:+ P).
  assert (HSlen : String.length S = (String.length C + 104)%nat).
  { unfold S. rewrite !string_length_app. lia. }
  assert (HShex : all_chars lower_hex_char S = true).
  { unfold S. by rewrite !all_chars_app, HChex, HAhex, HPhex. }
  rewrite (bufferFromHex_lower_hex S HShex).
  set (m := (2 * (String.length S / 2))%nat).
  assert (Hm : m = if Nat.even (String.length C) then (String.length C + 104)%nat
                   else (String.length C + 103)%nat).
  { unfold m. rewrite HSlen. destruct (Nat.even (String.length C)) eqn:He.
    - apply Nat.even_spec in He as [k ->].
      replace (2 * k + 104)%nat with ((k + 52) * 2)%nat by lia.
      rewrite Nat.div_mul by lia. lia.
    - assert (Ho : Nat.odd (String.length C) = true).
      { by rewrite <- Nat.negb_even, He. }
      apply Nat.odd_spec in Ho as [k ->].
      replace (2 * k + 1 + 104)%nat with (1 + (k + 52) * 2)%nat by lia.
      rewrite Nat.div_add by lia. cbn. lia. }
  assert (Hmle : (m <= String.length S)%nat).
  { rewrite Hm, HSlen. destruct (Nat.even _); lia. }
  unfold Js.bufferLastBytesHex. change (- (2 * 20)) with (- Z.of_nat 40).
  rewrite slice_from_last; rewrite substring_prefix_length by done;
    [|rewrite Hm; destruct (Nat.even _); lia].
  rewrite substring_of_prefix by (rewrite Hm; destruct (Nat.even _); lia).
  unfold S. rewrite <- string_app_assoc.
  replace (m - 40)%nat
    with (String.length (C +:+ A)
          + (if Nat.even (String.length C) then 24 else 23))%nat.
  2:{ rewrite string_length_app, HAlen, Hm. destruct (Nat.even _); lia. }
  by rewrite substring_past_prefix.
Qed.

Section CreationAddress.
Context {ethers : EthersLibrary} {provider : ChainProvider}
        {erc20 : ERC20Binding} {walletManager : WalletManager}.

(** X12: The address the contract-creation block estimates does not depend on
    the sender. For a creation request whose sender is an address, on a
    node that reports a nonce whose hexadecimal numeral has at most 64
    digits, the block appends one entry, and its [estimatedAddress] is
    ["0x"] followed by 40 digits of the nonce padded to 64 digits: the last
    40 when the decimal numeral of the chain id has an even number of
    digits, and the 40 before the last one when that number is odd (the odd
    character of the concatenation is dropped by the hexadecimal
    decoding). *)
Theorem contractCreation_address_ignores_sender (txToSimulate : loc) (s : State)
    (r : SimulationResult) (t : TxRequest) (sender : string) (chainId nonce : Z) :
  heap s !! txToSimulate = Some t ->
  Js.truthy_ostring (tx_to t) = false ->
  Js.truthy_ostring (tx_data t) = true ->
  tx_from t = Some sender -> hexAddress sender ->
  provider_network_chainId = Return chainId -> 0 <= chainId ->
  provider_getTransactionCount (Some sender) = Return nonce -> 0 <= nonce ->
  (String.length (Js.toString16 nonce) <= 64)%nat ->
  exists r' c,
    contractCreation txToSimulate r s = (Return r', s) /\
    contractInteractions r' = contractInteractions r ++ [c] /\
    ci_estimatedAddress c
    = "0x" +:+ String.substring
                 (if Nat.even (String.length (Js.toString chainId)) then 24 else 23) 40
                 (Js.padStart 64 "0" (Js.toString16 nonce)).
Proof.
  intros Hl Hto Hdata Hfrom Hsender Hchain Hc Hnonce Hn Hlen.
  pose proof (contractCreation_exact txToSimulate r s) as H. unfold wp in H.
  rewrite (deref_Some _ _ _ Hl) in H. unfold creationEntries in H.
  rewrite Hto, Hdata, Hfrom, Hnonce, Hchain in H. cbn [negb andb] in H.
  destruct (contractCreation txToSimulate r s) as [[r'|e] s']; [|by destruct H].
  destruct H as (-> & created & [= <-] & ->).
  eexists _, _. split; [done|]. split; [done|]. cbn [ci_estimatedAddress].
  by apply estimatedAddressOf_padded_nonce.
Qed.

End CreationAddress.

Lemma contractCreation_address_ignores_sender_witness :
  exists r' c,
    contractCreation (provider := Examples.steadyNode) 1%positive initialResult
      (Examples.callerHeap Examples.creationRequest)
    = (Return r', Examples.callerHeap Examples.creationRequest) /\
    contractInteractions r' = [c] /\
    ci_estimatedAddress c = "0x0000000000000000000000000000000000000000".
Proof.
  destruct (contractCreation_address_ignores_sender (provider := Examples.steadyNode)
              1%positive (Examples.callerHeap Examples.creationRequest) initialResult
              Examples.creationRequest Examples.sender 137 7)
    as (r' & c & Hrun & Hentries & Haddress);
    [reflexivity|reflexivity|reflexivity|reflexivity|split; reflexivity|reflexivity|lia
    |reflexivity|lia|vm_compute; lia|].
  exists r', c. split; [exact Hrun|]. split; [exact Hentries|]. exact Haddress.
Defined.

(** ** The logger *)

Section LoggerProperties.
Context {host : Logger.Host}.

Lemma currentLogLevel_cases (env : option string) :
  Logger.currentLogLevel env
  = if String.eqb (Logger.toUpperCase (default "" env)) "WARN" then 1
    else if String.eqb (Logger.toUpperCase (default "" env)) "DEBUG" then 3
    else 2.
Proof.
  unfold Logger.currentLogLevel, Logger.LOG_LEVELS.
  destruct env as [[|c v]|]; [done| |done].
  cbn [Js.truthy_ostring Js.truthy_string String.eqb negb default from_option id].
  set (u := Logger.toUpperCase (String c v)).
  destruct (String.eqb_spec u "ERROR") as [->|]; [done|].
  destruct (String.eqb_spec u "WARN"); [done|].
  destruct (String.eqb_spec u "INFO") as [->|]; [done|].
  by destruct (String.eqb_spec u "DEBUG").
Qed.

(** X18: The log level read from [LOG_LEVEL] is never the level of errors: it is
    1 when the variable says WARN (in any case), 3 when it says DEBUG, and
    the default 2 for every other value, ERROR included, because the level
    0 is taken for a missing one. So whatever the environment, an error or a
    warning is logged exactly as without the variable; an informational
    line is dropped only under WARN and a debug line is kept only under
    DEBUG. *)
Theorem log_level_never_silences_warnings (env : option string) (self : Logger.Logger)
    (message : string) (s : Logger.LogState) :
  (Logger.currentLogLevel env = 1 \/ Logger.currentLogLevel env = 2 \/
   Logger.currentLogLevel env = 3) /\
  Logger.currentLogLevel (Some "ERROR") = 2 /\
  Logger.error env self message s = Logger.error None self message s /\
  Logger.warn env self message s = Logger.warn None self message s /\
  (Logger.info env self message s =
     if String.eqb (Logger.toUpperCase (default "" env)) "WARN" then s
     else Logger.info None self message s) /\
  (Logger.debug env self message s =
     if String.eqb (Logger.toUpperCase (default "" env)) "DEBUG"
     then Logger.debug (Some "DEBUG") self message s
     else s).
Proof.
  unfold Logger.error, Logger.warn, Logger.info, Logger.debug, Logger.log.
  rewrite !currentLogLevel_cases. cbn [default from_option id Logger.toUpperCase].
  destruct (String.eqb_spec (Logger.toUpperCase (default "" env)) "WARN") as [->|].
  - cbn. auto 10.
  - destruct (String.eqb (Logger.toUpperCase (default "" env)) "DEBUG"); cbn; auto 10.
Qed.

(** The line a write leaves: the append, or the report of its failure. *)
Lemma writeToLogFile_outputs content filename s :
  Logger.outputs (Logger.writeToLogFile content filename s)
  = Logger.outputs s ++
    [match Logger.appendFileSync filename content with
     | Return _ => Logger.Appended filename content
     | Throw e => Logger.ConsoleError ("Failed to write to log file " +:+ filename
                                       +:+ ": " +:+ message e)
     end].
Proof. unfold Logger.writeToLogFile. by destruct (Logger.appendFileSync _ _). Qed.

(** X19: A logger that writes files puts every error entry into [combined.log]
    and then, with the same text, into [error.log]; an entry of any other
    level that passes the threshold goes to [combined.log] only. A write
    that fails is reported on the console and does not stop the next
    one. *)
Theorem error_entries_go_to_both_files (env : option string) (self : Logger.Logger)
    (level : Logger.Level) (message : string) (s : Logger.LogState) :
  Logger.logToFile self = true ->
  default 0 (Logger.LOG_LEVELS (Logger.level_name level)) <= Logger.currentLogLevel env ->
  let written filename content :=
    match Logger.appendFileSync filename content with
    | Return _ => Logger.Appended filename content
    | Throw e => Logger.ConsoleError ("Failed to write to log file " +:+ filename
                                      +:+ ": " +:+ Errors.message e)
    end in
  exists before entry,
    Logger.outputs (Logger.log env self level message s)
    = before ++ written "combined.log" entry ::
      match level with
      | Logger.ERROR => [written "error.log" entry]
      | _ => []
      end /\
    (before = Logger.outputs s \/
     exists line, before = Logger.outputs s ++ [Logger.ConsoleLog line]).
Proof.
  intros Hfile Hlevel written. unfold Logger.log. rewrite Hfile.
  rewrite (proj2 (Z.leb_le _ _) Hlevel).
  set (s1 := if Logger.logToConsole self then _ else s).
  assert (Hs1 : Logger.outputs s1 = Logger.outputs s \/
                exists line, Logger.outputs s1 = Logger.outputs s ++ [Logger.ConsoleLog line]).
  { unfold s1. destruct (Logger.logToConsole self); [|by left].
    right. unfold Logger.consoleOutput, Logger.formatTimestamp, Logger.emit. cbn.
    by eexists. }
  unfold Logger.formatLogEntry, Logger.formatTimestamp.
  set (entry := Logger.JSON_stringify _ +:+ Logger.newline).
  exists (Logger.outputs s1), entry. split; [|done].
  destruct level; rewrite ?writeToLogFile_outputs; cbn [Logger.outputs];
    rewrite <- ?app_assoc; done.
Qed.

End LoggerProperties.

Lemma error_entries_go_to_both_files_witness :
  let host := {| Logger.toISOString := fun _ => "2024-01-01T00:00:00.000Z";
                 Logger.JSON_stringify := fun fields => Templates.join ";" (fields.*2);
                 Logger.appendFileSync := fun filename _ =>
                   if String.eqb filename "error.log"
                   then Throw (Error "EACCES: permission denied")
                   else Return tt |} in
  exists before entry,
    Logger.outputs
      (Logger.log (host := host) (Some "error") (Logger.mkLogger "polygon-mcp" false true)
         Logger.ERROR "boom" (Logger.mkLogState 0 []))
    = before ++
      [Logger.Appended "combined.log" entry;
       Logger.ConsoleError "Failed to write to log file error.log: EACCES: permission denied"]
    /\ (before = [] \/ exists line, before = [] ++ [Logger.ConsoleLog line]).
Proof.
  intros host.
  apply (error_entries_go_to_both_files (host := host) (Some "error")
           (Logger.mkLogger "polygon-mcp" false true) Logger.ERROR "boom"
           (Logger.mkLogState 0 [])); [reflexivity|vm_compute; discriminate].
Defined.

(** ** Compilation, deployment and verification of contracts *)

Section TemplateProperties.
Context {ethers : EthersLibrary} {provider : ChainProvider}
        {walletManager : WalletManager} {compiler : Templates.Compiler}
        {deployer : Templates.Deployer} {walletStore : Templates.WalletStore}.

Lemma forEach_warnings (f : Templates.Diagnostic -> string) (l : list Templates.Diagnostic) :
  Templates.forEach (fun d => Templates.emit (Templates.Warned (f d))) l
  = (Return tt, Templates.Warned <$> (f <$> l)).
Proof.
  induction l as [|d l IH]; [done|].
  cbn [Templates.forEach]. unfold Templates.bind, Templates.emit in *. by rewrite IH.
Qed.

(** The error [compileContract] makes of a cause. *)
Lemma compileContract_run (source contractName : string) :
  let failed cause :=
    Throw (createTransactionError "CONTRACT_ERROR" ("Compilation failed: " +:+ message cause)
             [("contractName", DString contractName)]) in
  Templates.compileContract source contractName
  = match Templates.solc_compile source with
    | Throw e => (failed e, [])
    | Return output =>
        let diagnostics := default [] (Templates.output_errors output) in
        let errors :=
          filter (fun d => String.eqb (Templates.severity d) "error") diagnostics in
        if (0 <? List.length errors)%nat then
          (failed (Error ("Compilation errors: "
                          +:+ Templates.join ", " (Templates.diag_message <$> errors))), [])
        else
          (match Templates.output_contracts output with
           | None =>
               failed (TypeError
                         "Cannot read properties of undefined (reading 'contract.sol')")
           | Some files =>
               match files !! "contract.sol" with
               | None =>
                   failed (TypeError ("Cannot read properties of undefined (reading '"
                                      +:+ contractName +:+ "')"))
               | Some contracts =>
                   match contracts !! contractName with
                   | Some co =>
                       Return {| Templates.abi := Templates.out_abi co;
                                 Templates.bytecode := Templates.out_bytecode co;
                                 Templates.deployedBytecode :=
                                   Templates.out_deployedBytecode co;
                                 Templates.metadata := Templates.out_metadata co |}
                   | None =>
                       if bool_decide (contractName ∈ Templates.objectPrototypeNames)
                       then failed (TypeError
                              "Cannot read properties of undefined (reading 'bytecode')")
                       else failed (Error ("Contract " +:+ contractName
                                           +:+ " not found in compiled output"))
                   end
               end
           end,
           Templates.Warned
             <$> ((fun d => "Compilation warning: " +:+ Templates.diag_message d)
                    <$> filter (fun d => String.eqb (Templates.severity d) "warning")
                          diagnostics))
    end.
Proof.
  cbn zeta. unfold Templates.compileContract, Templates.try_catch, Templates.bind,
    Templates.await, Templates.throw, Templates.ret.
  destruct (Templates.solc_compile source) as [output|e]; [|done].
  destruct (Templates.output_errors output) as [diagnostics|]; cbn [default from_option id].
  - destruct (0 <? _)%nat; [done|]. rewrite forEach_warnings.
    destruct (Templates.output_contracts output) as [files|]; [|by rewrite !app_nil_r].
    destruct (files !! "contract.sol") as [contracts|]; [|by rewrite !app_nil_r].
    destruct (contracts !! contractName); [by rewrite !app_nil_r|].
    destruct (bool_decide _); by rewrite !app_nil_r.
  - cbn. destruct (Templates.output_contracts output) as [files|]; [|done].
    destruct (files !! "contract.sol") as [contracts|]; [|done].
    destruct (contracts !! contractName); [done|].
    by destruct (bool_decide _).
Qed.

(** X20: [compileContract] returns exactly when the compiler ran, reported no
    diagnostic of severity ["error"], and its output holds the named
    contract for the source file; the result is then that contract's ABI,
    bytecode, deployed bytecode and metadata. Every failure, whatever its
    cause, is thrown as a [TransactionError] with code [CONTRACT_ERROR], a
    message that begins with ["Compilation failed: "] and the contract name
    as its details. *)
Theorem compileContract_outcome (source contractName : string) :
  ((exists compiled, (Templates.compileContract source contractName).1 = Return compiled) <->
   exists output files contracts co,
     Templates.solc_compile source = Return output /\
     Forall (fun d => Templates.severity d <> "error")
       (default [] (Templates.output_errors output)) /\
     Templates.output_contracts output = Some files /\
     files !! "contract.sol" = Some contracts /\
     contracts !! contractName = Some co) /\
  (forall compiled,
     (Templates.compileContract source contractName).1 = Return compiled ->
     exists output files contracts co,
       Templates.solc_compile source = Return output /\
       Templates.output_contracts output = Some files /\
       files !! "contract.sol" = Some contracts /\
       contracts !! contractName = Some co /\
       compiled = {| Templates.abi := Templates.out_abi co;
                     Templates.bytecode := Templates.out_bytecode co;
                     Templates.deployedBytecode := Templates.out_deployedBytecode co;
                     Templates.metadata := Templates.out_metadata co |}) /\
  (forall e,
     (Templates.compileContract source contractName).1 = Throw e ->
     name e = "TransactionError" /\ code e = Some "CONTRACT_ERROR" /\
     (exists cause, message e = "Compilation failed: " +:+ cause) /\
     details e = [("contractName", DString contractName)]).
Proof.
  rewrite compileContract_run. cbn zeta.
  assert (Herrors : forall diagnostics,
            (0 <? List.length (filter (fun d => String.eqb (Templates.severity d) "error")
                                 diagnostics))%nat = false <->
            Forall (fun d => Templates.severity d <> "error") diagnostics).
  { intros ds. induction ds as [|d ds IH]; [done|].
    rewrite Forall_cons, <- IH. cbn [filter list_filter].
    destruct (decide _) as [Heq|Hne].
    - apply Is_true_true, String.eqb_eq in Heq. cbn. split; [done|]. by intros [? _].
    - split; [intros ?; split; [|done]|by intros [_ ?]].
      intros Heq. apply Hne, Is_true_true. by apply String.eqb_eq. }
  destruct (Templates.solc_compile source) as [output|e0].
  2:{ cbn. split; [|split].
      - split; [by intros [? ?]|by intros (? & ? & ? & ? & ? & _)].
      - done.
      - intros e [= <-]. cbn. eauto. }
  specialize (Herrors (default [] (Templates.output_errors output))).
  destruct (0 <? _)%nat eqn:Hcount.
  { cbn. split; [|split].
    - split; [by intros [? ?]|].
      intros (? & ? & ? & ? & [= <-] & Hall & _). apply Herrors in Hall. congruence.
    - done.
    - intros e [= <-]. cbn. eauto. }
  cbn [fst].
  destruct (Templates.output_contracts output) as [files|] eqn:Hfiles.
  2:{ split; [|split].
      - split; [by intros [? ?]|].
        intros (? & ? & ? & ? & [= <-] & _ & ? & _). congruence.
      - done.
      - intros e [= <-]. cbn. eauto. }
  destruct (files !! "contract.sol") as [contracts|] eqn:Hfile.
  2:{ split; [|split].
      - split; [by intros [? ?]|].
        intros (o & f & c & co & [= <-] & _ & Hf & Hc & _).
        rewrite Hfiles in Hf. injection Hf as <-. congruence.
      - done.
      - intros e [= <-]. cbn. eauto. }
  destruct (contracts !! contractName) as [co|] eqn:Hco.
  - split; [|split].
    + split; [|by eauto]. intros _. exists output, files, contracts, co.
      split; [done|]. split; [by apply Herrors|done].
    + intros compiled [= <-]. by exists output, files, contracts, co.
    + done.
  - split; [|split].
    + split; [destruct (bool_decide _); by intros [? ?]|].
      intros (o & f & c & co' & [= <-] & _ & Hf & Hc & Hn).
      rewrite Hfiles in Hf. injection Hf as <-. congruence.
    + by destruct (bool_decide _).
    + destruct (bool_decide _); intros e [= <-]; cbn; eauto.
Qed.

(** X21: The warnings of the compiler are logged, one line for each diagnostic
    of severity ["warning"] and in their order, exactly when there is no
    diagnostic of severity ["error"]; they are logged even if the contract
    is then not found. Nothing else is logged, and nothing at all when the
    compiler reports an error or cannot be run. *)
Theorem compileContract_warnings (source contractName : string) :
  (Templates.compileContract source contractName).2
  = match Templates.solc_compile source with
    | Throw _ => []
    | Return output =>
        let diagnostics := default [] (Templates.output_errors output) in
        if existsb (fun d => String.eqb (Templates.severity d) "error") diagnostics
        then []
        else
          (fun d => Templates.Warned ("Compilation warning: " +:+ Templates.diag_message d))
            <$> filter (fun d => String.eqb (Templates.severity d) "warning") diagnostics
    end.
Proof.
  rewrite compileContract_run. cbn zeta.
  destruct (Templates.solc_compile source) as [output|e0]; [|done].
  set (ds := default [] (Templates.output_errors output)).
  assert (Hcount : (0 <? List.length (filter (fun d => String.eqb (Templates.severity d) "error")
                                        ds))%nat
                   = existsb (fun d => String.eqb (Templates.severity d) "error") ds).
  { induction ds as [|d ds IH]; [done|]. cbn [filter list_filter existsb].
    destruct (decide _) as [Heq|Hne].
    - apply Is_true_true in Heq. by rewrite Heq.
    - apply Is_true_false in Hne. by rewrite Hne. }
  rewrite Hcount. destruct (existsb _ _); [done|]. cbn [snd].
  by rewrite <- list_fmap_compose.
Qed.

Ltac templates_unfold :=
  unfold Templates.deployContract, Templates.deployCompiledContract,
    Templates.checkWalletConnected, Templates.try_catch, Templates.bind,
    Templates.await, Templates.throw, Templates.ret, Templates.emit in *.

(** X22: [deployCompiledContract] calls [wallet.sendTransaction] at most once,
    and only after the deploy transaction was built and the node estimated
    its gas [E]; the transaction it sends carries the deploy data and the
    gas limit [E * 120 / 100], rounded towards zero. It returns only when
    the broadcast and the wait for the receipt succeeded, with the receipt's
    address and hash and the numeral of its gas. Every failure inside the
    deployment is thrown as a [TransactionError] with code [CONTRACT_ERROR]
    and a message that begins with ["Contract deployment failed: "], also
    when the transaction has been sent already; without a wallet argument,
    a missing connection or a failing wallet lookup is thrown as it is,
    before anything else happens. *)
Theorem deployCompiledContract_broadcast (self : Templates.ContractTemplates)
    (contractName : string) (abi : list Templates.AbiItem) (bytecode : string)
    (constructorArgs : list string) (wallet : option Templates.Wallet) :
  let run := Templates.deployCompiledContract self contractName abi bytecode
               constructorArgs wallet in
  (run.2 = [] \/
   exists w data E,
     run.2 = [Templates.Sent w data (addGasBuffer E)] /\
     Templates.factory_getDeployTransaction abi ("0x" +:+ bytecode) constructorArgs
     = Return data /\
     provider_estimateGas
       (mkTx (Some (Templates.wallet_address w)) None None (Some data) None None None None)
     = Return E /\
     (wallet = Some w \/
      wallet = None /\ Templates.getWallet (Templates.networkName self) = Return (Some w))) /\
  (forall d, run.1 = Return d ->
     exists w data gasLimit tx receipt,
       run.2 = [Templates.Sent w data gasLimit] /\
       Templates.wallet_sendTransaction w data gasLimit = Return tx /\
       Templates.tx_wait tx = Return receipt /\
       Templates.address d = Templates.receipt_contractAddress receipt /\
       Templates.transactionHash d = Templates.receipt_hash receipt /\
       Js.StringToBigInt (Templates.deployed_gasUsed d)
       = Some (Templates.receipt_gasUsed receipt) /\
       Templates.contractName d = contractName /\
       Templates.constructorArgs d = constructorArgs) /\
  (forall e, run.1 = Throw e ->
     (name e = "TransactionError" /\ code e = Some "CONTRACT_ERROR" /\
      (exists cause, message e = "Contract deployment failed: " +:+ cause) /\
      details e = [("contractName", DString contractName)]) \/
     (wallet = None /\ run.2 = [] /\
      (isWalletConnected (Templates.networkName self) = false /\
       name e = "WalletError" /\ code e = Some "WALLET_NOT_CONNECTED" \/
       Templates.getWallet (Templates.networkName self) = Throw e))).
Proof.
  cbn zeta. templates_unfold.
  destruct wallet as [w|].
  - destruct (Templates.factory_getDeployTransaction _ _ _) as [data|e0] eqn:Hdata; cbn.
    2:{ split; [by left|]. split; [done|]. intros e [= <-]. left. cbn. eauto. }
    destruct (provider_estimateGas _) as [E|e0] eqn:HE; cbn.
    2:{ split; [by left|]. split; [done|]. intros e [= <-]. left. cbn. eauto. }
    destruct (Templates.wallet_sendTransaction _ _ _) as [tx|e0] eqn:Htx; cbn.
    2:{ split; [right; by eauto 10|]. split; [done|]. intros e [= <-]. left. cbn. eauto. }
    destruct (Templates.tx_wait tx) as [receipt|e0] eqn:Hwait; cbn.
    2:{ split; [right; by eauto 10|]. split; [done|]. intros e [= <-]. left. cbn. eauto. }
    split; [right; by eauto 10|]. split; [|done].
    intros d [= <-]. cbn. exists w, data, (addGasBuffer E), tx, receipt.
    rewrite StringToBigInt_toString. done.
  - destruct (isWalletConnected _) eqn:Hconn; cbn.
    2:{ split; [by left|]. split; [done|]. intros e [= <-]. right. cbn. auto 10. }
    destruct (Templates.getWallet _) as [[w|]|e0] eqn:Hw; cbn.
    3:{ split; [by left|]. split; [done|]. intros e [= <-]. right. auto 10. }
    2:{ destruct (Templates.factory_getDeployTransaction _ _ _) as [data|e0]; cbn;
          (split; [by left|]; split; [done|]; intros e [= <-]; left; cbn; eauto). }
    destruct (Templates.factory_getDeployTransaction _ _ _) as [data|e0] eqn:Hdata; cbn.
    2:{ split; [by left|]. split; [done|]. intros e [= <-]. left. cbn. eauto. }
    destruct (provider_estimateGas _) as [E|e0] eqn:HE; cbn.
    2:{ split; [by left|]. split; [done|]. intros e [= <-]. left. cbn. eauto. }
    destruct (Templates.wallet_sendTransaction _ _ _) as [tx|e0] eqn:Htx; cbn.
    2:{ split; [right; by eauto 10|]. split; [done|]. intros e [= <-]. left. cbn. eauto. }
    destruct (Templates.tx_wait tx) as [receipt|e0] eqn:Hwait; cbn.
    2:{ split; [right; by eauto 10|]. split; [done|]. intros e [= <-]. left. cbn. eauto. }
    split; [right; by eauto 10|]. split; [|done].
    intros d [= <-]. cbn. exists w, data, (addGasBuffer E), tx, receipt.
    rewrite StringToBigInt_toString. done.
Qed.

Lemma compileContract_events (source contractName : string) (ev : Templates.Event) :
  ev ∈ (Templates.compileContract source contractName).2 -> exists line, ev = Templates.Warned line.
Proof.
  rewrite compileContract_run. cbn zeta.
  destruct (Templates.solc_compile source) as [output|e0]; [|by intros ?%elem_of_nil].
  destruct (0 <? _)%nat; [by intros ?%elem_of_nil|]. cbn [snd].
  intros (line & -> & _)%list_elem_of_fmap. by eexists.
Qed.

Lemma compileContract_error_custom (source contractName : string) (e : JsError) :
  (Templates.compileContract source contractName).1 = Throw e ->
  Templates.isCustomError e = true.
Proof.
  rewrite compileContract_run. cbn zeta.
  destruct (Templates.solc_compile source) as [output|e0]; [|by intros [= <-]].
  destruct (0 <? _)%nat; [by intros [= <-]|]. cbn [fst].
  repeat case_match; by intros [= <-].
Qed.

Ltac sent_cases Hev Hin :=
  cbn in Hin; rewrite ?app_nil_r in Hin;
  repeat match type of Hin with
         | _ ∈ _ ++ _ => apply elem_of_app in Hin as [Hin|Hin]
         end;
  first [ by apply elem_of_nil in Hin
        | by destruct (Hev _ Hin)
        | apply list_elem_of_singleton in Hin as [= -> -> ->]
        | idtac ].

(** X23: [deployContract] checks the wallet connection before anything else:
    without a connection it throws a [WalletError] with code
    [WALLET_NOT_CONNECTED] and nothing has been compiled, logged or sent.
    With a connection, a failure of the compilation is thrown exactly as
    [compileContract] threw it, and nothing is sent. A transaction is sent
    only for a contract that compiled, from the wallet of the network, with
    the deploy data of the compiled bytecode and the buffered gas estimate
    of the node. Every error [deployContract] throws has a code and a
    name. *)
Theorem deployContract_errors (self : Templates.ContractTemplates)
    (contractName contractCode : string) (constructorArgs : list string) :
  let run := Templates.deployContract self contractName contractCode constructorArgs in
  let compilation := Templates.compileContract contractCode contractName in
  (isWalletConnected (Templates.networkName self) = false ->
   run = (Throw (Templates.createWalletError "WALLET_NOT_CONNECTED"
                   ("Wallet not connected for network: " +:+ Templates.networkName self)
                   [("context", DString "ContractTemplates");
                    ("network", DString (Templates.networkName self))]), [])) /\
  (isWalletConnected (Templates.networkName self) = true ->
   forall e, compilation.1 = Throw e -> run = (Throw e, compilation.2)) /\
  (forall w data gasLimit,
     Templates.Sent w data gasLimit ∈ run.2 ->
     exists compiled E,
       compilation.1 = Return compiled /\
       Templates.getWallet (Templates.networkName self) = Return (Some w) /\
       Templates.factory_getDeployTransaction (Templates.abi compiled)
         ("0x" +:+ Templates.bytecode compiled) constructorArgs = Return data /\
       provider_estimateGas
         (mkTx (Some (Templates.wallet_address w)) None None (Some data) None None None None)
       = Return E /\
       gasLimit = addGasBuffer E) /\
  (forall e, run.1 = Throw e -> Templates.isCustomError e = true).
Proof.
  cbn zeta.
  pose proof (compileContract_events contractCode contractName) as Hev.
  pose proof (compileContract_error_custom contractCode contractName) as Hcustom.
  templates_unfold.
  destruct (isWalletConnected _) eqn:Hconn; cbn [negb].
  2:{ split; [done|]. split; [done|]. split; [by intros ? ? ? ?%elem_of_nil|].
      by intros e [= <-]. }
  destruct (Templates.compileContract contractCode contractName)
    as [[compiled|e0] events] eqn:Hcompile; cbn [fst snd] in *.
  2:{ rewrite (Hcustom e0 eq_refl). cbn. split; [done|].
      split; [intros _ e [= <-]; by rewrite !app_nil_r|].
      split; [|intros e [= <-]; by apply Hcustom].
      intros w data g Hin. rewrite !app_nil_r in Hin.
      by destruct (Hev _ Hin). }
  split; [done|]. split; [done|].
  destruct (Templates.getWallet _) as [[w|]|e0] eqn:Hw; cbn.
  - destruct (Templates.factory_getDeployTransaction _ _ _) as [data|e0] eqn:Hdata; cbn.
    2:{ split; [|by intros e [= <-]]. intros w' d' g Hin. sent_cases Hev Hin. }
    destruct (provider_estimateGas _) as [E|e0] eqn:HE; cbn.
    2:{ split; [|by intros e [= <-]]. intros w' d' g Hin. sent_cases Hev Hin. }
    destruct (Templates.wallet_sendTransaction _ _ _) as [tx|e0]; cbn.
    2:{ split; [|by intros e [= <-]]. intros w' d' g Hin. sent_cases Hev Hin.
        by exists compiled, E. }
    destruct (Templates.tx_wait tx) as [receipt|e0]; cbn.
    2:{ split; [|by intros e [= <-]]. intros w' d' g Hin. sent_cases Hev Hin.
        by exists compiled, E. }
    split; [|done]. intros w' d' g Hin. sent_cases Hev Hin. by exists compiled, E.
  - destruct (Templates.factory_getDeployTransaction _ _ _) as [data|e0]; cbn;
      (split; [|by intros e [= <-]]); intros w' d' g Hin; sent_cases Hev Hin.
  - destruct (Templates.isCustomError e0) eqn:Hc; cbn;
      (split; [|by intros e [= <-]]); intros w' d' g Hin; sent_cases Hev Hin.
Qed.

Lemma encodeConstructorArgs_returns (abi : list Templates.AbiItem) (args : list string) :
  exists text events,
    Templates.encodeConstructorArgs abi args = (Return text, events) /\
    forall ev, ev ∈ events -> exists line, ev = Templates.Warned line.
Proof.
  unfold Templates.encodeConstructorArgs, Templates.try_catch, Templates.bind,
    Templates.await, Templates.throw, Templates.ret, Templates.emit.
  destruct (find _ abi) as [constructor|]; [|by eexists _, _; split; [|intros ? ?%elem_of_nil]].
  destruct (Templates.item_inputs constructor) as [inputs|];
    [|by eexists _, _; split; [|intros ? ?%elem_of_nil]].
  destruct (_ =? _)%nat; [by eexists _, _; split; [|intros ? ?%elem_of_nil]|].
  destruct (Templates.iface_encodeDeploy _ _); cbn.
  - by eexists _, _; split; [|intros ? ?%elem_of_nil].
  - eexists _, _. split; [done|]. intros ev ->%list_elem_of_singleton. by eexists.
Qed.

(** X24: [verifyContract] checks its inputs before doing anything: without an
    explorer API key it throws [INVALID_PARAMETERS], whatever the address,
    and with a key and an invalid address it throws [INVALID_ADDRESS]; in
    both cases nothing is compiled, logged or posted. Past the checks,
    nothing is posted unless the contract compiled, and what is posted goes
    to the explorer's API with the caller's key, address, name and source.
    It returns only when the explorer answers with status ["1"], and gives
    back the explorer's result as [guid]. Every other failure, a failed
    compilation included, is thrown as a [TransactionError] with code
    [CONTRACT_ERROR] and a message that begins with
    ["Verification failed: "]. *)
Theorem verifyContract_checks (self : Templates.ContractTemplates)
    (contractAddress contractName contractCode : string) (constructorArgs : list string) :
  let run := Templates.verifyContract self contractAddress contractName contractCode
               constructorArgs in
  (Js.truthy_ostring (Templates.explorerApiKey self) = false ->
   run = (Throw (createTransactionError "INVALID_PARAMETERS" "Explorer API key not provided"
                   [("context", DString "ContractTemplates.verifyContract")]), [])) /\
  (Js.truthy_ostring (Templates.explorerApiKey self) = true ->
   isAddress contractAddress = false ->
   run = (Throw (createTransactionError "INVALID_ADDRESS" "Invalid contract address"
                   [("contractAddress", DString contractAddress)]), [])) /\
  (forall url form,
     Templates.Posted url form ∈ run.2 ->
     url = "https://api.polygonscan.com/api" /\
     Templates.explorerApiKey self = Some (Templates.apikey form) /\
     Templates.contractaddress form = contractAddress /\
     Templates.contractname form = contractName /\
     Templates.sourceCode form = contractCode /\
     exists compiled,
       (Templates.compileContract contractCode contractName).1 = Return compiled) /\
  (forall v, run.1 = Return v ->
     exists form response,
       Templates.Posted "https://api.polygonscan.com/api" form ∈ run.2 /\
       Templates.axios_post "https://api.polygonscan.com/api" form = Return response /\
       Templates.response_status response = "1" /\
       Templates.status v = "Verification submitted" /\
       Templates.guid v = Templates.response_result response) /\
  (forall e, run.1 = Throw e ->
     Js.truthy_ostring (Templates.explorerApiKey self) = true ->
     isAddress contractAddress = true ->
     name e = "TransactionError" /\ code e = Some "CONTRACT_ERROR" /\
     exists cause, message e = "Verification failed: " +:+ cause).
Proof.
  cbn zeta.
  pose proof (compileContract_events contractCode contractName) as Hev.
  unfold Templates.verifyContract.
  destruct (Templates.explorerApiKey self) as [key|] eqn:Hkey; cbn [Js.truthy_ostring].
  2:{ cbn. split; [done|]. split; [done|]. split; [by intros ? ? ?%elem_of_nil|].
      split; [done|]. done. }
  destruct (Js.truthy_string key) eqn:Htruthy; cbn [negb].
  2:{ cbn. split; [done|]. split; [done|]. split; [by intros ? ? ?%elem_of_nil|].
      split; [done|]. done. }
  destruct (isAddress contractAddress) eqn:Haddr; cbn [negb].
  2:{ cbn. split; [done|]. split; [done|]. split; [by intros ? ? ?%elem_of_nil|].
      split; [done|]. done. }
  split; [done|]. split; [done|].
  unfold Templates.try_catch, Templates.bind, Templates.await, Templates.throw,
    Templates.ret, Templates.emit.
  destruct (Templates.compileContract contractCode contractName)
    as [[compiled|e0] events] eqn:Hcompile; cbn [fst snd] in *.
  2:{ cbn. split; [|split; [done|]].
      - intros url form Hin. rewrite app_nil_r in Hin. by destruct (Hev _ Hin).
      - intros e [= <-] _ _. cbn. eauto. }
  destruct (encodeConstructorArgs_returns (Templates.abi compiled) constructorArgs)
    as (text & events' & -> & Hev').
  set (form := Templates.mkVerificationData _ _ _ _ _ _ _ _ _ _ _).
  assert (Hposted : forall url form' (rest : list Templates.Event),
            rest = [] ->
            Templates.Posted url form'
              ∈ events ++ events' ++ Templates.Posted "https://api.polygonscan.com/api" form
                                      :: rest ->
            url = "https://api.polygonscan.com/api" /\
            Some key = Some (Templates.apikey form') /\
            Templates.contractaddress form' = contractAddress /\
            Templates.contractname form' = contractName /\
            Templates.sourceCode form' = contractCode /\
            exists compiled0, Return compiled = Return compiled0).
  { intros url form' rest -> Hin.
    apply elem_of_app in Hin as [Hin|Hin]; [by destruct (Hev _ Hin)|].
    apply elem_of_app in Hin as [Hin|Hin]; [by destruct (Hev' _ Hin)|].
    apply list_elem_of_singleton in Hin as [= -> ->]. cbn. eauto 10. }
  assert (Hin : forall (rest : list Templates.Event),
            Templates.Posted "https://api.polygonscan.com/api" form
              ∈ events ++ events' ++ Templates.Posted "https://api.polygonscan.com/api" form
                                      :: rest).
  { intros rest. apply elem_of_app. right. apply elem_of_app. right. by left. }
  destruct (Templates.axios_post _ form) as [response|e0] eqn:Hpost; cbn.
  2:{ split; [|split; [done|]].
      - intros url form' Hin'. apply (Hposted url form' []); [done|].
        by rewrite ?app_nil_r in Hin'.
      - intros e [= <-] _ _. cbn. eauto. }
  destruct (String.eqb_spec (Templates.response_status response) "1") as [Hstatus|Hstatus];
    cbn.
  - split; [|split; [|done]].
    + intros url form' Hin'. apply (Hposted url form' []); [done|].
      by rewrite ?app_nil_r in Hin'.
    + intros v [= <-]. exists form, response. rewrite ?app_nil_r. by split; [apply Hin|].
  - split; [|split; [done|]].
    + intros url form' Hin'. apply (Hposted url form' []); [done|].
      by rewrite ?app_nil_r in Hin'.
    + intros e [= <-] _ _. cbn. eauto.
Qed.

End TemplateProperties.

(** A deployment whose receipt never comes: the error is thrown after the
    transaction has been sent. *)
Example deployContract_fails_after_broadcast :
  Templates.deployContract (provider := Examples.steadyNode)
    (walletManager := Examples.connectedWallet) (compiler := Examples.helloCompiler)
    (deployer := Examples.lostReceiptDeployer) (walletStore := Examples.signerStore)
    (Templates.mkContractTemplates None "polygon") "Hello" "contract Hello {}" []
  = (Throw (createTransactionError "CONTRACT_ERROR"
              "Contract deployment failed: timeout exceeded"
              [("contractName", DString "Hello")]),
     [Templates.Warned "Compilation warning: unused variable";
      Templates.Sent Examples.signer "0x6080" 60000]).
Proof. reflexivity. Qed.

(** ** What a simulation logs *)

Section SimulationWarnings.
Context {ethers : EthersLibrary} {provider : ChainProvider}
        {erc20 : ERC20Binding} {walletManager : WalletManager}.

Lemma fillGasLimit_warnings (l : loc) (s : State) :
  wp (fillGasLimit l)
     (fun _ s' => warnings s' = warnings s ++ limitWarnings (deref (heap s) l))
     (fun _ _ => False) s.
Proof.
  unfold fillGasLimit, limitWarnings. apply wp_bind, wp_read.
  destruct (truthy_oquantity _); cbn [negb].
  - apply wp_ret. by rewrite app_nil_r.
  - apply wp_try_catch, wp_bind, wp_await.
    destruct (provider_estimateGas _) as [E|e].
    + apply wp_assign. cbn. by rewrite app_nil_r.
    + by apply wp_bind, wp_assign, wp_warn.
Qed.

Lemma fillFees_warnings (l : loc) (s : State) :
  wp (fillFees l) (fun _ s' => warnings s' = warnings s)
     (fun _ s' => warnings s' = warnings s) s.
Proof. unfold fillFees. repeat wp_step; by cbn. Qed.

Lemma speculativeCall_warnings (l : loc) (b : Z) (r : SimulationResult) (s : State) :
  wp (speculativeCall l b r) (fun _ s' => warnings s' = warnings s) (fun _ _ => False) s.
Proof. unfold speculativeCall. repeat wp_step; by cbn. Qed.

(** X25: What [simulateTransaction] logs. It logs the warning
    ["Gas estimation failed: ... Using default value."] exactly when the
    request has no gas limit and the node cannot estimate the gas of the
    request with its sender filled in; after that at most one more line, a
    ["Failed to decode ERC20 transfer: ..."] warning of the transfer
    detection; and nothing else, whatever fails. *)
Theorem simulateTransaction_warnings (transaction : loc) (s : State) :
  let t0 := withSender (deref (heap s) transaction) in
  exists r s' rest,
    simulateTransaction transaction s = (Return r, s') /\
    warnings s'
    = warnings s ++
      (if truthy_oquantity (tx_gasLimit t0) then []
       else match provider_estimateGas t0 with
            | Return _ => []
            | Throw error =>
                ["Gas estimation failed: " +:+ message error +:+ ". Using default value."]
            end) ++ rest /\
    (rest = [] \/ exists m, rest = ["Failed to decode ERC20 transfer: " +:+ m]).
Proof.
  intros t0.
  assert (Hwp : wp (simulateTransaction transaction)
                  (fun _ s' => exists rest,
                     warnings s' = warnings s ++ limitWarnings t0 ++ rest /\
                     (rest = [] \/
                      exists m, rest = ["Failed to decode ERC20 transfer: " +:+ m]))
                  (fun _ _ => False) s).
  { unfold simulateTransaction. apply wp_try_catch.
    assert (Hnone : forall w : list string, w = warnings s ++ limitWarnings t0 ->
              exists rest, w = warnings s ++ limitWarnings t0 ++ rest /\
                (rest = [] \/
                 exists m, rest = ["Failed to decode ERC20 transfer: " +:+ m])).
    { intros w ->. exists []. by rewrite app_nil_r; auto. }
    apply wp_bind, wp_spread. set (l := workingCopy s). set (s1 := mkState _ _).
    assert (Hl1 : heap s1 !! l = Some (deref (heap s) transaction))
      by apply lookup_insert_eq.
    apply wp_bind. eapply wp_mono; [apply fillFrom_spec| |done].
    intros [] s2 (Hd2 & _ & Hw2). cbn beta.
    rewrite (deref_Some _ _ _ Hl1) in Hd2. fold t0 in Hd2.
    apply wp_bind. eapply wp_mono; [apply fillGasLimit_warnings| |done].
    intros [] s3 Hw3. cbn beta. rewrite Hd2, Hw2 in Hw3. cbn [warnings s1] in Hw3.
    apply wp_bind. eapply wp_mono; [apply fillFees_warnings| |].
    2:{ intros e s4 Hw4. apply wp_ret, Hnone. congruence. }
    intros [] s4 Hw4. cbn beta. apply wp_bind, wp_await.
    destruct provider_getBlockNumber as [b|e]; [|apply wp_ret, Hnone; congruence].
    apply wp_bind. eapply wp_mono; [apply speculativeCall_warnings| |done].
    intros r1 s5 Hw5. cbn beta.
    apply wp_bind. eapply wp_mono; [apply reestimateGas_exact| |done].
    intros r2 s6 (_ & ->). cbn beta.
    apply wp_bind. eapply wp_mono; [apply detectTokenTransfers_effects| |done].
    intros r3 s7 (_ & Hw7). cbn beta.
    assert (Hrest : exists rest,
              warnings s7 = warnings s ++ limitWarnings t0 ++ rest /\
              (rest = [] \/
               exists m, rest = ["Failed to decode ERC20 transfer: " +:+ m])).
    { destruct Hw7 as [(tr & _ & _ & _ & _ & Hw)|(_ & [Hw|[m Hw]])].
      - apply Hnone. congruence.
      - apply Hnone. congruence.
      - exists ["Failed to decode ERC20 transfer: " +:+ m].
        split; [|by eauto]. rewrite Hw, Hw5, Hw4, Hw3. by rewrite <- app_assoc. }
    apply wp_bind. eapply wp_mono; [apply contractCreation_exact| |].
    2:{ intros e s8 (-> & _). by apply wp_ret. }
    intros r4 s8 (-> & _). cbn beta.
    apply wp_bind. eapply wp_mono; [apply addGasCost_exact| |].
    2:{ intros e s9 (-> & _). by apply wp_ret. }
    intros r5 s9 (-> & _). cbn beta. by apply wp_ret. }
  unfold wp in Hwp. destruct (simulateTransaction transaction s) as [[r|e] s']; [|done].
  destruct Hwp as (rest & Hw & Hrest). by exists r, s', rest.
Qed.

End SimulationWarnings.
